(** * Cyberpunk RPG: combat resolution and player progression

    A shallow embedding of [items.py], [player.py] and [combat.py], and the
    properties of the combat engine checked against it.

    Conventions of the embedding.
    - Python [int] is [Z]; [//] is [Z.div] (floor), written [`div`].
    - A [float] product such as [base * 1.5] is taken as the exact rational
      ([Q]); [int(...)] truncates toward zero.  The doubles of the
      interpreter give the same integers while the operands are small:
      [n * 1.5] for [|n| < 2^51], the reward products for levels from 0 to
      below [2^48], the cooldown arithmetic for cooldowns from 0 to [10^9]
      seconds.  The embedding is meant on that domain (beyond it the doubles
      round, and from about 1.8e308 on the conversion raises
      [OverflowError]); the statements about these values carry the bound
      as a hypothesis.
    - [random] is a generator threaded through the code as explicit state; a
      draw reads the next integer of an arbitrary supply and reduces it into
      the requested range.  The draws of the library are uniform and
      independent: [random.law] lists the results of a computation over the
      equally likely values of its draws.
    - [datetime.now()] is an argument of the function that reads the clock.
    - Dictionaries built for persistence are [gmap string value]; dictionaries
      with a fixed set of keys built and consumed inside the engine (stats,
      round records, battle results) are records.
    - Objects are values; a method that mutates [self] returns the new one. *)

From Stdlib Require Import ZArith QArith Qround Lia List.
From stdpp Require Import gmap strings list fin_maps sorting.

#[local] Open Scope Z_scope.

(** ** Python built-ins *)

(** [int(x)] for a float [x]: truncation toward zero. *)
Definition int (x : Q) : Z :=
  if Qle_bool 0 x then Qfloor x else Qceiling x.

(** Time stamps, in microseconds since the epoch. *)
Definition datetime := Z.

(** [timedelta.total_seconds()] of a difference of two time stamps: a
    float, taken as the exact rational like the products.  Compared with,
    or subtracted from, a cooldown from 0 to [10^9] seconds, the double
    gives the same truth value and the same integer after [int]. *)
Definition total_seconds (delta : Z) : Q := delta # 1000000.

(** [seq[start:]] and [seq[:stop]]: a negative bound counts from the end,
    and a bound outside the list is clamped to it. *)
Definition slice_from {A} (start : Z) (seq : list A) : list A :=
  let n := Z.of_nat (length seq) in
  let start := if start <? 0 then Z.max 0 (start + n) else Z.min start n in
  drop (Z.to_nat start) seq.

Definition slice_to {A} (stop : Z) (seq : list A) : list A :=
  let n := Z.of_nat (length seq) in
  let stop := if stop <? 0 then Z.max 0 (stop + n) else Z.min stop n in
  take (Z.to_nat stop) seq.

(** [sorted(seq, key=key, reverse=True)]: decreasing keys, items of equal
    key in the order they had in [seq]. *)
Fixpoint insert_reverse {A} (key : A -> Z) (x : A) (sorted : list A)
  : list A :=
  match sorted with
  | [] => [x]
  | y :: rest =>
      if key x <? key y then y :: insert_reverse key x rest
      else x :: y :: rest
  end.

Definition sorted_reverse {A} (key : A -> Z) (seq : list A) : list A :=
  foldr (insert_reverse key) [] seq.

(** ** The [random] module *)

Module random.

(** The generator: an endless supply of integers, read from the front. *)
Definition state := nat -> Z.

Definition Rand (A : Type) : Type := state -> A * state.

Definition ret {A} (a : A) : Rand A := fun g => (a, g).

Definition bind {A B} (m : Rand A) (k : A -> Rand B) : Rand B :=
  fun g => let (a, g') := m g in k a g'.

Definition next : Rand Z :=
  fun g => (g 0%nat, fun n => g (S n)).

(** [random.randint(a, b)]: an integer [N] with [a <= N <= b]. *)
Definition randint (a b : Z) : Rand Z :=
  bind next (fun r => ret (a + r `mod` (b - a + 1))).

(** [random.choice(seq)]: the element at a drawn index; [IndexError]
    ([None]) on an empty sequence. *)
Definition choice {A} (seq : list A) : Rand (option A) :=
  bind next (fun r =>
    ret (seq !! Z.to_nat (r `mod` Z.of_nat (length seq)))).

(** *** Distribution of the draws

    A draw over a range of [n] values ([randint(a, b)] with
    [n = b - a + 1], [choice] on [n] elements) takes each of them with the
    same probability, independently of the other draws.  For a computation
    whose successive draws have the range sizes [ranges], [draws ranges]
    lists the equally likely sequences of raw values, and [law m ranges] the
    result of [m] on each of them: the probability of an event is its share
    of that list. *)
Fixpoint draws (ranges : list nat) : list (list Z) :=
  match ranges with
  | [] => [[]]
  | n :: ranges => k ← seqZ 0 (Z.of_nat n); (k ::.) <$> draws ranges
  end.

(** The generator that supplies the values of [raw], then zeros. *)
Definition supplying (raw : list Z) : state :=
  fun i => default 0 (raw !! i).

Definition law {A} (m : Rand A) (ranges : list nat) : list A :=
  (fun raw => (m (supplying raw)).1) <$> draws ranges.

Definition probability {A} (event : A -> bool) (outcomes : list A) : Q :=
  Z.of_nat (length (List.filter event outcomes))
  # Pos.of_nat (length outcomes).

End random.

Notation "x <~ m ;; k" := (random.bind m (fun x => k))
  (at level 200, m at level 99, k at level 200, only parsing).

(** ** items.py *)

Module items.

(** Values stored in an item dictionary. *)
Inductive value :=
| Int (z : Z)
| Str (s : string).

Record Item := {
  name : string;
  type : string;
  rarity : string;
  description : string;
  cost : Z;
  attack_bonus : Z;
  defense_bonus : Z;
  speed_bonus : Z;
  critical_bonus : Z
}.

Definition to_dict (self : Item) : gmap string value :=
  <["name" := Str (name self)]>
  (<["type" := Str (type self)]>
  (<["rarity" := Str (rarity self)]>
  (<["description" := Str (description self)]>
  (<["cost" := Int (cost self)]>
  (<["attack_bonus" := Int (attack_bonus self)]>
  (<["defense_bonus" := Int (defense_bonus self)]>
  (<["speed_bonus" := Int (speed_bonus self)]>
  (<["critical_bonus" := Int (critical_bonus self)]> ∅)))))))).

(** [data[key]] read as a string / an integer: [None] is the [KeyError],
    or a value of the other kind. *)
Definition get_str (data : gmap string value) (key : string)
  : option string :=
  match data !! key with Some (Str s) => Some s | _ => None end.

Definition get_int (data : gmap string value) (key : string)
  : option Z :=
  match data !! key with Some (Int z) => Some z | _ => None end.

(** [data.get(key, default)] read as an integer. *)
Definition get_int_default (data : gmap string value) (key : string)
    (default : Z) : option Z :=
  match data !! key with
  | None => Some default
  | Some (Int z) => Some z
  | Some (Str _) => None
  end.

Definition from_dict (data : gmap string value) : option Item :=
  name ← get_str data "name";
  item_type ← get_str data "type";
  rarity ← get_str data "rarity";
  description ← get_str data "description";
  cost ← get_int data "cost";
  attack_bonus ← get_int_default data "attack_bonus" 0;
  defense_bonus ← get_int_default data "defense_bonus" 0;
  speed_bonus ← get_int_default data "speed_bonus" 0;
  critical_bonus ← get_int_default data "critical_bonus" 0;
  Some {| name := name; type := item_type; rarity := rarity;
          description := description; cost := cost;
          attack_bonus := attack_bonus; defense_bonus := defense_bonus;
          speed_bonus := speed_bonus; critical_bonus := critical_bonus |}.

(** [Item.__init__], whose four bonuses default to 0. *)
Definition Item_init (name item_type rarity description : string) (cost : Z)
    (attack_bonus defense_bonus speed_bonus critical_bonus : Z) : Item :=
  {| name := name; type := item_type; rarity := rarity;
     description := description; cost := cost;
     attack_bonus := attack_bonus; defense_bonus := defense_bonus;
     speed_bonus := speed_bonus; critical_bonus := critical_bonus |}.

Record ItemManager := {
  items_database : list Item;
  rarity_weights : gmap string Z
}.

Definition _create_items_database : list Item :=
  let items := [] in
  let items := items ++ [
    Item_init "Кибер-меч" "weapon" "common"
      "Базовый кибер-меч с энергетическим лезвием" 100 5 0 0 0;
    Item_init "Плазменный пистолет" "weapon" "rare"
      "Мощный плазменный пистолет" 300 12 0 0 0;
    Item_init "Квантовый лазер" "weapon" "epic"
      "Продвинутый квантовый лазер" 800 20 0 0 0;
    Item_init "Нейронный деструктор" "weapon" "legendary"
      "Легендарное оружие будущего" 2000 35 0 0 0;
    Item_init "Нанобот-кастет" "weapon" "common"
      "Кастет с наноботами" 80 4 0 0 0;
    Item_init "Гравитационная пушка" "weapon" "epic"
      "Оружие, использующее гравитацию" 1200 25 0 0 0;
    Item_init "Хроно-бластер" "weapon" "legendary"
      "Оружие, замедляющее время" 2500 40 0 0 0
  ] in
  let items := items ++ [
    Item_init "Кибер-жилет" "armor" "common"
      "Легкая кибер-броня" 120 0 8 0 0;
    Item_init "Нейронный костюм" "armor" "rare"
      "Броня с нейронной защитой" 400 0 15 0 0;
    Item_init "Квантовая броня" "armor" "epic"
      "Продвинутая квантовая защита" 1000 0 25 0 0;
    Item_init "Хроно-щит" "armor" "legendary"
      "Легендарная броня времени" 2500 0 40 0 0;
    Item_init "Нанобот-панцирь" "armor" "rare"
      "Броня из наноботов" 350 0 12 0 0;
    Item_init "Плазменный щит" "armor" "epic"
      "Энергетический щит" 900 0 22 0 0
  ] in
  let items := items ++ [
    Item_init "Нейронный ускоритель" "implant" "common"
      "Базовый имплант для ускорения" 150 0 0 3 0;
    Item_init "Кибер-глаз" "implant" "rare"
      "Имплант с улучшенным зрением" 500 0 0 0 8;
    Item_init "Квантовый процессор" "implant" "epic"
      "Продвинутый мозговой имплант" 1200 0 0 8 12;
    Item_init "Хроно-имплант" "implant" "legendary"
      "Легендарный имплант времени" 3000 0 0 15 20;
    Item_init "Нанобот-стимулятор" "implant" "rare"
      "Имплант для стимуляции" 400 0 0 5 0;
    Item_init "Плазменный активатор" "implant" "epic"
      "Имплант плазменной энергии" 1000 0 0 0 15
  ] in
  let items := items ++ [
    Item_init "Меди-гель" "utility" "common"
      "Восстанавливает здоровье" 50 0 0 0 0;
    Item_init "Энергетический стимулятор" "utility" "rare"
      "Временно увеличивает характеристики" 200 0 0 0 0;
    Item_init "Квантовый регенератор" "utility" "epic"
      "Быстрое восстановление" 600 0 0 0 0;
    Item_init "Хроно-ревертер" "utility" "legendary"
      "Полное восстановление" 1500 0 0 0 0;
    Item_init "Нанобот-ремонтник" "utility" "rare"
      "Автоматический ремонт" 300 0 0 0 0;
    Item_init "Плазменный аккумулятор" "utility" "epic"
      "Увеличивает максимальное здоровье" 800 0 0 0 0
  ] in
  items.

(** [ItemManager.__init__] *)
Definition ItemManager_init : ItemManager :=
  {| items_database := _create_items_database;
     rarity_weights :=
       <["common" := 60]> (<["rare" := 30]> (<["epic" := 8]>
       (<["legendary" := 2]> ∅))) |}.

Definition get_items_by_type (self : ItemManager) (item_type : string)
  : list Item :=
  filter (fun item => type item = item_type) (items_database self).

Definition get_items_by_rarity (self : ItemManager) (rarity : string)
  : list Item :=
  filter (fun item => items.rarity item = rarity) (items_database self).

(** [get_random_item]; [rarity] is [None] or a string, and an empty string
    counts as [None].  With nothing available the method calls itself for
    the "common" rarity; [fuel] bounds the depth of these calls, and [None]
    means the bound was reached. *)
Fixpoint get_random_item (fuel : nat) (self : ItemManager)
    (rarity : option string) : random.Rand (option Item) :=
  let available_items :=
    match rarity with
    | Some r =>
        if String.eqb r "" then items_database self
        else filter (fun item => items.rarity item = r) (items_database self)
    | None => items_database self
    end in
  match available_items with
  | [] =>
      match fuel with
      | O => random.ret None
      | S fuel => get_random_item fuel self (Some "common")
      end
  | _ => random.choice available_items
  end.

(** The loop of [get_shop_items] over the four rarities; [None] is the
    [IndexError] of [random.choice]. *)
Fixpoint shop_loop (self : ItemManager) (rarities : list string)
    (shop_items : list Item) : random.Rand (option (list Item)) :=
  match rarities with
  | [] => random.ret (Some shop_items)
  | rarity :: rest =>
      let items := get_items_by_rarity self rarity in
      match items with
      | [] => shop_loop self rest shop_items
      | _ =>
          picked <~ random.choice items ;;
          match picked with
          | Some item => shop_loop self rest (shop_items ++ [item])
          | None => random.ret None
          end
      end
  end.

Definition get_shop_items (self : ItemManager)
  : random.Rand (option (list Item)) :=
  let shop_items := [] in
  shop_loop self ["common"; "rare"; "epic"; "legendary"] shop_items.

End items.

(** ** player.py *)

Module player.

Import items.

(** The dictionary returned by [get_total_stats]; its four keys are fixed. *)
Module Stats.
Record t := { attack : Z; defense : Z; speed : Z; critical_damage : Z }.
End Stats.

Record Player := {
  user_id : Z;
  username : string;
  level : Z;
  experience : Z;
  experience_to_next_level : Z;
  credits : Z;
  health : Z;
  max_health : Z;
  attack : Z;
  defense : Z;
  speed : Z;
  critical_damage : Z;
  combat_wins : Z;
  combat_losses : Z;
  items_found : Z;
  playtime_start : datetime;
  last_combat : option datetime;
  last_search : option datetime;
  inventory : list Item;
  equipped_items : gmap string Item;
  combat_cooldown : Z;
  search_cooldown : Z
}.

(** *** Attribute assignment: [self.f = v] *)

Definition set_level (v : Z) (self : Player) : Player :=
  {| user_id := user_id self; username := username self; level := v;
     experience := experience self;
     experience_to_next_level := experience_to_next_level self;
     credits := credits self; health := health self;
     max_health := max_health self; attack := attack self;
     defense := defense self; speed := speed self;
     critical_damage := critical_damage self;
     combat_wins := combat_wins self; combat_losses := combat_losses self;
     items_found := items_found self; playtime_start := playtime_start self;
     last_combat := last_combat self; last_search := last_search self;
     inventory := inventory self; equipped_items := equipped_items self;
     combat_cooldown := combat_cooldown self;
     search_cooldown := search_cooldown self |}.

Definition set_experience (v : Z) (self : Player) : Player :=
  {| user_id := user_id self; username := username self; level := level self;
     experience := v;
     experience_to_next_level := experience_to_next_level self;
     credits := credits self; health := health self;
     max_health := max_health self; attack := attack self;
     defense := defense self; speed := speed self;
     critical_damage := critical_damage self;
     combat_wins := combat_wins self; combat_losses := combat_losses self;
     items_found := items_found self; playtime_start := playtime_start self;
     last_combat := last_combat self; last_search := last_search self;
     inventory := inventory self; equipped_items := equipped_items self;
     combat_cooldown := combat_cooldown self;
     search_cooldown := search_cooldown self |}.

Definition set_experience_to_next_level (v : Z) (self : Player) : Player :=
  {| user_id := user_id self; username := username self; level := level self;
     experience := experience self; experience_to_next_level := v;
     credits := credits self; health := health self;
     max_health := max_health self; attack := attack self;
     defense := defense self; speed := speed self;
     critical_damage := critical_damage self;
     combat_wins := combat_wins self; combat_losses := combat_losses self;
     items_found := items_found self; playtime_start := playtime_start self;
     last_combat := last_combat self; last_search := last_search self;
     inventory := inventory self; equipped_items := equipped_items self;
     combat_cooldown := combat_cooldown self;
     search_cooldown := search_cooldown self |}.

Definition set_credits (v : Z) (self : Player) : Player :=
  {| user_id := user_id self; username := username self; level := level self;
     experience := experience self;
     experience_to_next_level := experience_to_next_level self; credits := v;
     health := health self; max_health := max_health self;
     attack := attack self; defense := defense self; speed := speed self;
     critical_damage := critical_damage self;
     combat_wins := combat_wins self; combat_losses := combat_losses self;
     items_found := items_found self; playtime_start := playtime_start self;
     last_combat := last_combat self; last_search := last_search self;
     inventory := inventory self; equipped_items := equipped_items self;
     combat_cooldown := combat_cooldown self;
     search_cooldown := search_cooldown self |}.

Definition set_health (v : Z) (self : Player) : Player :=
  {| user_id := user_id self; username := username self; level := level self;
     experience := experience self;
     experience_to_next_level := experience_to_next_level self;
     credits := credits self; health := v; max_health := max_health self;
     attack := attack self; defense := defense self; speed := speed self;
     critical_damage := critical_damage self;
     combat_wins := combat_wins self; combat_losses := combat_losses self;
     items_found := items_found self; playtime_start := playtime_start self;
     last_combat := last_combat self; last_search := last_search self;
     inventory := inventory self; equipped_items := equipped_items self;
     combat_cooldown := combat_cooldown self;
     search_cooldown := search_cooldown self |}.

Definition set_max_health (v : Z) (self : Player) : Player :=
  {| user_id := user_id self; username := username self; level := level self;
     experience := experience self;
     experience_to_next_level := experience_to_next_level self;
     credits := credits self; health := health self; max_health := v;
     attack := attack self; defense := defense self; speed := speed self;
     critical_damage := critical_damage self;
     combat_wins := combat_wins self; combat_losses := combat_losses self;
     items_found := items_found self; playtime_start := playtime_start self;
     last_combat := last_combat self; last_search := last_search self;
     inventory := inventory self; equipped_items := equipped_items self;
     combat_cooldown := combat_cooldown self;
     search_cooldown := search_cooldown self |}.

Definition set_attack (v : Z) (self : Player) : Player :=
  {| user_id := user_id self; username := username self; level := level self;
     experience := experience self;
     experience_to_next_level := experience_to_next_level self;
     credits := credits self; health := health self;
     max_health := max_health self; attack := v; defense := defense self;
     speed := speed self; critical_damage := critical_damage self;
     combat_wins := combat_wins self; combat_losses := combat_losses self;
     items_found := items_found self; playtime_start := playtime_start self;
     last_combat := last_combat self; last_search := last_search self;
     inventory := inventory self; equipped_items := equipped_items self;
     combat_cooldown := combat_cooldown self;
     search_cooldown := search_cooldown self |}.

Definition set_defense (v : Z) (self : Player) : Player :=
  {| user_id := user_id self; username := username self; level := level self;
     experience := experience self;
     experience_to_next_level := experience_to_next_level self;
     credits := credits self; health := health self;
     max_health := max_health self; attack := attack self; defense := v;
     speed := speed self; critical_damage := critical_damage self;
     combat_wins := combat_wins self; combat_losses := combat_losses self;
     items_found := items_found self; playtime_start := playtime_start self;
     last_combat := last_combat self; last_search := last_search self;
     inventory := inventory self; equipped_items := equipped_items self;
     combat_cooldown := combat_cooldown self;
     search_cooldown := search_cooldown self |}.

Definition set_speed (v : Z) (self : Player) : Player :=
  {| user_id := user_id self; username := username self; level := level self;
     experience := experience self;
     experience_to_next_level := experience_to_next_level self;
     credits := credits self; health := health self;
     max_health := max_health self; attack := attack self;
     defense := defense self; speed := v;
     critical_damage := critical_damage self;
     combat_wins := combat_wins self; combat_losses := combat_losses self;
     items_found := items_found self; playtime_start := playtime_start self;
     last_combat := last_combat self; last_search := last_search self;
     inventory := inventory self; equipped_items := equipped_items self;
     combat_cooldown := combat_cooldown self;
     search_cooldown := search_cooldown self |}.

Definition set_critical_damage (v : Z) (self : Player) : Player :=
  {| user_id := user_id self; username := username self; level := level self;
     experience := experience self;
     experience_to_next_level := experience_to_next_level self;
     credits := credits self; health := health self;
     max_health := max_health self; attack := attack self;
     defense := defense self; speed := speed self; critical_damage := v;
     combat_wins := combat_wins self; combat_losses := combat_losses self;
     items_found := items_found self; playtime_start := playtime_start self;
     last_combat := last_combat self; last_search := last_search self;
     inventory := inventory self; equipped_items := equipped_items self;
     combat_cooldown := combat_cooldown self;
     search_cooldown := search_cooldown self |}.

Definition set_combat_wins (v : Z) (self : Player) : Player :=
  {| user_id := user_id self; username := username self; level := level self;
     experience := experience self;
     experience_to_next_level := experience_to_next_level self;
     credits := credits self; health := health self;
     max_health := max_health self; attack := attack self;
     defense := defense self; speed := speed self;
     critical_damage := critical_damage self; combat_wins := v;
     combat_losses := combat_losses self; items_found := items_found self;
     playtime_start := playtime_start self; last_combat := last_combat self;
     last_search := last_search self; inventory := inventory self;
     equipped_items := equipped_items self;
     combat_cooldown := combat_cooldown self;
     search_cooldown := search_cooldown self |}.

Definition set_combat_losses (v : Z) (self : Player) : Player :=
  {| user_id := user_id self; username := username self; level := level self;
     experience := experience self;
     experience_to_next_level := experience_to_next_level self;
     credits := credits self; health := health self;
     max_health := max_health self; attack := attack self;
     defense := defense self; speed := speed self;
     critical_damage := critical_damage self;
     combat_wins := combat_wins self; combat_losses := v;
     items_found := items_found self; playtime_start := playtime_start self;
     last_combat := last_combat self; last_search := last_search self;
     inventory := inventory self; equipped_items := equipped_items self;
     combat_cooldown := combat_cooldown self;
     search_cooldown := search_cooldown self |}.

Definition set_items_found (v : Z) (self : Player) : Player :=
  {| user_id := user_id self; username := username self; level := level self;
     experience := experience self;
     experience_to_next_level := experience_to_next_level self;
     credits := credits self; health := health self;
     max_health := max_health self; attack := attack self;
     defense := defense self; speed := speed self;
     critical_damage := critical_damage self;
     combat_wins := combat_wins self; combat_losses := combat_losses self;
     items_found := v; playtime_start := playtime_start self;
     last_combat := last_combat self; last_search := last_search self;
     inventory := inventory self; equipped_items := equipped_items self;
     combat_cooldown := combat_cooldown self;
     search_cooldown := search_cooldown self |}.

Definition set_playtime_start (v : datetime) (self : Player) : Player :=
  {| user_id := user_id self; username := username self; level := level self;
     experience := experience self;
     experience_to_next_level := experience_to_next_level self;
     credits := credits self; health := health self;
     max_health := max_health self; attack := attack self;
     defense := defense self; speed := speed self;
     critical_damage := critical_damage self;
     combat_wins := combat_wins self; combat_losses := combat_losses self;
     items_found := items_found self; playtime_start := v;
     last_combat := last_combat self; last_search := last_search self;
     inventory := inventory self; equipped_items := equipped_items self;
     combat_cooldown := combat_cooldown self;
     search_cooldown := search_cooldown self |}.

Definition set_last_combat (v : option datetime) (self : Player) : Player :=
  {| user_id := user_id self; username := username self; level := level self;
     experience := experience self;
     experience_to_next_level := experience_to_next_level self;
     credits := credits self; health := health self;
     max_health := max_health self; attack := attack self;
     defense := defense self; speed := speed self;
     critical_damage := critical_damage self;
     combat_wins := combat_wins self; combat_losses := combat_losses self;
     items_found := items_found self; playtime_start := playtime_start self;
     last_combat := v; last_search := last_search self;
     inventory := inventory self; equipped_items := equipped_items self;
     combat_cooldown := combat_cooldown self;
     search_cooldown := search_cooldown self |}.

Definition set_last_search (v : option datetime) (self : Player) : Player :=
  {| user_id := user_id self; username := username self; level := level self;
     experience := experience self;
     experience_to_next_level := experience_to_next_level self;
     credits := credits self; health := health self;
     max_health := max_health self; attack := attack self;
     defense := defense self; speed := speed self;
     critical_damage := critical_damage self;
     combat_wins := combat_wins self; combat_losses := combat_losses self;
     items_found := items_found self; playtime_start := playtime_start self;
     last_combat := last_combat self; last_search := v;
     inventory := inventory self; equipped_items := equipped_items self;
     combat_cooldown := combat_cooldown self;
     search_cooldown := search_cooldown self |}.

Definition set_inventory (v : list Item) (self : Player) : Player :=
  {| user_id := user_id self; username := username self; level := level self;
     experience := experience self;
     experience_to_next_level := experience_to_next_level self;
     credits := credits self; health := health self;
     max_health := max_health self; attack := attack self;
     defense := defense self; speed := speed self;
     critical_damage := critical_damage self;
     combat_wins := combat_wins self; combat_losses := combat_losses self;
     items_found := items_found self; playtime_start := playtime_start self;
     last_combat := last_combat self; last_search := last_search self;
     inventory := v; equipped_items := equipped_items self;
     combat_cooldown := combat_cooldown self;
     search_cooldown := search_cooldown self |}.

(** *** Methods *)

Definition __init__ (now : datetime) (user_id : Z) (username : string)
  : Player :=
  {| user_id := user_id; username := username;
     level := 1; experience := 0; experience_to_next_level := 100;
     credits := 1000; health := 100; max_health := 100;
     attack := 10; defense := 5; speed := 8; critical_damage := 15;
     combat_wins := 0; combat_losses := 0; items_found := 0;
     playtime_start := now; last_combat := None; last_search := None;
     inventory := []; equipped_items := ∅;
     combat_cooldown := 300; search_cooldown := 600 |}.

(** [level_up]; the new threshold is the exact product truncated, which is
    what the double gives for a threshold below 2^51 in absolute value. *)
Definition level_up (self : Player) : Player :=
  let self := set_level (level self + 1) self in
  let self :=
    set_experience (experience self - experience_to_next_level self) self in
  let self :=
    set_experience_to_next_level
      (int (inject_Z (experience_to_next_level self) * 1.5)) self in
  let self := set_max_health (max_health self + 20) self in
  let self := set_health (max_health self) self in
  let self := set_attack (attack self + 3) self in
  let self := set_defense (defense self + 2) self in
  let self := set_speed (speed self + 1) self in
  let self := set_critical_damage (critical_damage self + 1) self in
  set_credits (credits self + 100) self.

Definition add_experience (amount : Z) (self : Player) : bool * Player :=
  let self := set_experience (experience self + amount) self in
  if experience_to_next_level self <=? experience self
  then (true, level_up self)
  else (false, self).

Definition add_credits (amount : Z) (self : Player) : Player :=
  set_credits (credits self + amount) self.

Definition take_damage (damage : Z) (self : Player) : Z * Player :=
  let actual_damage := Z.max 1 (damage - defense self) in
  (actual_damage, set_health (Z.max 0 (health self - actual_damage)) self).

Definition apply_item_effects (item : Item) (self : Player) : Player :=
  if String.eqb (type item) "weapon" then
    set_attack (attack self + attack_bonus item) self
  else if String.eqb (type item) "armor" then
    set_defense (defense self + defense_bonus item) self
  else if String.eqb (type item) "implant" then
    let self := set_speed (speed self + speed_bonus item) self in
    set_critical_damage (critical_damage self + critical_bonus item) self
  else self.

Definition add_item (item : Item) (self : Player) : Player :=
  let self := set_inventory (inventory self ++ [item]) self in
  apply_item_effects item self.

Definition start_combat (now : datetime) (self : Player) : Player :=
  set_last_combat (Some now) self.

Definition start_search (now : datetime) (self : Player) : Player :=
  set_last_search (Some now) self.

Definition spend_credits (amount : Z) (self : Player) : bool * Player :=
  if amount <=? credits self
  then (true, set_credits (credits self - amount) self)
  else (false, self).

Definition heal (amount : Z) (self : Player) : Player :=
  set_health (Z.min (max_health self) (health self + amount)) self.

Definition remove_item_effects (item : Item) (self : Player) : Player :=
  if String.eqb (type item) "weapon" then
    set_attack (attack self - attack_bonus item) self
  else if String.eqb (type item) "armor" then
    set_defense (defense self - defense_bonus item) self
  else if String.eqb (type item) "implant" then
    let self := set_speed (speed self - speed_bonus item) self in
    set_critical_damage (critical_damage self - critical_bonus item) self
  else self.

Definition can_combat (now : datetime) (self : Player) : bool :=
  match last_combat self with
  | None => true
  | Some last =>
      let time_since_combat := now - last in
      Qle_bool (inject_Z (combat_cooldown self))
        (total_seconds time_since_combat)
  end.

Definition can_search (now : datetime) (self : Player) : bool :=
  match last_search self with
  | None => true
  | Some last =>
      let time_since_search := now - last in
      Qle_bool (inject_Z (search_cooldown self))
        (total_seconds time_since_search)
  end.

Definition get_combat_cooldown (now : datetime) (self : Player) : Z :=
  match last_combat self with
  | None => 0
  | Some last =>
      let time_since_combat := now - last in
      let remaining :=
        (inject_Z (combat_cooldown self)
         - total_seconds time_since_combat)%Q in
      Z.max 0 (int remaining)
  end.

Definition get_search_cooldown (now : datetime) (self : Player) : Z :=
  match last_search self with
  | None => 0
  | Some last =>
      let time_since_search := now - last in
      let remaining :=
        (inject_Z (search_cooldown self)
         - total_seconds time_since_search)%Q in
      Z.max 0 (int remaining)
  end.

(** One turn of the loop of [get_total_stats] over the inventory. *)
Definition add_item_bonus (total : Stats.t) (item : Item) : Stats.t :=
  if String.eqb (type item) "weapon" then
    {| Stats.attack := Stats.attack total + attack_bonus item;
       Stats.defense := Stats.defense total;
       Stats.speed := Stats.speed total;
       Stats.critical_damage := Stats.critical_damage total |}
  else if String.eqb (type item) "armor" then
    {| Stats.attack := Stats.attack total;
       Stats.defense := Stats.defense total + defense_bonus item;
       Stats.speed := Stats.speed total;
       Stats.critical_damage := Stats.critical_damage total |}
  else if String.eqb (type item) "implant" then
    {| Stats.attack := Stats.attack total;
       Stats.defense := Stats.defense total;
       Stats.speed := Stats.speed total + speed_bonus item;
       Stats.critical_damage :=
         Stats.critical_damage total + critical_bonus item |}
  else total.

Definition get_total_stats (self : Player) : Stats.t :=
  fold_left add_item_bonus (inventory self)
    {| Stats.attack := attack self;
       Stats.defense := defense self;
       Stats.speed := speed self;
       Stats.critical_damage := critical_damage self |}.

(** *** Persistence *)

(** Values stored in a player dictionary.  [Iso t] is the string that
    [t.isoformat()] returns and [datetime.fromisoformat] reads back. *)
Inductive value :=
| Int (z : Z)
| Str (s : string)
| Iso (t : datetime)
| NoneV
| Dicts (l : list (gmap string items.value)).

Definition to_dict (self : Player) : gmap string value :=
  <["user_id" := Int (user_id self)]>
  (<["username" := Str (username self)]>
  (<["level" := Int (level self)]>
  (<["experience" := Int (experience self)]>
  (<["experience_to_next_level" := Int (experience_to_next_level self)]>
  (<["credits" := Int (credits self)]>
  (<["health" := Int (health self)]>
  (<["max_health" := Int (max_health self)]>
  (<["attack" := Int (attack self)]>
  (<["defense" := Int (defense self)]>
  (<["speed" := Int (speed self)]>
  (<["critical_damage" := Int (critical_damage self)]>
  (<["combat_wins" := Int (combat_wins self)]>
  (<["combat_losses" := Int (combat_losses self)]>
  (<["items_found" := Int (items_found self)]>
  (<["playtime_start" := Iso (playtime_start self)]>
  (<["last_combat" :=
      match last_combat self with Some t => Iso t | None => NoneV end]>
  (<["last_search" :=
      match last_search self with Some t => Iso t | None => NoneV end]>
  (<["inventory" := Dicts (items.to_dict <$> inventory self)]>
     ∅)))))))))))))))))).

Definition get_int (data : gmap string value) (key : string) : option Z :=
  match data !! key with Some (Int z) => Some z | _ => None end.

Definition get_str (data : gmap string value) (key : string)
  : option string :=
  match data !! key with Some (Str s) => Some s | _ => None end.

Definition fromisoformat (v : value) : option datetime :=
  match v with Iso t => Some t | _ => None end.

(** Truth value of a dictionary entry, as tested by [if data[key]:]. *)
Definition truthy (v : value) : bool :=
  match v with
  | Int z => negb (z =? 0)
  | Str s => negb (String.eqb s "")
  | Iso _ => true
  | NoneV => false
  | Dicts l => match l with [] => false | _ => true end
  end.

(** [if data[key]: player.f = datetime.fromisoformat(data[key])] *)
Definition load_time (data : gmap string value) (key : string)
    (current : option datetime) : option (option datetime) :=
  v ← data !! key;
  if truthy v then t ← fromisoformat v; Some (Some t) else Some current.

(** The loop of [from_dict] that restores the inventory. *)
Fixpoint load_inventory (item_datas : list (gmap string items.value))
    (player : Player) : option Player :=
  match item_datas with
  | [] => Some player
  | item_data :: rest =>
      item ← items.from_dict item_data;
      let player := set_inventory (inventory player ++ [item]) player in
      let player := apply_item_effects item player in
      load_inventory rest player
  end.

Definition from_dict (now : datetime) (data : gmap string value)
  : option Player :=
  uid ← get_int data "user_id";
  uname ← get_str data "username";
  let player := __init__ now uid uname in
  v ← get_int data "level"; let player := set_level v player in
  v ← get_int data "experience"; let player := set_experience v player in
  v ← get_int data "experience_to_next_level";
  let player := set_experience_to_next_level v player in
  v ← get_int data "credits"; let player := set_credits v player in
  v ← get_int data "health"; let player := set_health v player in
  v ← get_int data "max_health"; let player := set_max_health v player in
  v ← get_int data "attack"; let player := set_attack v player in
  v ← get_int data "defense"; let player := set_defense v player in
  v ← get_int data "speed"; let player := set_speed v player in
  v ← get_int data "critical_damage";
  let player := set_critical_damage v player in
  v ← get_int data "combat_wins"; let player := set_combat_wins v player in
  v ← get_int data "combat_losses";
  let player := set_combat_losses v player in
  v ← get_int data "items_found"; let player := set_items_found v player in
  v ← data !! "playtime_start"; t ← fromisoformat v;
  let player := set_playtime_start t player in
  t ← load_time data "last_combat" (last_combat player);
  let player := set_last_combat t player in
  t ← load_time data "last_search" (last_search player);
  let player := set_last_search t player in
  v ← data !! "inventory";
  match v with
  | Dicts item_datas => load_inventory item_datas player
  | _ => None
  end.

End player.

(** ** combat.py *)

Module combat.

Import random.
Import player.

Record NPC := {
  name : string;
  level : Z;
  health : Z;
  max_health : Z;
  attack : Z;
  defense : Z;
  speed : Z;
  critical_damage : Z
}.

(** [NPC.__init__] *)
Definition NPC_init (name : string) (level health attack defense speed : Z)
  : NPC :=
  {| name := name; level := level; health := health; max_health := health;
     attack := attack; defense := defense; speed := speed;
     critical_damage := 15 |}.

#[global] Instance NPC_eq_dec : EqDecision NPC.
Proof. solve_decision. Defined.

(** A line of the round log: the f-string, kept as its template and its
    argument. *)
Inductive event :=
| PlayerHits (damage : Z)      (* "Ты наносишь {damage} урона!" *)
| OpponentHits (damage : Z).   (* "Противник наносит {damage} урона!" *)

(** The dictionary built by [_execute_round]. *)
Module Round.
Record t := {
  round : Z;
  player_health : Z;
  opponent_health : Z;
  player_damage : Z;
  opponent_damage : Z;
  events : list event
}.
End Round.

(** The text returned by [_create_battle_description], kept as the data it
    is formatted from. *)
Inductive description :=
| NoBattle                     (* "Бой не состоялся." *)
| Summary (rounds : Z) (shown : list Round.t) (closing : string).

(** An entry of [combat_history]. *)
Module Record_.
Record t := {
  timestamp : datetime;
  player_id : Z;
  opponent_name : string;
  result : string;
  rounds : Z;
  experience_gained : Z;
  credits_gained : Z
}.
End Record_.

(** The dictionary returned by [execute_battle]. *)
Module Result.
Record t := {
  result : string;
  description : combat.description;
  player_damage : Z;
  opponent_damage : Z;
  experience_gained : Z;
  credits_gained : Z;
  message : string;
  rounds : Z
}.
End Result.

Record CombatSystem := {
  npc_database : list NPC;
  combat_history : list Record_.t
}.

Definition _create_npc_database : list NPC :=
  let npcs := [] in
  let npcs := npcs ++ [
    NPC_init "Кибер-гангстер" 1 80 12 6 7;
    NPC_init "Нейрон-хакер" 2 90 15 8 9;
    NPC_init "Плазменный наемник" 3 100 18 10 8;
    NPC_init "Квантовый страж" 4 120 22 15 10;
    NPC_init "Хроно-охотник" 5 140 25 18 12;
    NPC_init "Нанобот-убийца" 6 160 28 20 14;
    NPC_init "Гравитационный воин" 7 180 32 25 16;
    NPC_init "Нейронный титан" 8 200 35 28 18;
    NPC_init "Квантовый демон" 9 220 38 30 20;
    NPC_init "Хроно-властелин" 10 250 42 35 22
  ] in
  let npcs := npcs ++ [
    NPC_init "Кибер-легенда" 15 300 50 40 25;
    NPC_init "Нейронный бог" 20 400 60 50 30;
    NPC_init "Плазменный тиран" 25 500 70 60 35;
    NPC_init "Квантовый император" 30 600 80 70 40;
    NPC_init "Хроно-создатель" 35 700 90 80 45
  ] in
  npcs.

(** [CombatSystem.__init__] *)
Definition CombatSystem_init : CombatSystem :=
  {| npc_database := _create_npc_database; combat_history := [] |}.

(** One turn of the filtering loop of [find_opponent]. *)
Definition keep_suitable (player : Player) (suitable_npcs : list NPC)
    (npc : NPC) : list NPC :=
  let level_diff := Z.abs (level npc - player.level player) in
  if level_diff <=? 3 then suitable_npcs ++ [npc] else suitable_npcs.

(** [find_opponent]: the outer [option] is the outcome of the call ([None]
    when the [IndexError] of [random.choice] would propagate), the inner
    one the [Optional[NPC]] that is returned. *)
Definition find_opponent (self : CombatSystem) (player : Player)
  : Rand (option (option NPC)) :=
  let suitable_npcs :=
    fold_left (keep_suitable player) (npc_database self) [] in
  match suitable_npcs with
  | [] => ret (Some None)
  | _ => picked <~ choice suitable_npcs ;; ret (Some <$> picked)
  end.

(** The products with [1.5], [0.3] and [0.2] of the three calculators are
    exact rationals; the doubles give the same integers for a base below
    2^51 and levels from 0 to below 2^48 (see the conventions). *)
Definition _calculate_damage (attack defense critical_chance : Z)
  : Rand Z :=
  let base_damage := Z.max 1 (attack - defense `div` 2) in
  roll <~ randint 1 100 ;;
  let base_damage :=
    if roll <=? critical_chance
    then int (inject_Z base_damage * 1.5)
    else base_damage in
  jitter <~ randint (-2) 2 ;;
  let final_damage := base_damage + jitter in
  ret (Z.max 1 final_damage).

Definition _calculate_experience_reward (player : Player) (opponent : NPC)
    (victory : bool) : Z :=
  let base_exp := level opponent * 10 in
  let base_exp :=
    if victory then
      let base_exp := int (inject_Z base_exp * 1.5) in
      if player.level player <? level opponent then
        let level_diff := level opponent - player.level player in
        base_exp + level_diff * 5
      else base_exp
    else int (inject_Z base_exp * 0.3) in
  Z.max 1 base_exp.

Definition _calculate_credits_reward (player : Player) (opponent : NPC)
    (victory : bool) : Z :=
  let base_credits := level opponent * 5 in
  let base_credits :=
    if victory then
      let base_credits := int (inject_Z base_credits * 1.5) in
      if player.level player <? level opponent then
        let level_diff := level opponent - player.level player in
        base_credits + level_diff * 3
      else base_credits
    else int (inject_Z base_credits * 0.2) in
  Z.max 0 base_credits.

(** The two attacks of [_execute_round], as they update the round record
    and the running health of the side that is hit. *)
Definition record_player_attack (player_damage : Z) (r : Round.t)
  : Round.t :=
  {| Round.round := Round.round r;
     Round.player_health := Round.player_health r;
     Round.opponent_health := Round.opponent_health r;
     Round.player_damage := Round.player_damage r;
     Round.opponent_damage := player_damage;
     Round.events := Round.events r ++ [PlayerHits player_damage] |}.

Definition record_opponent_attack (opponent_damage : Z) (r : Round.t)
  : Round.t :=
  {| Round.round := Round.round r;
     Round.player_health := Round.player_health r;
     Round.opponent_health := Round.opponent_health r;
     Round.player_damage := opponent_damage;
     Round.opponent_damage := Round.opponent_damage r;
     Round.events := Round.events r ++ [OpponentHits opponent_damage] |}.

Definition set_player_health (v : Z) (r : Round.t) : Round.t :=
  {| Round.round := Round.round r;
     Round.player_health := v;
     Round.opponent_health := Round.opponent_health r;
     Round.player_damage := Round.player_damage r;
     Round.opponent_damage := Round.opponent_damage r;
     Round.events := Round.events r |}.

Definition set_opponent_health (v : Z) (r : Round.t) : Round.t :=
  {| Round.round := Round.round r;
     Round.player_health := Round.player_health r;
     Round.opponent_health := v;
     Round.player_damage := Round.player_damage r;
     Round.opponent_damage := Round.opponent_damage r;
     Round.events := Round.events r |}.

Definition _execute_round (player : Player) (opponent : NPC)
    (player_stats : Stats.t) (player_health opponent_health round_num : Z)
  : Rand Round.t :=
  let round_result :=
    {| Round.round := round_num;
       Round.player_health := player_health;
       Round.opponent_health := opponent_health;
       Round.player_damage := 0;
       Round.opponent_damage := 0;
       Round.events := [] |} in
  jitter <~ randint (-2) 2 ;;
  let player_initiative := Stats.speed player_stats + jitter in
  jitter <~ randint (-2) 2 ;;
  let opponent_initiative := speed opponent + jitter in
  if opponent_initiative <=? player_initiative then
    player_damage <~ _calculate_damage (Stats.attack player_stats)
                       (defense opponent)
                       (Stats.critical_damage player_stats) ;;
    let opponent_health := Z.max 0 (opponent_health - player_damage) in
    let round_result := record_player_attack player_damage round_result in
    if opponent_health <=? 0 then
      ret (set_opponent_health 0 round_result)
    else
      opponent_damage <~ _calculate_damage (attack opponent)
                           (Stats.defense player_stats)
                           (critical_damage opponent) ;;
      let player_health := Z.max 0 (player_health - opponent_damage) in
      let round_result :=
        record_opponent_attack opponent_damage round_result in
      let round_result := set_player_health player_health round_result in
      ret (set_opponent_health opponent_health round_result)
  else
    opponent_damage <~ _calculate_damage (attack opponent)
                         (Stats.defense player_stats)
                         (critical_damage opponent) ;;
    let player_health := Z.max 0 (player_health - opponent_damage) in
    let round_result :=
      record_opponent_attack opponent_damage round_result in
    if player_health <=? 0 then
      ret (set_player_health 0 round_result)
    else
      player_damage <~ _calculate_damage (Stats.attack player_stats)
                         (defense opponent)
                         (Stats.critical_damage player_stats) ;;
      let opponent_health := Z.max 0 (opponent_health - player_damage) in
      let round_result := record_player_attack player_damage round_result in
      let round_result := set_player_health player_health round_result in
      ret (set_opponent_health opponent_health round_result).

Definition _create_battle_description (battle_rounds : list Round.t)
    (result : string) : description :=
  match battle_rounds with
  | [] => NoBattle
  | _ =>
      Summary (Z.of_nat (length battle_rounds))
        (drop (length battle_rounds - 3) battle_rounds)
        (if String.eqb result "victory" then
           "🏆 Ты одержал победу в этом бою!"
         else if String.eqb result "defeat" then
           "💀 Противник оказался сильнее..."
         else "🤝 Бой завершился вничью.")
  end.

(** The [while] loop of [execute_battle].  [fuel] bounds the number of
    turns the model may take; [None] means it ran out with the loop
    condition still true. *)
Fixpoint battle_loop (fuel : nat) (player : Player) (opponent : NPC)
    (player_stats : Stats.t) (player_health opponent_health : Z)
    (battle_rounds : list Round.t) (round_num : Z)
  : Rand (option (Z * Z * list Round.t * Z)) :=
  if (0 <? player_health) && (0 <? opponent_health) && (round_num <=? 20)
  then
    match fuel with
    | O => ret None
    | S fuel =>
        round_result <~ _execute_round player opponent player_stats
                          player_health opponent_health round_num ;;
        let player_health := Round.player_health round_result in
        let opponent_health := Round.opponent_health round_result in
        let battle_rounds := battle_rounds ++ [round_result] in
        let round_num := round_num + 1 in
        battle_loop fuel player opponent player_stats
          player_health opponent_health battle_rounds round_num
    end
  else ret (Some (player_health, opponent_health, battle_rounds, round_num)).

(** What [execute_battle] does once the loop has ended. *)
Definition conclude_battle (now : datetime) (self : CombatSystem)
    (player : Player) (opponent : NPC)
    (player_health opponent_health : Z) (battle_rounds : list Round.t)
  : Result.t * Player * CombatSystem :=
  let '(result, message, experience_gained, credits_gained, player) :=
    if (0 <? player_health) && (opponent_health <=? 0) then
      let experience_gained :=
        _calculate_experience_reward player opponent true in
      let credits_gained :=
        _calculate_credits_reward player opponent true in
      let player := set_combat_wins (combat_wins player + 1) player in
      let player := snd (add_experience experience_gained player) in
      let player := add_credits credits_gained player in
      ("victory", "Победа! Ты одолел противника!",
       experience_gained, credits_gained, player)
    else if (0 <? opponent_health) && (player_health <=? 0) then
      let experience_gained :=
        _calculate_experience_reward player opponent false in
      let credits_gained :=
        _calculate_credits_reward player opponent false in
      let player := set_combat_losses (combat_losses player + 1) player in
      let player := snd (add_experience experience_gained player) in
      let player := add_credits credits_gained player in
      ("defeat", "Поражение! Противник оказался сильнее...",
       experience_gained, credits_gained, player)
    else
      let experience_gained :=
        _calculate_experience_reward player opponent false in
      let credits_gained :=
        _calculate_credits_reward player opponent false in
      let player := snd (add_experience experience_gained player) in
      let player := add_credits credits_gained player in
      ("draw", "Ничья! Бой затянулся слишком долго...",
       experience_gained, credits_gained, player) in
  let player := set_health (Z.max 1 player_health) player in
  let battle_description :=
    _create_battle_description battle_rounds result in
  let battle_record :=
    {| Record_.timestamp := now;
       Record_.player_id := user_id player;
       Record_.opponent_name := name opponent;
       Record_.result := result;
       Record_.rounds := Z.of_nat (length battle_rounds);
       Record_.experience_gained := experience_gained;
       Record_.credits_gained := credits_gained |} in
  let self :=
    {| npc_database := npc_database self;
       combat_history := combat_history self ++ [battle_record] |} in
  ({| Result.result := result;
      Result.description := battle_description;
      Result.player_damage := player.max_health player - player_health;
      Result.opponent_damage := max_health opponent - opponent_health;
      Result.experience_gained := experience_gained;
      Result.credits_gained := credits_gained;
      Result.message := message;
      Result.rounds := Z.of_nat (length battle_rounds) |},
   player, self).

(** [execute_battle]; [start] and [finish] are the two clock readings. *)
Definition execute_battle (fuel : nat) (start finish : datetime)
    (self : CombatSystem) (player : Player) (opponent : NPC)
  : Rand (option (Result.t * Player * CombatSystem)) :=
  let player := start_combat start player in
  let player_stats := get_total_stats player in
  let player_health := player.health player in
  let opponent_health := health opponent in
  let battle_rounds := [] in
  let round_num := 1 in
  looped <~ battle_loop fuel player opponent player_stats
              player_health opponent_health battle_rounds round_num ;;
  match looped with
  | None => ret None
  | Some (player_health, opponent_health, battle_rounds, _) =>
      ret (Some (conclude_battle finish self player opponent
                   player_health opponent_health battle_rounds))
  end.

Definition get_recent_battles (self : CombatSystem) (player : Player)
    (limit : Z) : list Record_.t :=
  let player_battles :=
    filter (fun battle => Record_.player_id battle = user_id player)
      (combat_history self) in
  slice_to limit (sorted_reverse Record_.timestamp player_battles).

End combat.

(** ** game_engine.py *)

Module game_engine.

Import player.

(** The description of a game event: a string, or the f-string of the
    daily bonus kept as its template and its arguments. *)
Inductive event_text :=
| Text (s : string)
| DailyBonus (username : string) (daily_bonus : Z).
  (* "Игрок {username} получил ежедневный бонус: {daily_bonus} кредитов" *)

Module Event.
Record t := { timestamp : datetime; description : event_text }.
End Event.

(** The engine, without its location manager. *)
Record GameEngine := {
  item_manager : items.ItemManager;
  combat_system : combat.CombatSystem;
  players : gmap Z Player;
  game_events : list Event.t;
  daily_resets : gmap Z (option datetime)
}.

Definition set_game_events (v : list Event.t) (self : GameEngine)
  : GameEngine :=
  {| item_manager := item_manager self;
     combat_system := combat_system self;
     players := players self;
     game_events := v;
     daily_resets := daily_resets self |}.

Definition add_game_event (now : datetime) (event_description : event_text)
    (self : GameEngine) : GameEngine :=
  let event :=
    {| Event.timestamp := now; Event.description := event_description |} in
  let self := set_game_events (game_events self ++ [event]) self in
  if 100 <? Z.of_nat (length (game_events self))
  then set_game_events (slice_from (-100) (game_events self)) self
  else self.

Definition get_game_events (self : GameEngine) (limit : Z)
  : list Event.t :=
  slice_from (- limit) (game_events self).

Definition _daily_player_reset (now : datetime) (self : GameEngine)
    (player : Player) : GameEngine * Player :=
  let player := set_health (max_health player) player in
  let daily_bonus := 50 + level player * 5 in
  let player := add_credits daily_bonus player in
  let player := set_last_combat None player in
  let player := set_last_search None player in
  let self :=
    add_game_event now (DailyBonus (username player) daily_bonus) self in
  (self, player).

End game_engine.

(** ** The formulas as the specification words them

    These follow the text of the specification, with [Qfloor] for its
    "floor"; the theorems below compare them with the code. *)

Module spec.

(** Damage, given the two draws: the critical roll and the jitter. *)
Definition damage (attack defense critical roll jitter : Z) : Z :=
  let base := Z.max 1 (attack - defense `div` 2) in
  let base :=
    if roll <=? critical then Qfloor (inject_Z base * 1.5) else base in
  Z.max 1 (base + jitter).

Definition experience (opponent_level player_level : Z) (victory : bool)
  : Z :=
  let base := inject_Z (opponent_level * 10) in
  Z.max 1
    (if victory then
       Qfloor (base * 1.5)
       + (if player_level <? opponent_level
          then (opponent_level - player_level) * 5 else 0)
     else Qfloor (base * 0.3)).

Definition currency (opponent_level player_level : Z) (victory : bool)
  : Z :=
  let base := inject_Z (opponent_level * 5) in
  Z.max 0
    (if victory then
       Qfloor (base * 1.5)
       + (if player_level <? opponent_level
          then (opponent_level - player_level) * 3 else 0)
     else Qfloor (base * 0.2)).

End spec.

(** A player reached from [self] by adding the items of [new_items], in
    order, through [add_item]. *)
Definition add_items (new_items : list items.Item) (self : player.Player)
  : player.Player :=
  fold_left (fun self item => player.add_item item self) new_items self.

(** The bonuses of one item, as [get_total_stats] reads them, and their sum
    over a list of items. *)
Definition stats_zero : player.Stats.t :=
  {| player.Stats.attack := 0; player.Stats.defense := 0;
     player.Stats.speed := 0; player.Stats.critical_damage := 0 |}.

Definition stats_plus (a b : player.Stats.t) : player.Stats.t :=
  {| player.Stats.attack := player.Stats.attack a + player.Stats.attack b;
     player.Stats.defense := player.Stats.defense a + player.Stats.defense b;
     player.Stats.speed := player.Stats.speed a + player.Stats.speed b;
     player.Stats.critical_damage :=
       player.Stats.critical_damage a + player.Stats.critical_damage b |}.

Definition item_bonus (item : items.Item) : player.Stats.t :=
  player.add_item_bonus stats_zero item.

Definition bonus_sum (owned : list items.Item) : player.Stats.t :=
  foldr (fun item total => stats_plus (item_bonus item) total)
    stats_zero owned.

(** The combat attributes stored on the player object itself. *)
Definition own_stats (self : player.Player) : player.Stats.t :=
  {| player.Stats.attack := player.attack self;
     player.Stats.defense := player.defense self;
     player.Stats.speed := player.speed self;
     player.Stats.critical_damage := player.critical_damage self |}.

(** The player that [from_dict] has rebuilt from the dictionary of [self]
    when it reaches the loop over the stored inventory. *)
Definition stored (self : player.Player) : player.Player :=
  {| player.user_id := player.user_id self;
     player.username := player.username self;
     player.level := player.level self;
     player.experience := player.experience self;
     player.experience_to_next_level := player.experience_to_next_level self;
     player.credits := player.credits self;
     player.health := player.health self;
     player.max_health := player.max_health self;
     player.attack := player.attack self;
     player.defense := player.defense self;
     player.speed := player.speed self;
     player.critical_damage := player.critical_damage self;
     player.combat_wins := player.combat_wins self;
     player.combat_losses := player.combat_losses self;
     player.items_found := player.items_found self;
     player.playtime_start := player.playtime_start self;
     player.last_combat := player.last_combat self;
     player.last_search := player.last_search self;
     player.inventory := [];
     player.equipped_items := ∅;
     player.combat_cooldown := 300;
     player.search_cooldown := 600 |}.

(** The fields of a player that no item effect touches. *)
Definition kept_fields (self : player.Player) :=
  (player.user_id self, player.username self, player.level self,
   player.experience self, player.experience_to_next_level self,
   player.credits self, player.health self, player.max_health self,
   player.combat_wins self, player.combat_losses self,
   player.items_found self, player.playtime_start self,
   player.last_combat self, player.last_search self,
   player.equipped_items self, player.combat_cooldown self,
   player.search_cooldown self).

(** The keys that [Player.from_dict] reads. *)
Definition player_keys : list string :=
  ["user_id"; "username"; "level"; "experience"; "experience_to_next_level";
   "credits"; "health"; "max_health"; "attack"; "defense"; "speed";
   "critical_damage"; "combat_wins"; "combat_losses"; "items_found";
   "playtime_start"; "last_combat"; "last_search"; "inventory"].

(** Total of the damage the rounds of a battle record against the player,
    and against the opponent. *)
Definition damage_to_player (battle_rounds : list combat.Round.t) : Z :=
  foldr Z.add 0 (combat.Round.player_damage <$> battle_rounds).

Definition damage_to_opponent (battle_rounds : list combat.Round.t) : Z :=
  foldr Z.add 0 (combat.Round.opponent_damage <$> battle_rounds).

(** The records of consecutive rounds: each is entered with both sides
    standing and the counter within the cap, carries the counter as its
    number, leaves each side with its health less the damage recorded
    against it (not below 0) and at least one side standing, strikes both
    sides when both are left standing, and hands its healths to the next;
    the last one leaves the healths [ph'] and [oh']. *)
Fixpoint played (player_health opponent_health round_num : Z)
    (battle_rounds : list combat.Round.t) (ph' oh' : Z) : Prop :=
  match battle_rounds with
  | [] => ph' = player_health /\ oh' = opponent_health
  | r :: rest =>
      0 < player_health /\ 0 < opponent_health /\ round_num <= 20 /\
      combat.Round.round r = round_num /\
      0 <= combat.Round.player_damage r /\
      0 <= combat.Round.opponent_damage r /\
      combat.Round.player_health r
      = Z.max 0 (player_health - combat.Round.player_damage r) /\
      combat.Round.opponent_health r
      = Z.max 0 (opponent_health - combat.Round.opponent_damage r) /\
      (0 < combat.Round.player_health r \/
       0 < combat.Round.opponent_health r) /\
      (0 < combat.Round.player_health r ->
       0 < combat.Round.opponent_health r ->
       1 <= combat.Round.player_damage r /\
       1 <= combat.Round.opponent_damage r) /\
      played (combat.Round.player_health r) (combat.Round.opponent_health r)
        (round_num + 1) rest ph' oh'
  end.

(** Inputs used in the examples: a new player, the first weapon of the item
    catalogue, the first opponent of the roster and a generator. *)
Definition neo : player.Player := player.__init__ 0 1 "neo".

Definition cyber_sword : items.Item :=
  {| items.name := "Кибер-меч"; items.type := "weapon";
     items.rarity := "common";
     items.description := "Базовый кибер-меч с энергетическим лезвием";
     items.cost := 100; items.attack_bonus := 5; items.defense_bonus := 0;
     items.speed_bonus := 0; items.critical_bonus := 0 |}.

Definition gangster : combat.NPC :=
  combat.NPC_init "Кибер-гангстер" 1 80 12 6 7.

Definition supply : random.state := fun n => Z.of_nat n * 7 + 3.

(** A generator under which every jitter is 0 and every critical roll is 3. *)
Definition steady : random.state := fun _ => 2.

(** * Properties *)

(** ** Arithmetic of [int] and of the draws *)

Lemma int_nonneg (x : Q) : (0 <= x)%Q -> int x = Qfloor x.
Proof.
  intros H. unfold int. apply Qle_bool_iff in H. by rewrite H.
Qed.

Lemma Qfloor_scaled (n num : Z) (den : positive) :
  Qfloor (inject_Z n * (num # den)) = (n * num) `div` Z.pos den.
Proof. reflexivity. Qed.

Lemma int_scaled (n num : Z) (den : positive) :
  int (inject_Z n * (num # den)) = (n * num) `quot` Z.pos den.
Proof.
  unfold int, Qle_bool, Qceiling, Qfloor, Qopp, Qmult, inject_Z.
  cbn [Qnum Qden]. rewrite Z.mul_0_l, Z.mul_1_r.
  destruct (Z.leb_spec 0 (n * num)).
  - rewrite Z.quot_div_nonneg; [reflexivity | lia | lia].
  - replace (n * num) with (- (- (n * num))) at 2 by lia.
    rewrite Z.quot_opp_l by lia. rewrite Z.quot_div_nonneg by lia.
    reflexivity.
Qed.

Lemma int_scaled_nonneg (n num : Z) (den : positive) :
  0 <= n * num ->
  int (inject_Z n * (num # den)) = Qfloor (inject_Z n * (num # den)).
Proof.
  intros H. rewrite int_scaled, Qfloor_scaled.
  apply Z.quot_div_nonneg; lia.
Qed.

Lemma randint_range (a b : Z) (g : random.state) :
  a <= b -> a <= (random.randint a b g).1 <= b.
Proof.
  intros Hab. unfold random.randint, random.bind, random.next, random.ret.
  cbn. pose proof (Z.mod_pos_bound (g 0%nat) (b - a + 1)). lia.
Qed.

(** Every value of the range is drawn by some generator. *)
Lemma randint_onto (a b n : Z) :
  a <= n <= b -> exists g, (random.randint a b g).1 = n.
Proof.
  intros Hn. exists (fun _ => n - a).
  unfold random.randint, random.bind, random.next, random.ret. cbn.
  rewrite Z.mod_small; lia.
Qed.

Lemma randint_rest (a b : Z) (g : random.state) :
  (random.randint a b g).2 = fun n => g (S n).
Proof. reflexivity. Qed.

(** ** Damage *)

Lemma calculate_damage_eq (attack defense critical_chance : Z)
    (g : random.state) :
  combat._calculate_damage attack defense critical_chance g
  = (spec.damage attack defense critical_chance
       (1 + g 0%nat `mod` 100) (-2 + g 1%nat `mod` 5),
     fun n => g (S (S n))).
Proof.
  unfold combat._calculate_damage, spec.damage, random.randint, random.bind,
    random.next, random.ret. cbn.
  replace (100 - 1 + 1) with 100 by lia.
  destruct (1 + g 0%nat `mod` 100 <=? critical_chance); [|reflexivity].
  rewrite (int_scaled_nonneg _ 15 10) by lia. reflexivity.
Qed.

Lemma calculate_damage_ge_1 (attack defense critical_chance : Z)
    (g : random.state) :
  1 <= (combat._calculate_damage attack defense critical_chance g).1.
Proof. rewrite calculate_damage_eq. unfold spec.damage. cbn. lia. Qed.

(** The two draws of [_calculate_damage], over their equally likely
    values: every roll of [1,100] with every jitter of [-2,2]. *)
Lemma law_roll_jitter {A} (f : Z -> Z -> A) :
  (fun raw => f (1 + random.supplying raw 0%nat `mod` 100)
                (-2 + random.supplying raw 1%nat `mod` 5))
  <$> random.draws [100%nat; 5%nat]
  = (r ← seqZ 1 100; j ← seqZ (-2) 5; [f r j]).
Proof. vm_compute. reflexivity. Qed.

(** C1: for a mitigated base below 2^51, [_calculate_damage] follows the
    four steps of the specification (mitigated base with floor division,
    critical multiplier floored, jitter, clamp at 1), with a critical roll
    in [1,100] and a jitter in [-2,2], each value of which can occur; the
    damage returned is at least 1.  The roll is uniform on [1,100], the
    jitter uniform on [-2,2], and they are independent: over the equally
    likely values of the two draws the damage is that of the specification
    at every roll paired with every jitter, each pair once. *)
Theorem calculate_damage_steps (attack defense critical_chance : Z)
    (g : random.state) :
  let roll := (random.randint 1 100 g).1 in
  let jitter := (random.randint (-2) 2 (random.randint 1 100 g).2).1 in
  let damage := (combat._calculate_damage attack defense critical_chance g).1 in
  attack - defense `div` 2 < 2 ^ 51 ->
  1 <= roll <= 100 /\ -2 <= jitter <= 2 /\
  damage = spec.damage attack defense critical_chance roll jitter /\
  1 <= damage /\
  (forall r j, 1 <= r <= 100 -> -2 <= j <= 2 ->
     exists g',
       (combat._calculate_damage attack defense critical_chance g').1
       = spec.damage attack defense critical_chance r j) /\
  random.law (random.randint 1 100) [100%nat] = seqZ 1 100 /\
  random.law (random.randint (-2) 2) [5%nat] = seqZ (-2) 5 /\
  random.law (combat._calculate_damage attack defense critical_chance)
    [100%nat; 5%nat]
  = (r ← seqZ 1 100; j ← seqZ (-2) 5;
     [spec.damage attack defense critical_chance r j]).
Proof.
  cbv zeta. intros _. split; [apply randint_range; lia|].
  split; [apply randint_range; lia|].
  split; [by rewrite calculate_damage_eq|].
  split; [apply calculate_damage_ge_1|].
  split.
  { intros r j Hr Hj.
    exists (fun n => match n with O => r - 1 | _ => j + 2 end).
    rewrite calculate_damage_eq. cbn [fst].
    rewrite !Z.mod_small by lia. f_equal; lia. }
  split; [by vm_compute|]. split; [by vm_compute|].
  rewrite <- (law_roll_jitter (spec.damage attack defense critical_chance)).
  unfold random.law. apply list_fmap_ext. intros i raw _.
  by rewrite calculate_damage_eq.
Qed.

Lemma calculate_damage_steps_witness :
  10 - 6 `div` 2 < 2 ^ 51 /\
  (combat._calculate_damage 10 6 15 supply).1
  = spec.damage 10 6 15 (random.randint 1 100 supply).1
      (random.randint (-2) 2 (random.randint 1 100 supply).2).1 /\
  1 <= (combat._calculate_damage 10 6 15 supply).1.
Proof.
  split; [by vm_compute|].
  destruct (calculate_damage_steps 10 6 15 supply) as (_ & _ & H & H1 & _);
    [by vm_compute|].
  by split.
Defined.

(** ** Rewards *)

Lemma experience_reward_eq (player : player.Player) (opponent : combat.NPC)
    (victory : bool) :
  combat._calculate_experience_reward player opponent victory
  = spec.experience (combat.level opponent) (player.level player) victory.
Proof.
  unfold combat._calculate_experience_reward, spec.experience.
  rewrite !int_scaled, !Qfloor_scaled.
  assert (H15 : (combat.level opponent * 10 * 15) `quot` 10
                = (combat.level opponent * 10 * 15) `div` 10).
  { replace (combat.level opponent * 10 * 15)
      with (combat.level opponent * 15 * 10) by lia.
    by rewrite Z.quot_mul, Z.div_mul. }
  assert (H3 : (combat.level opponent * 10 * 3) `quot` 10
               = (combat.level opponent * 10 * 3) `div` 10).
  { replace (combat.level opponent * 10 * 3)
      with (combat.level opponent * 3 * 10) by lia.
    by rewrite Z.quot_mul, Z.div_mul. }
  rewrite H15, H3.
  destruct victory; [|reflexivity].
  destruct (player.level player <? combat.level opponent); f_equal; lia.
Qed.

Lemma credits_reward_eq (player : player.Player) (opponent : combat.NPC)
    (victory : bool) :
  0 <= combat.level opponent ->
  combat._calculate_credits_reward player opponent victory
  = spec.currency (combat.level opponent) (player.level player) victory.
Proof.
  intros Hlevel.
  unfold combat._calculate_credits_reward, spec.currency.
  rewrite !int_scaled, !Qfloor_scaled.
  rewrite !Z.quot_div_nonneg by lia.
  destruct victory; [|reflexivity].
  destruct (player.level player <? combat.level opponent); f_equal; lia.
Qed.

(** C4: the reward calculators compute the formulas of the specification,
    which read nothing but the opponent's level, the player's level and the
    victory flag; experience is at least 1 and currency at least 0.  The
    opponent's level is that of the data model: not negative, and below
    2^48. *)
Theorem reward_calculators (player : player.Player) (opponent : combat.NPC)
    (victory : bool) :
  0 <= combat.level opponent < 2 ^ 48 ->
  combat._calculate_experience_reward player opponent victory
  = spec.experience (combat.level opponent) (player.level player) victory /\
  combat._calculate_credits_reward player opponent victory
  = spec.currency (combat.level opponent) (player.level player) victory /\
  1 <= combat._calculate_experience_reward player opponent victory /\
  0 <= combat._calculate_credits_reward player opponent victory.
Proof.
  intros [Hlevel _].
  split; [apply experience_reward_eq|].
  split; [by apply credits_reward_eq|].
  unfold combat._calculate_experience_reward,
    combat._calculate_credits_reward. lia.
Qed.

Lemma reward_calculators_witness :
  0 <= combat.level gangster < 2 ^ 48 /\
  combat._calculate_experience_reward neo gangster true
  = spec.experience (combat.level gangster) (player.level neo) true /\
  combat._calculate_credits_reward neo gangster true
  = spec.currency (combat.level gangster) (player.level neo) true /\
  1 <= combat._calculate_experience_reward neo gangster true /\
  0 <= combat._calculate_credits_reward neo gangster true.
Proof.
  split; [by vm_compute|].
  apply (reward_calculators neo gangster true). by vm_compute.
Defined.

(** The closed forms of the rewards, for levels that are not negative. *)
Lemma reward_values (player : player.Player) (opponent : combat.NPC) :
  let L := combat.level opponent in
  let bonus k :=
    if player.level player <? L then (L - player.level player) * k else 0 in
  0 <= L ->
  combat._calculate_experience_reward player opponent true
  = Z.max 1 (15 * L + bonus 5) /\
  combat._calculate_experience_reward player opponent false
  = Z.max 1 (3 * L) /\
  combat._calculate_credits_reward player opponent true
  = Z.max 0 ((15 * L) `div` 2 + bonus 3) /\
  combat._calculate_credits_reward player opponent false = L.
Proof.
  cbv zeta. intros HL.
  unfold combat._calculate_experience_reward,
    combat._calculate_credits_reward.
  rewrite !int_scaled. rewrite !Z.quot_div_nonneg by lia.
  replace ((combat.level opponent * 10 * 15) `div` 10)
    with (15 * combat.level opponent)
    by (apply Z.div_unique_exact; lia).
  replace ((combat.level opponent * 10 * 3) `div` 10)
    with (3 * combat.level opponent)
    by (apply Z.div_unique_exact; lia).
  replace ((combat.level opponent * 5 * 15) `div` 10)
    with ((15 * combat.level opponent) `div` 2)
    by (replace (combat.level opponent * 5 * 15)
          with (15 * combat.level opponent * 5) by lia;
        change 10 with (2 * 5);
        by rewrite Z.div_mul_cancel_r by lia).
  replace ((combat.level opponent * 5 * 2) `div` 10)
    with (combat.level opponent)
    by (apply Z.div_unique_exact; lia).
  destruct (player.level player <? combat.level opponent);
    repeat split; lia.
Qed.

(** ** Leveling *)

Lemma level_up_fields (self : player.Player) :
  player.level (player.level_up self) = player.level self + 1 /\
  player.experience (player.level_up self)
  = player.experience self - player.experience_to_next_level self /\
  player.experience_to_next_level (player.level_up self)
  = int (inject_Z (player.experience_to_next_level self) * 1.5) /\
  player.max_health (player.level_up self) = player.max_health self + 20 /\
  player.health (player.level_up self) = player.max_health self + 20.
Proof. by repeat split. Qed.

(** C6, as the code has it: [add_experience] tests the threshold once.
    For a threshold from 0 to below 2^51: when the total reaches the
    threshold exactly one level-up fires (level + 1, the old threshold
    consumed, the threshold multiplied by 1.5 and floored), otherwise none;
    the experience left is below the threshold exactly when the total is
    below the old threshold plus the new one. *)
Theorem add_experience_single_level_up (amount : Z) (self : player.Player) :
  let total := player.experience self + amount in
  let threshold := player.experience_to_next_level self in
  let leveled := (player.add_experience amount self).1 in
  let self' := (player.add_experience amount self).2 in
  0 <= amount -> 0 <= threshold < 2 ^ 51 ->
  (threshold <= total ->
     leveled = true /\
     player.level self' = player.level self + 1 /\
     player.experience self' = total - threshold /\
     player.experience_to_next_level self'
     = Qfloor (inject_Z threshold * 1.5)) /\
  (total < threshold ->
     leveled = false /\
     player.level self' = player.level self /\
     player.experience self' = total /\
     player.experience_to_next_level self' = threshold) /\
  (player.experience self' < player.experience_to_next_level self'
   <-> total < threshold + Qfloor (inject_Z threshold * 1.5)).
Proof.
  cbv zeta. intros Hamount [Hthreshold _].
  assert (Hfloor : 0 <= Qfloor (inject_Z (player.experience_to_next_level self)
                                * 1.5)).
  { rewrite Qfloor_scaled. apply Z.div_pos; lia. }
  unfold player.add_experience.
  cbn [player.experience player.experience_to_next_level
       player.set_experience].
  destruct (Z.leb_spec (player.experience_to_next_level self)
              (player.experience self + amount)) as [Hle|Hlt].
  - cbn [fst snd].
    assert (Hthr : player.experience_to_next_level
                     (player.level_up
                        (player.set_experience
                           (player.experience self + amount) self))
                   = Qfloor (inject_Z (player.experience_to_next_level self)
                             * 1.5)).
    { cbn. apply int_scaled_nonneg. lia. }
    rewrite Hthr. cbn [player.level_up player.level player.experience
      player.set_level player.set_experience
      player.set_experience_to_next_level player.set_max_health
      player.set_health player.set_attack player.set_defense
      player.set_speed player.set_critical_damage player.set_credits
      player.experience_to_next_level].
    repeat split; try lia.
  - cbn [fst snd player.level player.experience player.set_experience
         player.experience_to_next_level].
    repeat split; try lia.
Qed.

Lemma add_experience_single_level_up_witness :
  0 <= 300 /\ 0 <= player.experience_to_next_level neo < 2 ^ 51 /\
  (player.experience (player.add_experience 300 neo).2
   < player.experience_to_next_level (player.add_experience 300 neo).2
   <-> player.experience neo + 300
       < player.experience_to_next_level neo
         + Qfloor (inject_Z (player.experience_to_next_level neo) * 1.5)).
Proof.
  split; [lia|]. split; [by vm_compute|].
  apply (add_experience_single_level_up 300 neo); by vm_compute.
Defined.

(** C6, as the claim words it, fails: a new player (threshold 100) given 300
    experience levels up once and is left with 200 experience against a
    threshold of 150. *)
Lemma add_experience_leaves_threshold_crossed :
  0 <= 300 /\
  player.level (player.add_experience 300 neo).2 = 2 /\
  player.experience (player.add_experience 300 neo).2 = 200 /\
  player.experience_to_next_level (player.add_experience 300 neo).2 = 150 /\
  ~ (player.experience (player.add_experience 300 neo).2
     < player.experience_to_next_level (player.add_experience 300 neo).2).
Proof. vm_compute. repeat split; congruence. Qed.

(** ** One round *)

Lemma execute_round_healths (player : player.Player) (opponent : combat.NPC)
    (player_stats : player.Stats.t)
    (player_health opponent_health round_num : Z) (g : random.state) :
  let r := (combat._execute_round player opponent player_stats
              player_health opponent_health round_num g).1 in
  0 < player_health -> 0 < opponent_health ->
  0 <= combat.Round.player_health r <= player_health /\
  0 <= combat.Round.opponent_health r <= opponent_health /\
  (0 < combat.Round.player_health r \/ 0 < combat.Round.opponent_health r).
Proof.
  cbv zeta. intros Hp Ho.
  unfold combat._execute_round, random.bind.
  destruct (random.randint (-2) 2 g) as [j1 g1].
  destruct (random.randint (-2) 2 g1) as [j2 g2].
  destruct (combat.speed opponent + j2
            <=? player.Stats.speed player_stats + j1).
  - pose proof (calculate_damage_ge_1 (player.Stats.attack player_stats)
      (combat.defense opponent)
      (player.Stats.critical_damage player_stats) g2) as Hd.
    destruct (combat._calculate_damage _ _ _ g2) as [d1 g3].
    cbn [fst] in Hd.
    destruct (Z.leb_spec (Z.max 0 (opponent_health - d1)) 0).
    + cbn. lia.
    + pose proof (calculate_damage_ge_1 (combat.attack opponent)
        (player.Stats.defense player_stats)
        (combat.critical_damage opponent) g3) as Hd2.
      destruct (combat._calculate_damage _ _ _ g3) as [d2 g4].
      cbn [fst] in Hd2. cbn. lia.
  - pose proof (calculate_damage_ge_1 (combat.attack opponent)
      (player.Stats.defense player_stats)
      (combat.critical_damage opponent) g2) as Hd.
    destruct (combat._calculate_damage _ _ _ g2) as [d1 g3].
    cbn [fst] in Hd.
    destruct (Z.leb_spec (Z.max 0 (player_health - d1)) 0).
    + cbn. lia.
    + pose proof (calculate_damage_ge_1 (player.Stats.attack player_stats)
        (combat.defense opponent)
        (player.Stats.critical_damage player_stats) g3) as Hd2.
      destruct (combat._calculate_damage _ _ _ g3) as [d2 g4].
      cbn [fst] in Hd2. cbn. lia.
Qed.

(** ** The round loop *)

(** With fuel for the rounds that remain before the cap, the loop returns;
    it leaves with its condition false, has appended one record per turn of
    the counter, never raises a health and never brings both sides down. *)
Lemma battle_loop_exit (player : player.Player) (opponent : combat.NPC)
    (player_stats : player.Stats.t) (fuel : nat) :
  forall (player_health opponent_health : Z)
         (battle_rounds : list combat.Round.t) (round_num : Z)
         (g : random.state),
    (Z.to_nat (21 - round_num) <= fuel)%nat ->
    exists ph oh rounds rn g',
      combat.battle_loop fuel player opponent player_stats
        player_health opponent_health battle_rounds round_num g
      = (Some (ph, oh, rounds, rn), g') /\
      (ph <= 0 \/ oh <= 0 \/ 20 < rn) /\
      round_num <= rn /\ (round_num <= 21 -> rn <= 21) /\
      Z.of_nat (length rounds)
      = Z.of_nat (length battle_rounds) + (rn - round_num) /\
      (0 < player_health \/ 0 < opponent_health -> 0 < ph \/ 0 < oh) /\
      (0 <= player_health -> 0 <= ph) /\
      (0 <= opponent_health -> 0 <= oh).
Proof.
  induction fuel as [|fuel IH];
    intros player_health opponent_health battle_rounds round_num g Hfuel;
    cbn [combat.battle_loop];
    destruct (Z.ltb_spec 0 player_health) as [Hp|Hp];
    destruct (Z.ltb_spec 0 opponent_health) as [Ho|Ho];
    destruct (Z.leb_spec round_num 20) as [Hr|Hr];
    cbn [andb];
    try (eexists _, _, _, _, _; split; [reflexivity|]; lia).
  - (* out of fuel below the cap: excluded by the bound on [fuel] *)
    lia.
  - unfold random.bind.
    pose proof (execute_round_healths player opponent player_stats
                  player_health opponent_health round_num g Hp Ho) as Hround.
    destruct (combat._execute_round player opponent player_stats
                player_health opponent_health round_num g) as [r g1].
    cbn [fst] in Hround.
    destruct (IH (combat.Round.player_health r)
                (combat.Round.opponent_health r)
                (battle_rounds ++ [r]) (round_num + 1) g1)
      as (ph & oh & rounds & rn & g' & Heq & Hexit & Hrn & Hcap & Hlen
          & Hup & Hph & Hoh); [lia|].
    exists ph, oh, rounds, rn, g'. split; [exact Heq|].
    rewrite length_app in Hlen. cbn [length] in Hlen. lia.
Qed.

(** The branch taken after the loop, and what it leaves in the result. *)
Lemma conclude_battle_fields (now : datetime) (self : combat.CombatSystem)
    (player : player.Player) (opponent : combat.NPC)
    (player_health opponent_health : Z)
    (battle_rounds : list combat.Round.t) :
  let concluded :=
    combat.conclude_battle now self player opponent
      player_health opponent_health battle_rounds in
  combat.Result.result concluded.1.1
  = (if (0 <? player_health) && (opponent_health <=? 0) then "victory"
     else if (0 <? opponent_health) && (player_health <=? 0) then "defeat"
     else "draw") /\
  player.health concluded.1.2 = Z.max 1 player_health /\
  combat.Result.rounds concluded.1.1 = Z.of_nat (length battle_rounds) /\
  combat.Result.player_damage concluded.1.1
  = player.max_health concluded.1.2 - player_health /\
  combat.Result.opponent_damage concluded.1.1
  = combat.max_health opponent - opponent_health.
Proof.
  cbv zeta. unfold combat.conclude_battle.
  destruct ((0 <? player_health) && (opponent_health <=? 0));
    [|destruct ((0 <? opponent_health) && (player_health <=? 0))];
    cbn; repeat split.
Qed.

Lemma execute_battle_unfold (fuel : nat) (start finish : datetime)
    (self : combat.CombatSystem) (player : player.Player)
    (opponent : combat.NPC) (g g' : random.state)
    (ph oh rn : Z) (rounds : list combat.Round.t) :
  combat.battle_loop fuel (player.start_combat start player) opponent
    (player.get_total_stats player) (player.health player)
    (combat.health opponent) [] 1 g
  = (Some (ph, oh, rounds, rn), g') ->
  combat.execute_battle fuel start finish self player opponent g
  = (Some (combat.conclude_battle finish self
             (player.start_combat start player) opponent ph oh rounds), g').
Proof.
  intros Hloop. unfold combat.execute_battle, random.bind.
  change (player.get_total_stats (player.start_combat start player))
    with (player.get_total_stats player).
  change (player.health (player.start_combat start player))
    with (player.health player).
  by rewrite Hloop.
Qed.

(** ** The battle *)

(** C3: with fuel for 20 turns the round loop of [execute_battle] always
    returns; it has run at most 20 rounds, and the ['rounds'] entry of the
    result, the number of rounds run, is at most 20. *)
Theorem execute_battle_terminates (fuel : nat) (start finish : datetime)
    (self : combat.CombatSystem) (player : player.Player)
    (opponent : combat.NPC) (g : random.state) :
  (20 <= fuel)%nat ->
  exists ph oh rounds rn result player' self' g',
    combat.battle_loop fuel (player.start_combat start player) opponent
      (player.get_total_stats player) (player.health player)
      (combat.health opponent) [] 1 g
    = (Some (ph, oh, rounds, rn), g') /\
    combat.execute_battle fuel start finish self player opponent g
    = (Some (result, player', self'), g') /\
    (length rounds <= 20)%nat /\
    rn = 1 + Z.of_nat (length rounds) /\
    combat.Result.rounds result = Z.of_nat (length rounds) /\
    0 <= combat.Result.rounds result <= 20.
Proof.
  intros Hfuel.
  destruct (battle_loop_exit (player.start_combat start player) opponent
              (player.get_total_stats player) fuel (player.health player)
              (combat.health opponent) [] 1 g)
    as (ph & oh & rounds & rn & g' & Hloop & _ & Hrn & Hcap & Hlen & _);
    [lia|].
  cbn [length] in Hlen.
  pose proof (execute_battle_unfold fuel start finish self player opponent
                g g' ph oh rn rounds Hloop) as Hexec.
  destruct (combat.conclude_battle finish self
              (player.start_combat start player) opponent ph oh rounds)
    as [[result player'] self'] eqn:Hconcluded.
  pose proof (conclude_battle_fields finish self
                (player.start_combat start player) opponent ph oh rounds)
    as (_ & _ & Hrounds & _).
  rewrite Hconcluded in Hrounds. cbn [fst snd] in Hrounds.
  exists ph, oh, rounds, rn, result, player', self', g'.
  repeat split; try done; lia.
Qed.

Lemma execute_battle_terminates_witness :
  (20 <= 20)%nat /\
  exists ph oh rounds rn result player' self' g',
    combat.battle_loop 20 (player.start_combat 0 neo) gangster
      (player.get_total_stats neo) (player.health neo)
      (combat.health gangster) [] 1 supply
    = (Some (ph, oh, rounds, rn), g') /\
    combat.execute_battle 20 0 1 combat.CombatSystem_init neo gangster supply
    = (Some (result, player', self'), g') /\
    (length rounds <= 20)%nat /\
    rn = 1 + Z.of_nat (length rounds) /\
    combat.Result.rounds result = Z.of_nat (length rounds) /\
    0 <= combat.Result.rounds result <= 20.
Proof.
  split; [lia|].
  apply (execute_battle_terminates 20 0 1 combat.CombatSystem_init neo
           gangster supply). lia.
Defined.

(** Splits a classification goal into its atoms and closes each by the
    string constants or by arithmetic. *)
Ltac settle_outcome :=
  repeat match goal with
         | |- _ /\ _ => split
         | |- _ <-> _ => split
         | |- _ = _ -> _ => intros ?
         | |- _ /\ _ -> _ => intros ?
         end;
  try done; try discriminate; try lia; auto.

(** C2: a battle against an opponent that enters with positive health, by a
    player whose health is not negative, ends in exactly one of "victory",
    "defeat" and "draw": victory iff the opponent's health is 0 and the
    player's positive, defeat iff the player's health is 0 and the
    opponent's positive, draw iff both are still positive, which happens
    only after the 20 rounds of the cap; and the health stored on the player
    afterwards is at least 1. *)
Theorem execute_battle_outcome (fuel : nat) (start finish : datetime)
    (self : combat.CombatSystem) (player : player.Player)
    (opponent : combat.NPC) (g : random.state) :
  (20 <= fuel)%nat ->
  0 <= player.health player ->
  0 < combat.health opponent ->
  exists ph oh rounds rn result player' self' g',
    combat.battle_loop fuel (player.start_combat start player) opponent
      (player.get_total_stats player) (player.health player)
      (combat.health opponent) [] 1 g
    = (Some (ph, oh, rounds, rn), g') /\
    combat.execute_battle fuel start finish self player opponent g
    = (Some (result, player', self'), g') /\
    0 <= ph /\ 0 <= oh /\
    (combat.Result.result result = "victory" \/
     combat.Result.result result = "defeat" \/
     combat.Result.result result = "draw") /\
    (combat.Result.result result = "victory" <-> oh = 0 /\ 0 < ph) /\
    (combat.Result.result result = "defeat" <-> ph = 0 /\ 0 < oh) /\
    (combat.Result.result result = "draw"
     <-> 0 < ph /\ 0 < oh /\ length rounds = 20%nat) /\
    player.health player' = Z.max 1 ph /\
    1 <= player.health player'.
Proof.
  intros Hfuel Hplayer Hopponent.
  destruct (battle_loop_exit (player.start_combat start player) opponent
              (player.get_total_stats player) fuel (player.health player)
              (combat.health opponent) [] 1 g)
    as (ph & oh & rounds & rn & g' & Hloop & Hexit & Hrn & Hcap & Hlen
        & Hup & Hph & Hoh); [lia|].
  cbn [length] in Hlen.
  pose proof (execute_battle_unfold fuel start finish self player opponent
                g g' ph oh rn rounds Hloop) as Hexec.
  destruct (combat.conclude_battle finish self
              (player.start_combat start player) opponent ph oh rounds)
    as [[result player'] self'] eqn:Hconcluded.
  pose proof (conclude_battle_fields finish self
                (player.start_combat start player) opponent ph oh rounds)
    as (Hresult & Hhealth & _).
  rewrite Hconcluded in Hresult, Hhealth. cbn [fst snd] in Hresult, Hhealth.
  exists ph, oh, rounds, rn, result, player', self', g'.
  split; [exact Hloop|]. split; [exact Hexec|].
  split; [lia|]. split; [lia|].
  rewrite Hresult, Hhealth.
  assert (Hlength : 20 < rn -> length rounds = 20%nat) by lia.
  destruct (Z.ltb_spec 0 ph); destruct (Z.leb_spec oh 0);
    destruct (Z.ltb_spec 0 oh); destruct (Z.leb_spec ph 0);
    cbn [andb]; try lia; settle_outcome.
Qed.

Lemma execute_battle_outcome_witness :
  (20 <= 20)%nat /\ 0 <= player.health neo /\ 0 < combat.health gangster /\
  exists ph oh rounds rn result player' self' g',
    combat.battle_loop 20 (player.start_combat 0 neo) gangster
      (player.get_total_stats neo) (player.health neo)
      (combat.health gangster) [] 1 supply
    = (Some (ph, oh, rounds, rn), g') /\
    combat.execute_battle 20 0 1 combat.CombatSystem_init neo gangster supply
    = (Some (result, player', self'), g') /\
    0 <= ph /\ 0 <= oh /\
    (combat.Result.result result = "victory" \/
     combat.Result.result result = "defeat" \/
     combat.Result.result result = "draw") /\
    (combat.Result.result result = "victory" <-> oh = 0 /\ 0 < ph) /\
    (combat.Result.result result = "defeat" <-> ph = 0 /\ 0 < oh) /\
    (combat.Result.result result = "draw"
     <-> 0 < ph /\ 0 < oh /\ length rounds = 20%nat) /\
    player.health player' = Z.max 1 ph /\
    1 <= player.health player'.
Proof.
  split; [lia|]. split; [by vm_compute|]. split; [by vm_compute|].
  apply (execute_battle_outcome 20 0 1 combat.CombatSystem_init neo
           gangster supply); [lia | by vm_compute | by vm_compute].
Defined.

(** C10: a round entered with both healths positive never leaves both at 0,
    since the side struck down first ends the round; so, against an
    opponent that enters with positive health, the loop never exits with
    both healths at 0, and the last branch of the classification ("draw")
    is taken only with both healths positive after the 20th round. *)
Theorem draw_is_round_cap (fuel : nat) (start finish : datetime)
    (self : combat.CombatSystem) (player : player.Player)
    (opponent : combat.NPC) (g : random.state) :
  (20 <= fuel)%nat ->
  0 < combat.health opponent ->
  (forall player_health opponent_health round_num g1,
     0 < player_health -> 0 < opponent_health ->
     let r := (combat._execute_round (player.start_combat start player)
                 opponent (player.get_total_stats player)
                 player_health opponent_health round_num g1).1 in
     ~ (combat.Round.player_health r <= 0
        /\ combat.Round.opponent_health r <= 0)) /\
  exists ph oh rounds rn g',
    combat.battle_loop fuel (player.start_combat start player) opponent
      (player.get_total_stats player) (player.health player)
      (combat.health opponent) [] 1 g
    = (Some (ph, oh, rounds, rn), g') /\
    ~ (ph <= 0 /\ oh <= 0) /\
    (combat.Result.result
       (combat.conclude_battle finish self
          (player.start_combat start player) opponent ph oh rounds).1.1
     = "draw" ->
     0 < ph /\ 0 < oh /\ rn = 21 /\ length rounds = 20%nat).
Proof.
  intros Hfuel Hopponent. split.
  - intros player_health opponent_health round_num g1 Hp Ho.
    pose proof (execute_round_healths (player.start_combat start player)
                  opponent (player.get_total_stats player)
                  player_health opponent_health round_num g1 Hp Ho).
    cbv zeta. lia.
  - destruct (battle_loop_exit (player.start_combat start player) opponent
                (player.get_total_stats player) fuel (player.health player)
                (combat.health opponent) [] 1 g)
      as (ph & oh & rounds & rn & g' & Hloop & Hexit & Hrn & Hcap & Hlen
          & Hup & _); [lia|].
    cbn [length] in Hlen.
    exists ph, oh, rounds, rn, g'.
    split; [exact Hloop|]. split; [lia|].
    destruct (conclude_battle_fields finish self
                (player.start_combat start player) opponent ph oh rounds)
      as (Hresult & _).
    rewrite Hresult.
    destruct (Z.ltb_spec 0 ph); destruct (Z.leb_spec oh 0);
      destruct (Z.ltb_spec 0 oh); destruct (Z.leb_spec ph 0);
      cbn [andb]; try lia; intros ?; try discriminate; lia.
Qed.

Lemma draw_is_round_cap_witness :
  (20 <= 20)%nat /\ 0 < combat.health gangster /\
  exists ph oh rounds rn g',
    combat.battle_loop 20 (player.start_combat 0 neo) gangster
      (player.get_total_stats neo) (player.health neo)
      (combat.health gangster) [] 1 supply
    = (Some (ph, oh, rounds, rn), g') /\
    ~ (ph <= 0 /\ oh <= 0) /\
    (combat.Result.result
       (combat.conclude_battle 1 combat.CombatSystem_init
          (player.start_combat 0 neo) gangster ph oh rounds).1.1
     = "draw" ->
     0 < ph /\ 0 < oh /\ rn = 21 /\ length rounds = 20%nat).
Proof.
  split; [lia|]. split; [by vm_compute|].
  apply (draw_is_round_cap 20 0 1 combat.CombatSystem_init neo gangster
           supply); [lia | by vm_compute].
Defined.

(** ** Opponent selection *)

Lemma suitable_npcs_filter (player : player.Player)
    (npcs suitable_npcs : list combat.NPC) :
  fold_left (combat.keep_suitable player) npcs suitable_npcs
  = suitable_npcs
    ++ filter (fun npc : combat.NPC =>
                 Z.abs (combat.level npc - player.level player) <= 3) npcs.
Proof.
  revert suitable_npcs.
  induction npcs as [|npc npcs IH]; intros suitable_npcs; cbn [fold_left].
  - by rewrite filter_nil, app_nil_r.
  - rewrite IH, filter_cons. unfold combat.keep_suitable.
    destruct (Z.leb_spec
                (Z.abs (combat.level npc - player.level player)) 3);
      case_decide; try lia; [by rewrite <- app_assoc | done].
Qed.

Lemma find_opponent_eq (self : combat.CombatSystem)
    (player : player.Player) (g : random.state) :
  let suitable :=
    filter (fun npc : combat.NPC =>
              Z.abs (combat.level npc - player.level player) <= 3)
      (combat.npc_database self) in
  (combat.find_opponent self player g).1
  = match suitable with
    | [] => Some None
    | _ => Some <$> suitable
           !! Z.to_nat (g 0%nat `mod` Z.of_nat (length suitable))
    end.
Proof.
  cbv zeta. unfold combat.find_opponent.
  rewrite suitable_npcs_filter, app_nil_l.
  by destruct (filter _ (combat.npc_database self)).
Qed.

(** ** Distributions *)

Lemma draws_one (n : nat) :
  random.draws [n] = (fun k => [k]) <$> seqZ 0 (Z.of_nat n).
Proof.
  cbn [random.draws]. induction (seqZ 0 (Z.of_nat n)) as [|k l IH];
    [done|].
  cbn. by f_equal.
Qed.

(** One draw over the indices of a list takes each element once. *)
Lemma law_index {A B} (m : random.Rand B) (f : A -> B) (l : list A) :
  (forall k a, l !! k = Some a ->
     (m (random.supplying [Z.of_nat k])).1 = f a) ->
  random.law m [length l] = f <$> l.
Proof.
  intros Hm. unfold random.law. rewrite draws_one, <- list_fmap_compose.
  apply list_eq. intros i. rewrite !list_lookup_fmap.
  destruct (l !! i) as [a|] eqn:Hi.
  - rewrite lookup_seqZ_lt by (apply lookup_lt_Some in Hi; lia).
    cbn. f_equal. rewrite Z.add_0_l. by apply Hm.
  - rewrite lookup_seqZ_ge; [done|]. apply lookup_ge_None in Hi. lia.
Qed.

(** In a list without repetition every element has the same share. *)
Lemma probability_NoDup {A} `{EqDecision A} (l : list A) (a : A) :
  NoDup l -> a ∈ l ->
  random.probability (fun x => bool_decide (x = a)) l
  = 1 # Pos.of_nat (length l).
Proof.
  intros Hnodup Ha. unfold random.probability.
  assert (Hone : length (List.filter (fun x => bool_decide (x = a)) l)
                 = 1%nat).
  { induction Hnodup as [|x l Hx Hnodup IH]; [by apply elem_of_nil in Ha|].
    cbn [List.filter]. apply elem_of_cons in Ha as [<-|Ha].
    - rewrite bool_decide_eq_true_2 by done. cbn [length]. f_equal.
      clear IH Hnodup. induction l as [|y l IH]; [done|].
      cbn [List.filter]. rewrite bool_decide_eq_false_2.
      + apply IH. intros H. apply Hx. by right.
      + intros ->. apply Hx. by left.
    - rewrite bool_decide_eq_false_2 by (intros ->; done). by apply IH. }
  by rewrite Hone.
Qed.

Lemma roster_NoDup : NoDup combat._create_npc_database.
Proof.
  apply (NoDup_fmap_1 combat.level).
  apply (bool_decide_unpack _). by vm_compute.
Qed.

(** C8: [find_opponent] never fails with the [IndexError] of
    [random.choice], whatever the generator.  An opponent it returns belongs
    to the roster and its level is within 3 of the player's; it returns
    [None] exactly when no opponent of the roster is.  Otherwise the
    opponent returned is the one at the drawn index among the eligible
    ones, the index lies below their number, every index occurs, and (the
    roster having no repetition) each eligible opponent sits at exactly one
    index: over the equally likely values of the draw the results are the
    eligible opponents, each once, so that each is returned with
    probability one over their number. *)
Theorem find_opponent_eligible (self : combat.CombatSystem)
    (player : player.Player) (g : random.state) :
  let eligible (npc : combat.NPC) :=
    Z.abs (combat.level npc - player.level player) <= 3 in
  let suitable := filter eligible (combat.npc_database self) in
  let n := length suitable in
  let found := (combat.find_opponent self player g).1 in
  NoDup (combat.npc_database self) ->
  found <> None /\
  (forall o, found = Some (Some o) ->
     o ∈ combat.npc_database self /\ eligible o) /\
  (found = Some None
   <-> forall o, o ∈ combat.npc_database self -> ~ eligible o) /\
  (n <> 0%nat ->
     (Z.to_nat (g 0%nat `mod` Z.of_nat n) < n)%nat /\
     found = Some <$> suitable !! Z.to_nat (g 0%nat `mod` Z.of_nat n)) /\
  (forall k, (k < n)%nat ->
     exists g',
       (combat.find_opponent self player g').1 = Some <$> suitable !! k) /\
  (forall o, o ∈ combat.npc_database self -> eligible o ->
     exists! k, (k < n)%nat /\ suitable !! k = Some o) /\
  (n <> 0%nat ->
     random.law (combat.find_opponent self player) [n]
     = (fun o => Some (Some o)) <$> suitable /\
     NoDup suitable /\
     forall o, o ∈ combat.npc_database self -> eligible o ->
       random.probability (fun r => bool_decide (r = Some (Some o)))
         (random.law (combat.find_opponent self player) [n])
       = 1 # Pos.of_nat n).
Proof.
  cbv zeta. intros Hnodup.
  set (eligible := fun npc : combat.NPC =>
         Z.abs (combat.level npc - player.level player) <= 3).
  set (suitable := filter eligible (combat.npc_database self)).
  assert (Hin : forall o, o ∈ suitable
                          <-> o ∈ combat.npc_database self /\ eligible o).
  { intros o. unfold suitable. rewrite list_elem_of_filter. tauto. }
  assert (Hindex : forall r, length suitable <> 0%nat ->
            (Z.to_nat (r `mod` Z.of_nat (length suitable))
             < length suitable)%nat).
  { intros r Hn.
    pose proof (Z.mod_pos_bound r (Z.of_nat (length suitable))). lia. }
  assert (Heq : forall g0, (combat.find_opponent self player g0).1
            = match suitable with
              | [] => Some None
              | _ => Some <$> suitable
                     !! Z.to_nat (g0 0%nat `mod` Z.of_nat (length suitable))
              end) by (intros g0; apply find_opponent_eq).
  assert (Hsome : forall r, length suitable <> 0%nat ->
            is_Some (suitable
                     !! Z.to_nat (r `mod` Z.of_nat (length suitable))))
    by (intros r Hn; by apply lookup_lt_is_Some_2, Hindex).
  assert (Hsd : NoDup suitable) by (by apply NoDup_filter).
  assert (Hlaw : length suitable <> 0%nat ->
            random.law (combat.find_opponent self player) [length suitable]
            = (fun o => Some (Some o)) <$> suitable).
  { intros Hn. apply law_index. intros k a Hk. rewrite Heq.
    destruct suitable as [|o1 rest] eqn:Hs; [done|].
    unfold random.supplying. cbn [lookup list_lookup default]. unfold id.
    rewrite Z.mod_small by (apply lookup_lt_Some in Hk; lia).
    by rewrite Nat2Z.id, Hk. }
  split; [|split; [|split; [|split; [|split; [|split]]]]].
  - rewrite Heq. destruct suitable as [|o1 rest] eqn:Hs; [done|].
    destruct (Hsome (g 0%nat)) as [o Ho]; [done|]. by rewrite Ho.
  - intros o Ho. apply Hin. rewrite Heq in Ho.
    destruct suitable as [|o1 rest] eqn:Hs; [done|].
    destruct (_ !! _) as [o'|] eqn:Hlook; [|done].
    injection Ho as <-. by apply list_elem_of_lookup_2 in Hlook.
  - rewrite Heq. split.
    + intros Hnone o Ho Hel.
      assert (Hos : o ∈ suitable) by (by apply Hin).
      destruct suitable as [|o1 rest] eqn:Hs; [by apply elem_of_nil in Hos|].
      destruct (Hsome (g 0%nat)) as [o' Ho']; [done|].
      by rewrite Ho' in Hnone.
    + intros Hall. destruct suitable as [|o1 rest] eqn:Hs; [done|].
      exfalso. assert (Ho1 : o1 ∈ o1 :: rest) by apply list_elem_of_here.
      apply Hin in Ho1 as [Hdb Hel]. by apply (Hall o1).
  - intros Hn. split; [by apply Hindex|].
    rewrite Heq. by destruct suitable.
  - intros k Hk. exists (fun _ => Z.of_nat k). rewrite Heq.
    destruct suitable as [|o1 rest] eqn:Hs; [cbn in Hk; lia|].
    rewrite Z.mod_small by lia. by rewrite Nat2Z.id.
  - intros o Hdb Hel.
    assert (Hos : o ∈ suitable) by (by apply Hin).
    apply list_elem_of_lookup in Hos as [k Hk].
    exists k. split.
    + split; [by apply lookup_lt_Some in Hk | exact Hk].
    + intros k' [_ Hk'].
      by apply (NoDup_lookup suitable k k' o).
  - intros Hn. split; [by apply Hlaw|]. split; [exact Hsd|].
    intros o Hdb Hel. rewrite Hlaw by done.
    rewrite <- (length_fmap (fun o => Some (Some o)) suitable).
    apply probability_NoDup.
    + by apply (NoDup_fmap_2 _).
    + apply list_elem_of_fmap. exists o. split; [done|]. by apply Hin.
Qed.

Lemma find_opponent_eligible_witness :
  NoDup (combat.npc_database combat.CombatSystem_init) /\
  (combat.find_opponent combat.CombatSystem_init neo supply).1 <> None /\
  random.probability (fun r => bool_decide (r = Some (Some gangster)))
    (random.law (combat.find_opponent combat.CombatSystem_init neo) [4%nat])
  = 1 # 4.
Proof.
  split; [exact roster_NoDup|].
  destruct (find_opponent_eligible combat.CombatSystem_init neo supply
              roster_NoDup) as (Hfound & _ & _ & _ & _ & _ & Hlaw).
  split; [exact Hfound|].
  destruct Hlaw as (_ & _ & Hp); [by vm_compute|].
  apply (Hp gangster); [apply (bool_decide_unpack _) | ]; by vm_compute.
Defined.

(** ** Aggregated stats *)

Lemma stats_plus_assoc (a b c : player.Stats.t) :
  stats_plus (stats_plus a b) c = stats_plus a (stats_plus b c).
Proof. unfold stats_plus. cbn. f_equal; lia. Qed.

Lemma stats_plus_zero (a : player.Stats.t) : stats_plus a stats_zero = a.
Proof. destruct a. unfold stats_plus. cbn. f_equal; lia. Qed.

Lemma add_item_bonus_plus (total : player.Stats.t) (item : items.Item) :
  player.add_item_bonus total item = stats_plus total (item_bonus item).
Proof.
  destruct total. unfold item_bonus, player.add_item_bonus, stats_plus.
  repeat case_match; cbn; f_equal; lia.
Qed.

Lemma fold_add_item_bonus (owned : list items.Item)
    (total : player.Stats.t) :
  fold_left player.add_item_bonus owned total
  = stats_plus total (bonus_sum owned).
Proof.
  revert total. induction owned as [|item owned IH]; intros total; cbn.
  - by rewrite stats_plus_zero.
  - by rewrite IH, add_item_bonus_plus, stats_plus_assoc.
Qed.

(** [get_total_stats] adds the bonuses of the inventory to the attributes
    stored on the player. *)
Lemma get_total_stats_eq (self : player.Player) :
  player.get_total_stats self
  = stats_plus (own_stats self) (bonus_sum (player.inventory self)).
Proof. apply fold_add_item_bonus. Qed.

(** [add_item] stores the item and adds its bonuses to those attributes. *)
Lemma add_item_own_stats (item : items.Item) (self : player.Player) :
  own_stats (player.add_item item self)
  = stats_plus (own_stats self) (item_bonus item) /\
  player.inventory (player.add_item item self)
  = player.inventory self ++ [item].
Proof.
  unfold player.add_item, player.apply_item_effects, item_bonus,
    player.add_item_bonus, own_stats, stats_plus.
  repeat case_match; cbn; split; try done; f_equal; lia.
Qed.

Lemma add_items_own_stats (new_items : list items.Item)
    (self : player.Player) :
  own_stats (add_items new_items self)
  = stats_plus (own_stats self) (bonus_sum new_items) /\
  player.inventory (add_items new_items self)
  = player.inventory self ++ new_items.
Proof.
  revert self.
  induction new_items as [|item new_items IH]; intros self; cbn.
  - by rewrite stats_plus_zero, app_nil_r.
  - destruct (IH (player.add_item item self)) as [Hstats Hinv].
    destruct (add_item_own_stats item self) as [Hstats1 Hinv1].
    unfold add_items in Hstats, Hinv.
    rewrite Hstats, Hinv, Hstats1, Hinv1, stats_plus_assoc.
    by rewrite <- app_assoc.
Qed.

(** What [get_total_stats] returns for a player who started without items
    and acquired [new_items] through [add_item]: the starting attributes
    plus the bonuses of the items counted twice. *)
Lemma get_total_stats_after_add_items (new_items : list items.Item)
    (self : player.Player) :
  player.inventory self = [] ->
  player.get_total_stats (add_items new_items self)
  = stats_plus (own_stats self)
      (stats_plus (bonus_sum new_items) (bonus_sum new_items)).
Proof.
  intros Hempty. rewrite get_total_stats_eq.
  destruct (add_items_own_stats new_items self) as [Hstats Hinv].
  rewrite Hstats, Hinv, Hempty, app_nil_l. apply stats_plus_assoc.
Qed.

(** C5 fails on the code: a new player (attack 10) who acquires the
    Кибер-меч (attack bonus 5) through [add_item] owns that one item, and
    [get_total_stats] reports attack 20, not 10 + 5: the bonus is added
    to the stored attribute by [add_item] and again by [get_total_stats]. *)
Theorem get_total_stats_counts_item_twice :
  let armed := player.add_item cyber_sword neo in
  player.inventory neo = [] /\
  player.inventory armed = [cyber_sword] /\
  player.attack neo + items.attack_bonus cyber_sword = 15 /\
  player.Stats.attack (player.get_total_stats armed) = 20.
Proof. by vm_compute. Qed.

(** ** Persistence *)

Lemma item_round_trip (item : items.Item) :
  items.from_dict (items.to_dict item) = Some item.
Proof. destruct item. reflexivity. Qed.

Lemma load_inventory_eq (owned : list items.Item) (self : player.Player) :
  player.load_inventory (items.to_dict <$> owned) self
  = Some (add_items owned self).
Proof.
  revert self. induction owned as [|item owned IH]; intros self; [done|].
  cbn [fmap list_fmap player.load_inventory].
  change (list_fmap _ _ items.to_dict owned) with (items.to_dict <$> owned).
  rewrite item_round_trip. cbn [mbind option_bind].
  by rewrite IH.
Qed.

(** Reloading a stored player restores every stored field and then adds the
    stored items again through the steps of [add_item]. *)
Lemma from_dict_to_dict (now : datetime) (self : player.Player) :
  player.from_dict now (player.to_dict self)
  = Some (add_items (player.inventory self) (stored self)).
Proof.
  destruct self as [uid uname lvl exp thr cr hp mhp atk dfn spd crit wins
                      losses found pstart lcombat lsearch inv eq cc sc].
  unfold player.from_dict.
  destruct lcombat, lsearch; apply load_inventory_eq.
Qed.

(** The round trip is the identity on a player without items (whose
    unsaved fields have their initial values). *)
Lemma from_dict_to_dict_no_items (now : datetime) (self : player.Player) :
  player.inventory self = [] ->
  player.equipped_items self = ∅ ->
  player.combat_cooldown self = 300 ->
  player.search_cooldown self = 600 ->
  player.from_dict now (player.to_dict self) = Some self.
Proof.
  intros Hinv Heq Hcc Hsc. rewrite from_dict_to_dict, Hinv.
  destruct self. cbn in *. by subst.
Qed.

(** C7 fails on the code: the player who owns the Кибер-меч has attack
    15; stored and reloaded, the player comes back with the same inventory
    and attack 20, since [from_dict] applies the effects of the stored
    items to attributes that already include them. *)
Theorem from_dict_to_dict_changes_attack :
  let armed := player.add_item cyber_sword neo in
  match player.from_dict 0 (player.to_dict armed) with
  | Some reloaded =>
      player.attack armed = 15 /\
      player.attack reloaded = 20 /\
      player.inventory reloaded = player.inventory armed
  | None => False
  end.
Proof. by vm_compute. Qed.

(** ** Reported damage *)

(** C9 fails on the code: a player who enters at 90 of 100 health and is
    dealt 90 damage over the battle (the opponent is dealt 60) gets
    ['player_damage'] 100 in the result, which is [max_health] minus the
    final health, not the damage taken. *)
Theorem execute_battle_player_damage_from_max_health :
  let wounded := player.set_health 90 neo in
  match (combat.battle_loop 20 (player.start_combat 0 wounded) gangster
           (player.get_total_stats wounded) (player.health wounded)
           (combat.health gangster) [] 1 steady).1,
        (combat.execute_battle 20 0 1 combat.CombatSystem_init wounded
           gangster steady).1 with
  | Some (ph, oh, rounds, _), Some (result, _, _) =>
      player.health wounded = 90 /\ player.max_health wounded = 100 /\
      ph = 0 /\
      damage_to_player rounds = 90 /\
      combat.Result.player_damage result = 100 /\
      damage_to_opponent rounds = 60 /\
      combat.Result.opponent_damage result = 60
  | _, _ => False
  end.
Proof. by vm_compute. Qed.


(** * Further properties of the code

    ** Credits, health and item effects *)

(** X1: [spend_credits] pays exactly when the balance covers the amount;
    then the balance drops by the amount, otherwise the player is left
    untouched; a balance that is not negative never becomes negative; a
    negative amount is accepted and raises the balance. *)
Theorem spend_credits_balance (amount : Z) (self : player.Player) :
  let paid := (player.spend_credits amount self).1 in
  let self' := (player.spend_credits amount self).2 in
  (paid = true <-> amount <= player.credits self) /\
  (paid = true -> self' = player.set_credits (player.credits self - amount) self) /\
  (paid = false -> self' = self) /\
  (0 <= player.credits self -> 0 <= player.credits self') /\
  (amount < 0 -> 0 <= player.credits self ->
     paid = true /\ player.credits self < player.credits self').
Proof.
  cbv zeta. unfold player.spend_credits.
  destruct (Z.leb_spec amount (player.credits self)); cbn;
    repeat split; intros; try done; try lia.
Qed.

(** [heal] leaves [max_health] alone and never takes health above it;
    healing by at least what is missing fills the health, healing by less
    adds the amount; a non-negative amount never lowers the health of a
    player who is within the maximum. *)
Lemma heal_bounds (amount : Z) (self : player.Player) :
  let self' := player.heal amount self in
  player.max_health self' = player.max_health self /\
  player.health self' <= player.max_health self /\
  (0 <= amount -> player.health self <= player.max_health self ->
     player.health self <= player.health self') /\
  (player.max_health self - player.health self <= amount ->
     player.health self' = player.max_health self) /\
  (amount <= player.max_health self - player.health self ->
     player.health self' = player.health self + amount).
Proof. cbv zeta. cbn. lia. Qed.

(** X2: [take_damage] inflicts and returns [max(1, damage - defense)], so
    at least 1 even when the defense covers the damage (or the damage is
    0); the health ends at [max(0, health - actual)], so it is never
    negative afterwards and a positive health always drops. *)
Theorem take_damage_costs_health (damage : Z) (self : player.Player) :
  let actual := (player.take_damage damage self).1 in
  let self' := (player.take_damage damage self).2 in
  actual = Z.max 1 (damage - player.defense self) /\
  1 <= actual /\
  (damage - player.defense self <= 1 -> actual = 1) /\
  player.health self' = Z.max 0 (player.health self - actual) /\
  0 <= player.health self' /\
  (0 < player.health self -> player.health self' < player.health self) /\
  player.max_health self' = player.max_health self.
Proof. cbv zeta. cbn. lia. Qed.

(** X3: [remove_item_effects] undoes [apply_item_effects] for the same item,
    and conversely, on every field of the player. *)
Theorem item_effects_cancel (item : items.Item) (self : player.Player) :
  player.remove_item_effects item (player.apply_item_effects item self) = self
  /\ player.apply_item_effects item (player.remove_item_effects item self)
     = self.
Proof.
  destruct self.
  unfold player.remove_item_effects, player.apply_item_effects.
  repeat case_match;
    cbv [player.set_attack player.set_defense player.set_speed
         player.set_critical_damage]; cbn; split; f_equal; lia.
Qed.

(** ** Cooldowns *)

Lemma int_Qmake (n : Z) (d : positive) : int (n # d) = n `quot` Z.pos d.
Proof.
  unfold int, Qle_bool, Qceiling, Qfloor, Qopp. cbn [Qnum Qden].
  rewrite Z.mul_0_l, Z.mul_1_r.
  destruct (Z.leb_spec 0 n).
  - rewrite Z.quot_div_nonneg; [reflexivity | lia | lia].
  - replace n with (- (- n)) at 2 by lia.
    rewrite Z.quot_opp_l by lia. rewrite Z.quot_div_nonneg by lia.
    reflexivity.
Qed.

Lemma remaining_seconds (cooldown delta : Z) :
  int (inject_Z cooldown - total_seconds delta)
  = (cooldown * 1000000 - delta) `quot` 1000000.
Proof.
  unfold total_seconds, Qminus, Qplus, Qopp, inject_Z. cbn [Qnum Qden].
  rewrite int_Qmake. f_equal. lia.
Qed.

Lemma cooldown_over (cooldown delta : Z) :
  Qle_bool (inject_Z cooldown) (total_seconds delta) = true
  <-> cooldown * 1000000 <= delta.
Proof.
  unfold Qle_bool, total_seconds, inject_Z. cbn [Qnum Qden].
  rewrite Z.leb_le. lia.
Qed.

Lemma remaining_zero (cooldown delta : Z) :
  Z.max 0 (int (inject_Z cooldown - total_seconds delta)) = 0
  <-> (cooldown - 1) * 1000000 < delta.
Proof.
  rewrite remaining_seconds.
  pose proof (Z.quot_rem' (cooldown * 1000000 - delta) 1000000) as Hqr.
  destruct (Z_lt_le_dec (cooldown * 1000000 - delta) 0) as [Hneg|Hpos].
  - pose proof (Z.quot_opp_l (- (cooldown * 1000000 - delta)) 1000000) as Ho.
    pose proof (Z.quot_pos (- (cooldown * 1000000 - delta)) 1000000).
    replace (- - (cooldown * 1000000 - delta)) with (cooldown * 1000000 - delta) in Ho by lia.
    lia.
  - pose proof (Z.rem_bound_pos (cooldown * 1000000 - delta) 1000000).
    pose proof (Z.quot_pos (cooldown * 1000000 - delta) 1000000).
    lia.
Qed.


Lemma remaining_bound (cooldown delta : Z) :
  0 <= delta ->
  Z.max 0 (int (inject_Z cooldown - total_seconds delta)) <= Z.max 0 cooldown.
Proof.
  intros Hdelta. rewrite remaining_seconds.
  destruct (Z_lt_le_dec (cooldown * 1000000 - delta) 0) as [Hneg|Hpos].
  - pose proof (Z.quot_opp_l (- (cooldown * 1000000 - delta)) 1000000) as Ho.
    pose proof (Z.quot_pos (- (cooldown * 1000000 - delta)) 1000000).
    replace (- - (cooldown * 1000000 - delta))
      with (cooldown * 1000000 - delta) in Ho by lia.
    lia.
  - pose proof (Z.quot_rem' (cooldown * 1000000 - delta) 1000000).
    pose proof (Z.rem_bound_pos (cooldown * 1000000 - delta) 1000000).
    lia.
Qed.

(** X4: for cooldowns from 0 to 10^9 seconds, the remaining cooldowns are
    never negative and are 0 whenever the action is allowed; an action
    never taken is allowed at once.  After an action at [last], it is
    allowed again exactly from [cooldown] seconds on, while the remaining
    time shown is already 0 during the last second before that; if the
    clock has not gone back, the remaining time is at most the cooldown. *)
Theorem cooldowns_consistent (now : datetime) (self : player.Player) :
  0 <= player.combat_cooldown self <= 1000000000 ->
  0 <= player.search_cooldown self <= 1000000000 ->
  0 <= player.get_combat_cooldown now self /\
  0 <= player.get_search_cooldown now self /\
  (player.can_combat now self = true ->
     player.get_combat_cooldown now self = 0) /\
  (player.can_search now self = true ->
     player.get_search_cooldown now self = 0) /\
  (player.last_combat self = None ->
     player.can_combat now self = true) /\
  (player.last_search self = None ->
     player.can_search now self = true) /\
  (forall last, player.last_combat self = Some last ->
     (player.can_combat now self = true
      <-> player.combat_cooldown self * 1000000 <= now - last) /\
     (player.get_combat_cooldown now self = 0
      <-> (player.combat_cooldown self - 1) * 1000000 < now - last) /\
     (last <= now ->
        player.get_combat_cooldown now self
        <= Z.max 0 (player.combat_cooldown self))) /\
  (forall last, player.last_search self = Some last ->
     (player.can_search now self = true
      <-> player.search_cooldown self * 1000000 <= now - last) /\
     (player.get_search_cooldown now self = 0
      <-> (player.search_cooldown self - 1) * 1000000 < now - last) /\
     (last <= now ->
        player.get_search_cooldown now self
        <= Z.max 0 (player.search_cooldown self))).
Proof.
  intros _ _.
  unfold player.get_combat_cooldown, player.get_search_cooldown,
    player.can_combat, player.can_search.
  split; [destruct (player.last_combat self); lia|].
  split; [destruct (player.last_search self); lia|].
  split.
  { destruct (player.last_combat self); [|done].
    intros Hcan. apply cooldown_over in Hcan. apply remaining_zero. lia. }
  split.
  { destruct (player.last_search self); [|done].
    intros Hcan. apply cooldown_over in Hcan. apply remaining_zero. lia. }
  split; [by intros ->|]. split; [by intros ->|].
  split; intros last ->;
    (split; [apply cooldown_over|]);
    (split; [apply remaining_zero|]);
    intros Hlast; apply remaining_bound; lia.
Qed.

Lemma cooldowns_consistent_witness :
  0 <= player.combat_cooldown (player.start_combat 7 neo) <= 1000000000 /\
  0 <= player.search_cooldown (player.start_combat 7 neo) <= 1000000000 /\
  (player.can_combat 300000007 (player.start_combat 7 neo) = true
   <-> player.combat_cooldown (player.start_combat 7 neo) * 1000000
       <= 300000007 - 7).
Proof.
  split; [by vm_compute|]. split; [by vm_compute|].
  destruct (cooldowns_consistent 300000007 (player.start_combat 7 neo))
    as (_ & _ & _ & _ & _ & _ & H & _); [by vm_compute | by vm_compute |].
  by destruct (H 7) as (Hcan & _).
Defined.


(** ** Progress of the player *)

Lemma level_up_attributes (self : player.Player) :
  player.attack (player.level_up self) = player.attack self + 3 /\
  player.defense (player.level_up self) = player.defense self + 2 /\
  player.speed (player.level_up self) = player.speed self + 1 /\
  player.critical_damage (player.level_up self)
  = player.critical_damage self + 1 /\
  player.credits (player.level_up self) = player.credits self + 100 /\
  player.inventory (player.level_up self) = player.inventory self /\
  player.combat_wins (player.level_up self) = player.combat_wins self /\
  player.combat_losses (player.level_up self) = player.combat_losses self /\
  player.last_combat (player.level_up self) = player.last_combat self /\
  player.last_search (player.level_up self) = player.last_search self /\
  player.combat_cooldown (player.level_up self)
  = player.combat_cooldown self /\
  player.user_id (player.level_up self) = player.user_id self.
Proof. by repeat split. Qed.

(** X5: for a threshold below 2^51 in absolute value, adding a
    non-negative amount of experience keeps the experience non-negative.
    Without a level-up only the experience changes; a level-up raises the
    level by 1, [max_health] by 20 with the health restored to it, attack
    by 3, defense by 2, speed and critical damage by 1 and the credits by
    100, and keeps the inventory.  The threshold never decreases (from a
    non-negative one) and strictly grows at a level-up (from 2 on). *)
Theorem add_experience_keeps_progress (amount : Z) (self : player.Player) :
  let leveled := (player.add_experience amount self).1 in
  let self' := (player.add_experience amount self).2 in
  0 <= amount -> 0 <= player.experience self ->
  Z.abs (player.experience_to_next_level self) < 2 ^ 51 ->
  0 <= player.experience self' /\
  (leveled = false ->
     self' = player.set_experience (player.experience self + amount) self) /\
  (leveled = true ->
     player.level self' = player.level self + 1 /\
     player.max_health self' = player.max_health self + 20 /\
     player.health self' = player.max_health self' /\
     player.attack self' = player.attack self + 3 /\
     player.defense self' = player.defense self + 2 /\
     player.speed self' = player.speed self + 1 /\
     player.critical_damage self' = player.critical_damage self + 1 /\
     player.credits self' = player.credits self + 100 /\
     player.inventory self' = player.inventory self) /\
  (0 <= player.experience_to_next_level self ->
     player.experience_to_next_level self
     <= player.experience_to_next_level self') /\
  (2 <= player.experience_to_next_level self -> leveled = true ->
     player.experience_to_next_level self
     < player.experience_to_next_level self').
Proof.
  cbv zeta. intros Hamount Hexp _.
  assert (Hgrow : 0 <= player.experience_to_next_level self ->
            player.experience_to_next_level self
            <= int (inject_Z (player.experience_to_next_level self) * 1.5)).
  { intros H. rewrite (int_scaled _ 15 10).
    rewrite Z.quot_div_nonneg by lia.
    apply Z.div_le_lower_bound; lia. }
  assert (Hgrow2 : 2 <= player.experience_to_next_level self ->
            player.experience_to_next_level self
            < int (inject_Z (player.experience_to_next_level self) * 1.5)).
  { intros H. rewrite (int_scaled _ 15 10).
    rewrite Z.quot_div_nonneg by lia.
    assert (player.experience_to_next_level self + 1
            <= (player.experience_to_next_level self * 15) `div` 10)
      by (apply Z.div_le_lower_bound; lia).
    lia. }
  unfold player.add_experience.
  cbn [player.experience player.experience_to_next_level
       player.set_experience].
  destruct (Z.leb_spec (player.experience_to_next_level self)
              (player.experience self + amount)) as [Hle|Hlt];
    cbn [fst snd].
  - destruct (level_up_fields
                (player.set_experience (player.experience self + amount)
                   self)) as (Hl & He & Ht & Hm & Hh).
    destruct (level_up_attributes
                (player.set_experience (player.experience self + amount)
                   self)) as (Ha & Hd & Hs & Hc & Hcr & Hi & _).
    rewrite Hl, He, Ht, Hm, Hh, Ha, Hd, Hs, Hc, Hcr, Hi.
    cbn [player.level player.experience player.experience_to_next_level
         player.max_health player.attack player.defense player.speed
         player.critical_damage player.credits player.inventory
         player.set_experience].
    split; [lia|]. split; [done|]. split; [intros _; by repeat split|].
    split; [exact Hgrow|]. intros H _. by apply Hgrow2.
  - split; [cbn [player.experience player.set_experience]; lia|].
    split; [done|]. split; [done|].
    cbn [player.experience_to_next_level player.set_experience].
    split; [lia|done].
Qed.

Lemma add_experience_keeps_progress_witness :
  0 <= 75 /\ 0 <= player.experience neo /\
  Z.abs (player.experience_to_next_level neo) < 2 ^ 51 /\
  0 <= player.experience (player.add_experience 75 neo).2.
Proof.
  split; [lia|]. split; [by vm_compute|]. split; [by vm_compute|].
  apply (add_experience_keeps_progress 75 neo);
    [lia | by vm_compute | by vm_compute].
Defined.

(** ** Dictionaries read back *)

Lemma items_get_str_Some data key s :
  items.get_str data key = Some s -> data !! key = Some (items.Str s).
Proof. unfold items.get_str. by repeat case_match; intros [= ->]. Qed.

Lemma items_get_int_Some data key z :
  items.get_int data key = Some z -> data !! key = Some (items.Int z).
Proof. unfold items.get_int. by repeat case_match; intros [= ->]. Qed.

Lemma items_get_int_default_Some data key default z :
  items.get_int_default data key default = Some z ->
  data !! key = Some (items.Int z) \/ (data !! key = None /\ z = default).
Proof.
  unfold items.get_int_default.
  repeat case_match; intros [= <-]; auto.
Qed.

(** What [Item.from_dict] needs of a dictionary. *)
Lemma items_from_dict_Some data item :
  items.from_dict data = Some item ->
  data !! "name" = Some (items.Str (items.name item)) /\
  data !! "type" = Some (items.Str (items.type item)) /\
  data !! "rarity" = Some (items.Str (items.rarity item)) /\
  data !! "description" = Some (items.Str (items.description item)) /\
  data !! "cost" = Some (items.Int (items.cost item)) /\
  (data !! "attack_bonus" = Some (items.Int (items.attack_bonus item))
   \/ data !! "attack_bonus" = None /\ items.attack_bonus item = 0) /\
  (data !! "defense_bonus" = Some (items.Int (items.defense_bonus item))
   \/ data !! "defense_bonus" = None /\ items.defense_bonus item = 0) /\
  (data !! "speed_bonus" = Some (items.Int (items.speed_bonus item))
   \/ data !! "speed_bonus" = None /\ items.speed_bonus item = 0) /\
  (data !! "critical_bonus" = Some (items.Int (items.critical_bonus item))
   \/ data !! "critical_bonus" = None /\ items.critical_bonus item = 0).
Proof.
  unfold items.from_dict. intros H.
  apply bind_Some in H as (v1 & H1%items_get_str_Some & H).
  apply bind_Some in H as (v2 & H2%items_get_str_Some & H).
  apply bind_Some in H as (v3 & H3%items_get_str_Some & H).
  apply bind_Some in H as (v4 & H4%items_get_str_Some & H).
  apply bind_Some in H as (v5 & H5%items_get_int_Some & H).
  apply bind_Some in H as (v6 & H6%items_get_int_default_Some & H).
  apply bind_Some in H as (v7 & H7%items_get_int_default_Some & H).
  apply bind_Some in H as (v8 & H8%items_get_int_default_Some & H).
  apply bind_Some in H as (v9 & H9%items_get_int_default_Some & H).
  injection H as <-. cbn. done.
Qed.
Lemma add_item_kept_fields (item : items.Item) (self : player.Player) :
  kept_fields (player.add_item item self) = kept_fields self.
Proof.
  unfold player.add_item, player.apply_item_effects.
  by repeat case_match.
Qed.

Lemma add_items_kept_fields (new_items : list items.Item)
    (self : player.Player) :
  kept_fields (add_items new_items self) = kept_fields self.
Proof.
  revert self. induction new_items as [|item new_items IH]; intros self.
  - done.
  - cbn. unfold add_items in IH. by rewrite IH, add_item_kept_fields.
Qed.

Lemma load_inventory_Some (item_datas : list (gmap string items.value))
    (self reloaded : player.Player) :
  player.load_inventory item_datas self = Some reloaded ->
  exists owned,
    Forall2 (fun data item => items.from_dict data = Some item)
      item_datas owned /\
    reloaded = add_items owned self.
Proof.
  revert self. induction item_datas as [|data item_datas IH]; intros self.
  - intros [= <-]. by exists [].
  - cbn [player.load_inventory]. intros H.
    apply bind_Some in H as (item & Hitem & H).
    apply IH in H as (owned & Hall & ->).
    exists (item :: owned). split; [by constructor|done].
Qed.

(** X6: an item stored with [to_dict] is read back unchanged; without the
    four bonus keys it is read back with the bonuses at 0; and whenever
    [Item.from_dict] succeeds, the dictionary holds the five required keys
    with the item's values, and each bonus key holds the item's bonus or is
    absent with the bonus 0 (so a missing required key is an error). *)
Theorem item_dict_keys (item : items.Item)
    (data : gmap string items.value) :
  items.from_dict (items.to_dict item) = Some item /\
  items.from_dict
    (delete "attack_bonus" (delete "defense_bonus" (delete "speed_bonus"
       (delete "critical_bonus" (items.to_dict item)))))
  = Some (items.Item_init (items.name item) (items.type item)
            (items.rarity item) (items.description item) (items.cost item)
            0 0 0 0) /\
  (items.from_dict data = Some item ->
   data !! "name" = Some (items.Str (items.name item)) /\
   data !! "type" = Some (items.Str (items.type item)) /\
   data !! "rarity" = Some (items.Str (items.rarity item)) /\
   data !! "description" = Some (items.Str (items.description item)) /\
   data !! "cost" = Some (items.Int (items.cost item)) /\
   (data !! "attack_bonus" = Some (items.Int (items.attack_bonus item))
    \/ data !! "attack_bonus" = None /\ items.attack_bonus item = 0) /\
   (data !! "defense_bonus" = Some (items.Int (items.defense_bonus item))
    \/ data !! "defense_bonus" = None /\ items.defense_bonus item = 0) /\
   (data !! "speed_bonus" = Some (items.Int (items.speed_bonus item))
    \/ data !! "speed_bonus" = None /\ items.speed_bonus item = 0) /\
   (data !! "critical_bonus" = Some (items.Int (items.critical_bonus item))
    \/ data !! "critical_bonus" = None /\ items.critical_bonus item = 0)).
Proof.
  split; [by destruct item|]. split; [by destruct item|].
  apply items_from_dict_Some.
Qed.

Lemma player_get_int_Some data key z :
  player.get_int data key = Some z -> data !! key = Some (player.Int z).
Proof. unfold player.get_int. by repeat case_match; intros [= ->]. Qed.

Lemma player_get_str_Some data key s :
  player.get_str data key = Some s -> data !! key = Some (player.Str s).
Proof. unfold player.get_str. by repeat case_match; intros [= ->]. Qed.

Lemma load_time_Some data key current loaded :
  player.load_time data key current = Some loaded ->
  exists v, data !! key = Some v /\
    (player.truthy v = false /\ loaded = current
     \/ exists t, v = player.Iso t /\ loaded = Some t).
Proof.
  unfold player.load_time. intros H.
  apply bind_Some in H as (v & Hv & H). exists v. split; [done|].
  destruct (player.truthy v) eqn:Htruthy.
  - apply bind_Some in H as (t & Ht & [= <-]). right. exists t.
    by destruct v; try discriminate; injection Ht as ->.
  - injection H as <-. by left.
Qed.

(** The shape of a dictionary that [Player.from_dict] accepts, and the
    player it builds from it. *)
Lemma from_dict_Some (now : datetime) (data : gmap string player.value)
    (reloaded : player.Player) :
  player.from_dict now data = Some reloaded ->
  exists uid uname lvl exp thr cr hp mhp atk dfn spd crit wins losses found
         pstart vcombat lcombat vsearch lsearch item_datas owned,
    data !! "user_id" = Some (player.Int uid) /\
    data !! "username" = Some (player.Str uname) /\
    data !! "level" = Some (player.Int lvl) /\
    data !! "experience" = Some (player.Int exp) /\
    data !! "experience_to_next_level" = Some (player.Int thr) /\
    data !! "credits" = Some (player.Int cr) /\
    data !! "health" = Some (player.Int hp) /\
    data !! "max_health" = Some (player.Int mhp) /\
    data !! "attack" = Some (player.Int atk) /\
    data !! "defense" = Some (player.Int dfn) /\
    data !! "speed" = Some (player.Int spd) /\
    data !! "critical_damage" = Some (player.Int crit) /\
    data !! "combat_wins" = Some (player.Int wins) /\
    data !! "combat_losses" = Some (player.Int losses) /\
    data !! "items_found" = Some (player.Int found) /\
    data !! "playtime_start" = Some (player.Iso pstart) /\
    data !! "last_combat" = Some vcombat /\
    (player.truthy vcombat = false /\ lcombat = None
     \/ exists t, vcombat = player.Iso t /\ lcombat = Some t) /\
    data !! "last_search" = Some vsearch /\
    (player.truthy vsearch = false /\ lsearch = None
     \/ exists t, vsearch = player.Iso t /\ lsearch = Some t) /\
    data !! "inventory" = Some (player.Dicts item_datas) /\
    Forall2 (fun data item => items.from_dict data = Some item)
      item_datas owned /\
    reloaded
    = add_items owned
        {| player.user_id := uid; player.username := uname;
           player.level := lvl; player.experience := exp;
           player.experience_to_next_level := thr; player.credits := cr;
           player.health := hp; player.max_health := mhp;
           player.attack := atk; player.defense := dfn;
           player.speed := spd; player.critical_damage := crit;
           player.combat_wins := wins; player.combat_losses := losses;
           player.items_found := found; player.playtime_start := pstart;
           player.last_combat := lcombat; player.last_search := lsearch;
           player.inventory := []; player.equipped_items := ∅;
           player.combat_cooldown := 300; player.search_cooldown := 600 |}.
Proof.
  unfold player.from_dict. intros H.
  apply bind_Some in H as (uid & Huid%player_get_int_Some & H).
  apply bind_Some in H as (uname & Huname%player_get_str_Some & H).
  apply bind_Some in H as (lvl & Hlvl%player_get_int_Some & H).
  apply bind_Some in H as (exp & Hexp%player_get_int_Some & H).
  apply bind_Some in H as (thr & Hthr%player_get_int_Some & H).
  apply bind_Some in H as (cr & Hcr%player_get_int_Some & H).
  apply bind_Some in H as (hp & Hhp%player_get_int_Some & H).
  apply bind_Some in H as (mhp & Hmhp%player_get_int_Some & H).
  apply bind_Some in H as (atk & Hatk%player_get_int_Some & H).
  apply bind_Some in H as (dfn & Hdfn%player_get_int_Some & H).
  apply bind_Some in H as (spd & Hspd%player_get_int_Some & H).
  apply bind_Some in H as (crit & Hcrit%player_get_int_Some & H).
  apply bind_Some in H as (wins & Hwins%player_get_int_Some & H).
  apply bind_Some in H as (losses & Hlosses%player_get_int_Some & H).
  apply bind_Some in H as (found & Hfound%player_get_int_Some & H).
  apply bind_Some in H as (vstart & Hvstart & H).
  apply bind_Some in H as (pstart & Hpstart & H).
  apply bind_Some in H as (lcombat & Hlcombat%load_time_Some & H).
  apply bind_Some in H as (lsearch & Hlsearch%load_time_Some & H).
  apply bind_Some in H as (vinv & Hvinv & H).
  destruct vinv as [| | | |item_datas]; try discriminate.
  apply load_inventory_Some in H as (owned & Hall & ->).
  destruct vstart; try discriminate. injection Hpstart as ->.
  destruct Hlcombat as (vcombat & Hvcombat & Hcombat).
  destruct Hlsearch as (vsearch & Hvsearch & Hsearch).
  exists uid, uname, lvl, exp, thr, cr, hp, mhp, atk, dfn, spd, crit, wins,
    losses, found, pstart, vcombat, lcombat, vsearch, lsearch, item_datas,
    owned.
  repeat (split; [done|]). reflexivity.
Qed.

(** X7: whenever [Player.from_dict] succeeds, every key it reads is present
    in the dictionary; level, experience, threshold, credits, health,
    counters and time stamps of the player are the stored ones; the
    unsaved fields are those of a new player; the inventory is the stored
    item dictionaries read back; and attack, defense, speed and critical
    damage are the stored ones plus the bonuses of that inventory. *)
Theorem from_dict_reads (now : datetime) (data : gmap string player.value)
    (reloaded : player.Player) :
  player.from_dict now data = Some reloaded ->
  (forall key, key ∈ player_keys -> is_Some (data !! key)) /\
  data !! "user_id" = Some (player.Int (player.user_id reloaded)) /\
  data !! "username" = Some (player.Str (player.username reloaded)) /\
  data !! "level" = Some (player.Int (player.level reloaded)) /\
  data !! "experience" = Some (player.Int (player.experience reloaded)) /\
  data !! "experience_to_next_level"
  = Some (player.Int (player.experience_to_next_level reloaded)) /\
  data !! "credits" = Some (player.Int (player.credits reloaded)) /\
  data !! "health" = Some (player.Int (player.health reloaded)) /\
  data !! "max_health" = Some (player.Int (player.max_health reloaded)) /\
  data !! "combat_wins" = Some (player.Int (player.combat_wins reloaded)) /\
  data !! "combat_losses"
  = Some (player.Int (player.combat_losses reloaded)) /\
  data !! "items_found" = Some (player.Int (player.items_found reloaded)) /\
  data !! "playtime_start"
  = Some (player.Iso (player.playtime_start reloaded)) /\
  (forall t, player.last_combat reloaded = Some t ->
     data !! "last_combat" = Some (player.Iso t)) /\
  (forall t, player.last_search reloaded = Some t ->
     data !! "last_search" = Some (player.Iso t)) /\
  player.equipped_items reloaded = ∅ /\
  player.combat_cooldown reloaded = 300 /\
  player.search_cooldown reloaded = 600 /\
  exists atk dfn spd crit item_datas,
    data !! "attack" = Some (player.Int atk) /\
    data !! "defense" = Some (player.Int dfn) /\
    data !! "speed" = Some (player.Int spd) /\
    data !! "critical_damage" = Some (player.Int crit) /\
    data !! "inventory" = Some (player.Dicts item_datas) /\
    Forall2 (fun data item => items.from_dict data = Some item)
      item_datas (player.inventory reloaded) /\
    own_stats reloaded
    = stats_plus
        {| player.Stats.attack := atk; player.Stats.defense := dfn;
           player.Stats.speed := spd; player.Stats.critical_damage := crit |}
        (bonus_sum (player.inventory reloaded)).
Proof.
  intros H. apply from_dict_Some in H
    as (uid & uname & lvl & exp & thr & cr & hp & mhp & atk & dfn & spd
        & crit & wins & losses & found & pstart & vcombat & lcombat
        & vsearch & lsearch & item_datas & owned & Huid & Huname & Hlvl
        & Hexp & Hthr & Hcr & Hhp & Hmhp & Hatk & Hdfn & Hspd & Hcrit
        & Hwins & Hlosses & Hfound & Hpstart & Hvcombat & Hcombat
        & Hvsearch & Hsearch & Hinv & Hall & ->).
  match goal with
  | |- context [add_items owned ?q] =>
      pose proof (add_items_kept_fields owned q) as Hkept;
      destruct (add_items_own_stats owned q) as [Hstats Hitems]
  end.
  unfold kept_fields in Hkept.
  cbn [player.user_id player.username player.level player.experience
       player.experience_to_next_level player.credits player.health
       player.max_health player.combat_wins player.combat_losses
       player.items_found player.playtime_start player.last_combat
       player.last_search player.equipped_items player.combat_cooldown
       player.search_cooldown player.inventory] in Hkept, Hitems.
  injection Hkept as -> -> -> -> -> -> -> -> -> -> -> -> -> -> -> -> ->.
  rewrite app_nil_l in Hitems. rewrite Hitems, Hstats.
  split.
  { intros key Hkey. unfold player_keys in Hkey.
    repeat (apply elem_of_cons in Hkey as [->|Hkey]); try by eexists.
    by apply elem_of_nil in Hkey. }
  repeat (split; [done|]).
  split.
  { intros t ->. destruct Hcombat as [[_ [=]]|(t' & -> & [= ->])]. done. }
  split.
  { intros t ->. destruct Hsearch as [[_ [=]]|(t' & -> & [= ->])]. done. }
  repeat (split; [done|]).
  exists atk, dfn, spd, crit, item_datas. by repeat (split; [done|]).
Qed.

(** X8: storing a player and reading the dictionary back always succeeds
    and keeps the inventory and every field that items do not touch (the
    unsaved ones return to their initial values); the four combat
    attributes, and with them the aggregated stats, come back increased by
    the bonuses of the inventory. *)
Theorem reload_adds_bonuses_again (now : datetime) (self : player.Player) :
  exists reloaded,
    player.from_dict now (player.to_dict self) = Some reloaded /\
    kept_fields reloaded = kept_fields (stored self) /\
    player.inventory reloaded = player.inventory self /\
    own_stats reloaded
    = stats_plus (own_stats self) (bonus_sum (player.inventory self)) /\
    player.get_total_stats reloaded
    = stats_plus (player.get_total_stats self)
        (bonus_sum (player.inventory self)).
Proof.
  exists (add_items (player.inventory self) (stored self)).
  split; [apply from_dict_to_dict|].
  split; [apply add_items_kept_fields|].
  destruct (add_items_own_stats (player.inventory self) (stored self))
    as [Hstats Hitems].
  change (player.inventory (stored self)) with (@nil items.Item) in Hitems.
  change (own_stats (stored self)) with (own_stats self) in Hstats.
  rewrite app_nil_l in Hitems.
  split; [done|]. split; [done|].
  by rewrite !get_total_stats_eq, Hitems, Hstats.
Qed.

Lemma from_dict_reads_witness :
  player.from_dict 0 (player.to_dict neo) = Some neo /\
  player.to_dict neo !! "level" = Some (player.Int (player.level neo)).
Proof.
  split; [by vm_compute|].
  destruct (from_dict_reads 0 (player.to_dict neo) neo) as (_ & _ & _ & H & _);
    [by vm_compute | exact H].
Defined.

(** ** Aggregated stats, continued *)

Lemma stats_plus_comm (a b : player.Stats.t) :
  stats_plus a b = stats_plus b a.
Proof. unfold stats_plus. f_equal; lia. Qed.

Lemma bonus_sum_Permutation (owned owned' : list items.Item) :
  owned ≡ₚ owned' -> bonus_sum owned = bonus_sum owned'.
Proof.
  induction 1 as [|item l l' _ IH|a b l|l1 l2 l3 _ IH1 _ IH2];
    unfold bonus_sum in *; cbn [foldr].
  - done.
  - by rewrite IH.
  - rewrite <- !stats_plus_assoc. f_equal. apply stats_plus_comm.
  - by rewrite IH1.
Qed.

(** X9: [get_total_stats] is the stored attributes plus, for each item of
    the inventory, the bonus that goes with its type alone (attack for a
    weapon, defense for an armor, speed and critical for an implant,
    nothing for any other type); it does not depend on the order of the
    inventory. *)
Theorem get_total_stats_by_type (self self' : player.Player) :
  player.get_total_stats self
  = stats_plus (own_stats self) (bonus_sum (player.inventory self)) /\
  (forall item,
     item_bonus item
     = if String.eqb (items.type item) "weapon" then
         {| player.Stats.attack := items.attack_bonus item;
            player.Stats.defense := 0; player.Stats.speed := 0;
            player.Stats.critical_damage := 0 |}
       else if String.eqb (items.type item) "armor" then
         {| player.Stats.attack := 0;
            player.Stats.defense := items.defense_bonus item;
            player.Stats.speed := 0; player.Stats.critical_damage := 0 |}
       else if String.eqb (items.type item) "implant" then
         {| player.Stats.attack := 0; player.Stats.defense := 0;
            player.Stats.speed := items.speed_bonus item;
            player.Stats.critical_damage := items.critical_bonus item |}
       else stats_zero) /\
  (own_stats self = own_stats self' ->
   player.inventory self ≡ₚ player.inventory self' ->
   player.get_total_stats self = player.get_total_stats self').
Proof.
  split; [apply get_total_stats_eq|]. split.
  - intros item. unfold item_bonus, player.add_item_bonus.
    by repeat case_match.
  - intros Hown Hperm. rewrite !get_total_stats_eq, Hown.
    f_equal. by apply bonus_sum_Permutation.
Qed.

(** X10: for a player who holds no item, after any items are acquired
    through [add_item] the inventory is exactly those items, the stored
    attributes are the former ones plus the bonuses of the items, and
    [get_total_stats] returns the former attributes plus twice those
    bonuses. *)
Theorem add_items_then_total_stats (new_items : list items.Item)
    (self : player.Player) :
  player.inventory self = [] ->
  player.inventory (add_items new_items self) = new_items /\
  kept_fields (add_items new_items self) = kept_fields self /\
  own_stats (add_items new_items self)
  = stats_plus (own_stats self) (bonus_sum new_items) /\
  player.get_total_stats (add_items new_items self)
  = stats_plus (own_stats self)
      (stats_plus (bonus_sum new_items) (bonus_sum new_items)).
Proof.
  intros Hempty.
  destruct (add_items_own_stats new_items self) as [Hstats Hitems].
  rewrite Hempty, app_nil_l in Hitems.
  split; [done|]. split; [apply add_items_kept_fields|]. split; [done|].
  rewrite get_total_stats_eq, Hstats, Hitems. apply stats_plus_assoc.
Qed.

Lemma add_items_then_total_stats_witness :
  player.inventory neo = [] /\
  player.get_total_stats (add_items [cyber_sword; cyber_sword] neo)
  = stats_plus (own_stats neo)
      (stats_plus (bonus_sum [cyber_sword; cyber_sword])
         (bonus_sum [cyber_sword; cyber_sword])).
Proof.
  split; [by vm_compute|].
  apply (add_items_then_total_stats [cyber_sword; cyber_sword] neo).
  by vm_compute.
Defined.

(** ** Rounds of a battle *)

(** Closes an atom of a statement on a round. *)
Ltac settle_round := first [done | lia | (intros; exfalso; lia)].

Lemma execute_round_cases (player : player.Player) (opponent : combat.NPC)
    (player_stats : player.Stats.t)
    (player_health opponent_health round_num : Z) (g : random.state) :
  let r := (combat._execute_round player opponent player_stats
              player_health opponent_health round_num g).1 in
  let dealt := combat.Round.opponent_damage r in
  let taken := combat.Round.player_damage r in
  0 < player_health -> 0 < opponent_health ->
  combat.Round.round r = round_num /\
  combat.Round.player_health r = Z.max 0 (player_health - taken) /\
  combat.Round.opponent_health r = Z.max 0 (opponent_health - dealt) /\
  (combat.Round.events r = [combat.PlayerHits dealt]
     /\ 1 <= dealt /\ taken = 0 /\ combat.Round.opponent_health r = 0
   \/ combat.Round.events r
      = [combat.PlayerHits dealt; combat.OpponentHits taken]
     /\ 1 <= dealt /\ 1 <= taken /\ 0 < combat.Round.opponent_health r
   \/ combat.Round.events r = [combat.OpponentHits taken]
     /\ 1 <= taken /\ dealt = 0 /\ combat.Round.player_health r = 0
   \/ combat.Round.events r
      = [combat.OpponentHits taken; combat.PlayerHits dealt]
     /\ 1 <= dealt /\ 1 <= taken /\ 0 < combat.Round.player_health r) /\
  (combat.speed opponent + 4 <= player.Stats.speed player_stats ->
   head (combat.Round.events r) = Some (combat.PlayerHits dealt)) /\
  (player.Stats.speed player_stats + 5 <= combat.speed opponent ->
   head (combat.Round.events r) = Some (combat.OpponentHits taken)).
Proof.
  cbv zeta. intros Hp Ho.
  unfold combat._execute_round, random.bind.
  pose proof (randint_range (-2) 2 g ltac:(lia)) as Hj1.
  destruct (random.randint (-2) 2 g) as [j1 g1]. cbn [fst] in Hj1.
  pose proof (randint_range (-2) 2 g1 ltac:(lia)) as Hj2.
  destruct (random.randint (-2) 2 g1) as [j2 g2]. cbn [fst] in Hj2.
  destruct (Z.leb_spec (combat.speed opponent + j2)
              (player.Stats.speed player_stats + j1)) as [Hfirst|Hfirst].
  - pose proof (calculate_damage_ge_1 (player.Stats.attack player_stats)
      (combat.defense opponent)
      (player.Stats.critical_damage player_stats) g2) as Hd.
    destruct (combat._calculate_damage _ _ _ g2) as [d1 g3].
    cbn [fst] in Hd.
    destruct (Z.leb_spec (Z.max 0 (opponent_health - d1)) 0).
    + cbn. split; [done|]. split; [lia|]. split; [lia|].
      split; [left; repeat (split; [settle_round|]); settle_round|].
      split; settle_round.
    + pose proof (calculate_damage_ge_1 (combat.attack opponent)
        (player.Stats.defense player_stats)
        (combat.critical_damage opponent) g3) as Hd2.
      destruct (combat._calculate_damage _ _ _ g3) as [d2 g4].
      cbn [fst] in Hd2. cbn. split; [done|]. split; [lia|]. split; [lia|].
      split; [right; left; repeat (split; [settle_round|]); settle_round|].
      split; settle_round.
  - pose proof (calculate_damage_ge_1 (combat.attack opponent)
      (player.Stats.defense player_stats)
      (combat.critical_damage opponent) g2) as Hd.
    destruct (combat._calculate_damage _ _ _ g2) as [d1 g3].
    cbn [fst] in Hd.
    destruct (Z.leb_spec (Z.max 0 (player_health - d1)) 0).
    + cbn. split; [done|]. split; [lia|]. split; [lia|].
      split; [right; right; left; repeat (split; [settle_round|]);
              settle_round|].
      split; settle_round.
    + pose proof (calculate_damage_ge_1 (player.Stats.attack player_stats)
        (combat.defense opponent)
        (player.Stats.critical_damage player_stats) g3) as Hd2.
      destruct (combat._calculate_damage _ _ _ g3) as [d2 g4].
      cbn [fst] in Hd2. cbn. split; [done|]. split; [lia|]. split; [lia|].
      split; [right; right; right; repeat (split; [settle_round|]);
              settle_round|].
      split; settle_round.
Qed.

(** X11: a round entered with both sides standing carries the number it
    is given and leaves each side with its health less the damage recorded
    against it, not below 0.  The side that strikes first always deals at
    least 1; if that brings the other side to 0 the round has this one
    event and records 0 damage for the side that did not act; otherwise
    the other side strikes back for at least 1.  The player strikes first
    whenever the player's speed exceeds the opponent's by 4 or more, the
    opponent whenever the opponent's exceeds the player's by 5 or more. *)
Theorem execute_round_record (player : player.Player) (opponent : combat.NPC)
    (player_stats : player.Stats.t)
    (player_health opponent_health round_num : Z) (g : random.state) :
  let r := (combat._execute_round player opponent player_stats
              player_health opponent_health round_num g).1 in
  let dealt := combat.Round.opponent_damage r in
  let taken := combat.Round.player_damage r in
  0 < player_health -> 0 < opponent_health ->
  combat.Round.round r = round_num /\
  combat.Round.player_health r = Z.max 0 (player_health - taken) /\
  combat.Round.opponent_health r = Z.max 0 (opponent_health - dealt) /\
  (combat.Round.events r = [combat.PlayerHits dealt]
     /\ 1 <= dealt /\ taken = 0 /\ combat.Round.opponent_health r = 0
   \/ combat.Round.events r
      = [combat.PlayerHits dealt; combat.OpponentHits taken]
     /\ 1 <= dealt /\ 1 <= taken /\ 0 < combat.Round.opponent_health r
   \/ combat.Round.events r = [combat.OpponentHits taken]
     /\ 1 <= taken /\ dealt = 0 /\ combat.Round.player_health r = 0
   \/ combat.Round.events r
      = [combat.OpponentHits taken; combat.PlayerHits dealt]
     /\ 1 <= dealt /\ 1 <= taken /\ 0 < combat.Round.player_health r) /\
  (combat.speed opponent + 4 <= player.Stats.speed player_stats ->
   head (combat.Round.events r) = Some (combat.PlayerHits dealt)) /\
  (player.Stats.speed player_stats + 5 <= combat.speed opponent ->
   head (combat.Round.events r) = Some (combat.OpponentHits taken)).
Proof.
  apply execute_round_cases.
Qed.

Lemma battle_loop_played (player : player.Player) (opponent : combat.NPC)
    (player_stats : player.Stats.t) (fuel : nat) :
  forall (player_health opponent_health : Z)
         (battle_rounds : list combat.Round.t) (round_num : Z)
         (g : random.state),
    (Z.to_nat (21 - round_num) <= fuel)%nat ->
    exists ph oh new rn g',
      combat.battle_loop fuel player opponent player_stats
        player_health opponent_health battle_rounds round_num g
      = (Some (ph, oh, battle_rounds ++ new, rn), g') /\
      played player_health opponent_health round_num new ph oh /\
      (ph <= 0 \/ oh <= 0 \/ 20 < rn) /\
      rn = round_num + Z.of_nat (length new).
Proof.
  induction fuel as [|fuel IH];
    intros player_health opponent_health battle_rounds round_num g Hfuel;
    cbn [combat.battle_loop];
    destruct (Z.ltb_spec 0 player_health) as [Hp|Hp];
    destruct (Z.ltb_spec 0 opponent_health) as [Ho|Ho];
    destruct (Z.leb_spec round_num 20) as [Hr|Hr];
    cbn [andb];
    try (exists player_health, opponent_health, [], round_num, g;
         rewrite app_nil_r; cbn; split; [reflexivity|];
         split; [done|]; lia).
  - lia.
  - unfold random.bind.
    pose proof (execute_round_cases player opponent player_stats
                  player_health opponent_health round_num g Hp Ho)
      as (Hnum & Hph & Hoh & Hevents & _).
    destruct (combat._execute_round player opponent player_stats
                player_health opponent_health round_num g) as [r g1].
    cbn [fst] in Hnum, Hph, Hoh, Hevents.
    destruct (IH (combat.Round.player_health r)
                (combat.Round.opponent_health r)
                (battle_rounds ++ [r]) (round_num + 1) g1)
      as (ph & oh & new & rn & g' & Heq & Hplayed & Hexit & Hrn); [lia|].
    exists ph, oh, (r :: new), rn, g'.
    split; [by rewrite Heq, <- app_assoc|].
    split; [|split; [done|cbn [length]; lia]].
    cbn [played].
    repeat (split; [first [done | lia | (intros; lia)]|]).
    exact Hplayed.
Qed.

Lemma played_numbers (new : list combat.Round.t) :
  forall ph oh rn ph' oh', played ph oh rn new ph' oh' ->
    forall (i : nat) r, new !! i = Some r ->
      combat.Round.round r = rn + Z.of_nat i.
Proof.
  induction new as [|r0 new IH]; intros ph oh rn ph' oh' Hplayed i r Hi.
  - done.
  - cbn [played] in Hplayed.
    destruct Hplayed as (_ & _ & _ & Hnum & _ & _ & _ & _ & _ & _ & Hrest).
    destruct i as [|i].
    + injection Hi as <-. lia.
    + cbn in Hi. rewrite (IH _ _ _ _ _ Hrest i r Hi). lia.
Qed.

Lemma played_last (new : list combat.Round.t) :
  forall ph oh rn ph' oh', played ph oh rn new ph' oh' ->
    forall r, last new = Some r ->
      ph' = combat.Round.player_health r /\
      oh' = combat.Round.opponent_health r.
Proof.
  induction new as [|r0 new IH]; intros ph oh rn ph' oh' Hplayed r Hlast.
  - done.
  - cbn [played] in Hplayed.
    destruct Hplayed as (_ & _ & _ & _ & _ & _ & _ & _ & _ & _ & Hrest).
    destruct new as [|r1 new].
    + injection Hlast as <-. cbn in Hrest. lia.
    + apply (IH _ _ _ _ _ Hrest). exact Hlast.
Qed.

Lemma played_damage (new : list combat.Round.t) :
  forall ph oh rn ph' oh', played ph oh rn new ph' oh' ->
    ph - ph' <= damage_to_player new /\
    oh - oh' <= damage_to_opponent new /\
    ph' <= ph /\ oh' <= oh /\
    (0 < ph' -> ph - ph' = damage_to_player new) /\
    (0 < oh' -> oh - oh' = damage_to_opponent new) /\
    (0 <= ph -> 0 <= ph') /\ (0 <= oh -> 0 <= oh').
Proof.
  unfold damage_to_player, damage_to_opponent.
  induction new as [|r0 new IH]; intros ph oh rn ph' oh' Hplayed.
  - cbn in *. lia.
  - cbn [played] in Hplayed.
    destruct Hplayed
      as (Hp & Ho & _ & _ & Hpd & Hod & Hph & Hoh & _ & _ & Hrest).
    specialize (IH _ _ _ _ _ Hrest). cbn [fmap list_fmap foldr].
    change (list_fmap _ _ ?f new) with (f <$> new) in *.
    lia.
Qed.

Lemma played_length (new : list combat.Round.t) :
  forall ph oh rn ph' oh', played ph oh rn new ph' oh' ->
    new <> [] ->
    0 < ph /\ 0 < oh /\
    Z.of_nat (length new) <= ph /\ Z.of_nat (length new) <= oh /\
    rn + Z.of_nat (length new) <= 21 /\
    (0 < ph' \/ 0 < oh') /\
    (0 < ph' -> 0 < oh' ->
     Z.of_nat (length new) + ph' <= ph /\
     Z.of_nat (length new) + oh' <= oh).
Proof.
  induction new as [|r0 new IH]; intros ph oh rn ph' oh' Hplayed Hne.
  - done.
  - cbn [played] in Hplayed.
    destruct Hplayed
      as (Hp & Ho & Hcap & _ & Hpd & Hod & Hph & Hoh & Hup & Hboth & Hrest).
    destruct new as [|r1 new].
    + cbn in Hrest. destruct Hrest as [-> ->]. cbn [length]. lia.
    + destruct (IH _ _ _ _ _ Hrest)
        as (Hp1 & Ho1 & Hl1 & Hl2 & Hl4 & Hl0 & Hl3);
        [done|].
      specialize (Hboth Hp1 Ho1).
      change (length (r0 :: r1 :: new)) with (S (length (r1 :: new))).
      lia.
Qed.

Lemma execute_battle_played (fuel : nat) (start finish : datetime)
    (self : combat.CombatSystem) (player : player.Player)
    (opponent : combat.NPC) (g : random.state) :
  (20 <= fuel)%nat ->
  exists ph oh rounds rn g',
    combat.battle_loop fuel (player.start_combat start player) opponent
      (player.get_total_stats player) (player.health player)
      (combat.health opponent) [] 1 g
    = (Some (ph, oh, rounds, rn), g') /\
    combat.execute_battle fuel start finish self player opponent g
    = (Some (combat.conclude_battle finish self
               (player.start_combat start player) opponent ph oh rounds),
       g') /\
    played (player.health player) (combat.health opponent) 1 rounds ph oh /\
    (ph <= 0 \/ oh <= 0 \/ 20 < rn) /\
    rn = 1 + Z.of_nat (length rounds).
Proof.
  intros Hfuel.
  destruct (battle_loop_played (player.start_combat start player) opponent
              (player.get_total_stats player) fuel (player.health player)
              (combat.health opponent) [] 1 g)
    as (ph & oh & rounds & rn & g' & Hloop & Hplayed & Hexit & Hrn); [lia|].
  rewrite app_nil_l in Hloop.
  exists ph, oh, rounds, rn, g'. split; [done|].
  split; [by apply execute_battle_unfold with rn|]. done.
Qed.

(** X12: the rounds of a battle form a chain from the healths at entry
    to the final ones: they are numbered 1, 2, ... in order, each starts
    from the healths the previous one left, and the final healths are
    those of the last round.  No round is played exactly when a side
    enters with no health, and then the healths are left as they were. *)
Theorem battle_rounds_follow (fuel : nat) (start : datetime)
    (player : player.Player) (opponent : combat.NPC) (g : random.state) :
  (20 <= fuel)%nat ->
  exists ph oh rounds rn g',
    combat.battle_loop fuel (player.start_combat start player) opponent
      (player.get_total_stats player) (player.health player)
      (combat.health opponent) [] 1 g
    = (Some (ph, oh, rounds, rn), g') /\
    played (player.health player) (combat.health opponent) 1 rounds ph oh /\
    (forall (i : nat) r, rounds !! i = Some r ->
       combat.Round.round r = 1 + Z.of_nat i) /\
    (forall r, last rounds = Some r ->
       ph = combat.Round.player_health r /\
       oh = combat.Round.opponent_health r) /\
    (rounds = []
     <-> player.health player <= 0 \/ combat.health opponent <= 0) /\
    (rounds = [] ->
     ph = player.health player /\ oh = combat.health opponent).
Proof.
  intros Hfuel.
  destruct (execute_battle_played fuel start 0 combat.CombatSystem_init
              player opponent g Hfuel)
    as (ph & oh & rounds & rn & g' & Hloop & _ & Hplayed & Hexit & Hrn).
  exists ph, oh, rounds, rn, g'. split; [done|]. split; [done|].
  split; [by apply (played_numbers rounds _ _ _ _ _ Hplayed)|].
  split; [by apply (played_last rounds _ _ _ _ _ Hplayed)|].
  split.
  - split.
    + intros ->. cbn in Hplayed, Hrn. lia.
    + intros Hdown. destruct rounds as [|r rounds]; [done|].
      cbn [played] in Hplayed. lia.
  - intros ->. cbn in Hplayed. lia.
Qed.

(** X13: the health a side loses in a battle is at most the damage the
    rounds record against it, and exactly that damage when the side is
    still standing at the end.  The ['player_damage'] of the result is the
    health the player lost plus the gap between the final [max_health] and
    the health at entry; ['opponent_damage'] likewise for the opponent. *)
Theorem battle_damage_accounts (fuel : nat) (start finish : datetime)
    (self : combat.CombatSystem) (player : player.Player)
    (opponent : combat.NPC) (g : random.state) :
  (20 <= fuel)%nat ->
  exists ph oh rounds rn result player' self' g',
    combat.battle_loop fuel (player.start_combat start player) opponent
      (player.get_total_stats player) (player.health player)
      (combat.health opponent) [] 1 g
    = (Some (ph, oh, rounds, rn), g') /\
    combat.execute_battle fuel start finish self player opponent g
    = (Some (result, player', self'), g') /\
    player.health player - ph <= damage_to_player rounds /\
    combat.health opponent - oh <= damage_to_opponent rounds /\
    (0 < ph -> player.health player - ph = damage_to_player rounds) /\
    (0 < oh -> combat.health opponent - oh = damage_to_opponent rounds) /\
    combat.Result.player_damage result
    = (player.max_health player' - player.health player)
      + (player.health player - ph) /\
    combat.Result.opponent_damage result
    = (combat.max_health opponent - combat.health opponent)
      + (combat.health opponent - oh).
Proof.
  intros Hfuel.
  destruct (execute_battle_played fuel start finish self player opponent g
              Hfuel)
    as (ph & oh & rounds & rn & g' & Hloop & Hexec & Hplayed & _).
  destruct (combat.conclude_battle finish self
              (player.start_combat start player) opponent ph oh rounds)
    as [[result player'] self'] eqn:Hconcluded.
  pose proof (conclude_battle_fields finish self
                (player.start_combat start player) opponent ph oh rounds)
    as (_ & _ & _ & Hpd & Hod).
  rewrite Hconcluded in Hpd, Hod. cbn [fst snd] in Hpd, Hod.
  pose proof (played_damage rounds _ _ _ _ _ Hplayed) as Hdamage.
  exists ph, oh, rounds, rn, result, player', self', g'.
  split; [done|]. split; [done|]. lia.
Qed.

(** X14: a battle has no more rounds than the health either side enters
    with; a draw (against an opponent entering with positive health) takes
    exactly 20 rounds and needs both sides to enter with at least 21
    health. *)
Theorem battle_length_bounded_by_health (fuel : nat)
    (start finish : datetime) (self : combat.CombatSystem)
    (player : player.Player) (opponent : combat.NPC) (g : random.state) :
  (20 <= fuel)%nat ->
  exists result player' self' g',
    combat.execute_battle fuel start finish self player opponent g
    = (Some (result, player', self'), g') /\
    combat.Result.rounds result <= Z.max 0 (player.health player) /\
    combat.Result.rounds result <= Z.max 0 (combat.health opponent) /\
    (combat.Result.result result = "draw" ->
     0 < combat.health opponent ->
     combat.Result.rounds result = 20 /\
     21 <= player.health player /\ 21 <= combat.health opponent).
Proof.
  intros Hfuel.
  destruct (execute_battle_played fuel start finish self player opponent g
              Hfuel)
    as (ph & oh & rounds & rn & g' & Hloop & Hexec & Hplayed & Hexit & Hrn).
  destruct (combat.conclude_battle finish self
              (player.start_combat start player) opponent ph oh rounds)
    as [[result player'] self'] eqn:Hconcluded.
  pose proof (conclude_battle_fields finish self
                (player.start_combat start player) opponent ph oh rounds)
    as (Hresult & _ & Hrounds & _).
  rewrite Hconcluded in Hresult, Hrounds. cbn [fst snd] in Hresult, Hrounds.
  exists result, player', self', g'. split; [done|].
  rewrite Hrounds, Hresult.
  destruct rounds as [|r rounds].
  - cbn [length] in *. cbn in Hplayed. destruct Hplayed as [-> ->].
    split; [lia|]. split; [lia|].
    destruct (Z.ltb_spec 0 (player.health player));
      destruct (Z.leb_spec (combat.health opponent) 0);
      destruct (Z.ltb_spec 0 (combat.health opponent));
      destruct (Z.leb_spec (player.health player) 0);
      cbn [andb]; intros; try discriminate; lia.
  - destruct (played_length (r :: rounds) _ _ _ _ _ Hplayed)
      as (Hp & Ho & Hl1 & Hl2 & Hl4 & Hl0 & Hl3); [done|].
    pose proof (played_damage (r :: rounds) _ _ _ _ _ Hplayed)
      as (_ & _ & _ & _ & _ & _ & Hph & Hoh).
    split; [lia|]. split; [lia|].
    destruct (Z.ltb_spec 0 ph); destruct (Z.leb_spec oh 0);
      destruct (Z.ltb_spec 0 oh); destruct (Z.leb_spec ph 0);
      cbn [andb]; intros; try discriminate; lia.
Qed.

(** ** Effects of a battle *)

Lemma add_experience_untouched (amount : Z) (self : player.Player) :
  let self' := (player.add_experience amount self).2 in
  player.user_id self' = player.user_id self /\
  player.inventory self' = player.inventory self /\
  player.combat_wins self' = player.combat_wins self /\
  player.combat_losses self' = player.combat_losses self /\
  player.last_combat self' = player.last_combat self /\
  player.last_search self' = player.last_search self /\
  player.combat_cooldown self' = player.combat_cooldown self /\
  (player.level self' = player.level self /\
   player.credits self' = player.credits self
   \/ player.level self' = player.level self + 1 /\
      player.credits self' = player.credits self + 100).
Proof.
  cbv zeta. unfold player.add_experience.
  destruct (_ <=? _); cbn [snd]; repeat (split; [done|]);
    [right | left]; by split.
Qed.

(** The experience, level and threshold that [add_experience] leaves. *)
Lemma add_experience_fields (amount : Z) (self : player.Player) :
  let total := player.experience self + amount in
  let threshold := player.experience_to_next_level self in
  let self' := (player.add_experience amount self).2 in
  (total < threshold ->
     player.experience self' = total /\
     player.level self' = player.level self /\
     player.experience_to_next_level self' = threshold) /\
  (threshold <= total ->
     player.experience self' = total - threshold /\
     player.level self' = player.level self + 1 /\
     player.experience_to_next_level self' = (3 * threshold) `quot` 2).
Proof.
  cbv zeta. unfold player.add_experience.
  cbn [player.experience player.experience_to_next_level
       player.set_experience].
  destruct (Z.leb_spec (player.experience_to_next_level self)
              (player.experience self + amount)) as [Hle|Hlt];
    cbn [fst snd].
  - split; [lia|]. intros _.
    destruct (level_up_fields
                (player.set_experience (player.experience self + amount)
                   self)) as (Hl & He & Ht & _).
    rewrite Hl, He, Ht.
    cbn [player.level player.experience player.experience_to_next_level
         player.set_experience].
    split; [done|]. split; [done|].
    rewrite (int_scaled _ 15 10).
    replace (player.experience_to_next_level self * 15)
      with (3 * player.experience_to_next_level self * 5) by lia.
    change (Z.pos 10) with (2 * 5). by rewrite Z.quot_mul_cancel_r.
  - split; [|lia]. intros _. by repeat split.
Qed.

(** The player, the rewards and the history that [execute_battle] leaves
    once the loop has ended with the healths [ph] and [oh]. *)
Lemma conclude_battle_effects (now : datetime) (self : combat.CombatSystem)
    (player : player.Player) (opponent : combat.NPC) (ph oh : Z)
    (rounds : list combat.Round.t) :
  let concluded :=
    combat.conclude_battle now self player opponent ph oh rounds in
  let victory := (0 <? ph) && (oh <=? 0) in
  let defeat := negb victory && ((0 <? oh) && (ph <=? 0)) in
  let experience_gained :=
    combat._calculate_experience_reward player opponent victory in
  let credits_gained :=
    combat._calculate_credits_reward player opponent victory in
  let counted :=
    if victory then
      player.set_combat_wins (player.combat_wins player + 1) player
    else if defeat then
      player.set_combat_losses (player.combat_losses player + 1) player
    else player in
  let result :=
    if victory then "victory" else if defeat then "defeat" else "draw" in
  concluded.1.2
  = player.set_health (Z.max 1 ph)
      (player.add_credits credits_gained
         (player.add_experience experience_gained counted).2) /\
  combat.Result.result concluded.1.1 = result /\
  combat.Result.experience_gained concluded.1.1 = experience_gained /\
  combat.Result.credits_gained concluded.1.1 = credits_gained /\
  combat.npc_database concluded.2 = combat.npc_database self /\
  combat.combat_history concluded.2
  = combat.combat_history self
    ++ [{| combat.Record_.timestamp := now;
           combat.Record_.player_id := player.user_id player;
           combat.Record_.opponent_name := combat.name opponent;
           combat.Record_.result := result;
           combat.Record_.rounds := Z.of_nat (length rounds);
           combat.Record_.experience_gained := experience_gained;
           combat.Record_.credits_gained := credits_gained |}].
Proof.
  cbv zeta. unfold combat.conclude_battle.
  destruct ((0 <? ph) && (oh <=? 0));
    [|destruct ((0 <? oh) && (ph <=? 0))]; cbn [negb andb fst snd].
  - split; [reflexivity|]. repeat (split; [reflexivity|]).
    pose proof (add_experience_untouched
      (combat._calculate_experience_reward player opponent true)
      (player.set_combat_wins (player.combat_wins player + 1) player))
      as (Hid & _).
    cbn [combat.combat_history]. do 3 f_equal. exact Hid.
  - split; [reflexivity|]. repeat (split; [reflexivity|]).
    pose proof (add_experience_untouched
      (combat._calculate_experience_reward player opponent false)
      (player.set_combat_losses (player.combat_losses player + 1) player))
      as (Hid & _).
    cbn [combat.combat_history]. do 3 f_equal. exact Hid.
  - split; [reflexivity|]. repeat (split; [reflexivity|]).
    pose proof (add_experience_untouched
      (combat._calculate_experience_reward player opponent false) player)
      as (Hid & _).
    cbn [combat.combat_history]. do 3 f_equal. exact Hid.
Qed.

(** X15: for an opponent's level from 0 to below 2^48, a threshold below
    2^51 in absolute value and a cooldown from 0 to 10^9 seconds: whatever
    the outcome, a battle keeps the player's identity, inventory and search
    time stamp and sets the combat time stamp to the time of the start, so
    that the next combat is allowed exactly from [combat_cooldown] seconds
    after the start.  The experience gained is added to the player's: if
    the sum stays below the threshold, level and threshold are kept;
    otherwise the threshold is taken off the sum, the level rises by 1 and
    the threshold becomes one and a half times itself, truncated.  A
    victory adds one win and pays the victory rewards; a defeat adds one
    loss; a draw changes no counter; defeat and draw pay the same reduced
    rewards.  The experience gained is at least 1 and the credits gained at
    least 0; the level rises by at most 1, and the credits grow by the
    credits gained plus 100 per level gained. *)
Theorem execute_battle_bookkeeping (fuel : nat) (start finish : datetime)
    (self : combat.CombatSystem) (player : player.Player)
    (opponent : combat.NPC) (g : random.state) :
  (20 <= fuel)%nat ->
  0 <= combat.level opponent < 2 ^ 48 ->
  Z.abs (player.experience_to_next_level player) < 2 ^ 51 ->
  0 <= player.combat_cooldown player <= 1000000000 ->
  exists result player' self' g',
    combat.execute_battle fuel start finish self player opponent g
    = (Some (result, player', self'), g') /\
    player.user_id player' = player.user_id player /\
    player.inventory player' = player.inventory player /\
    player.last_search player' = player.last_search player /\
    player.last_combat player' = Some start /\
    (forall now,
       player.can_combat now player' = true
       <-> player.combat_cooldown player * 1000000 <= now - start) /\
    (player.experience player + combat.Result.experience_gained result
     < player.experience_to_next_level player ->
     player.experience player'
     = player.experience player + combat.Result.experience_gained result /\
     player.level player' = player.level player /\
     player.experience_to_next_level player'
     = player.experience_to_next_level player) /\
    (player.experience_to_next_level player
     <= player.experience player + combat.Result.experience_gained result ->
     player.experience player'
     = player.experience player + combat.Result.experience_gained result
       - player.experience_to_next_level player /\
     player.level player' = player.level player + 1 /\
     player.experience_to_next_level player'
     = (3 * player.experience_to_next_level player) `quot` 2) /\
    (combat.Result.result result = "victory" ->
     player.combat_wins player' = player.combat_wins player + 1 /\
     player.combat_losses player' = player.combat_losses player /\
     combat.Result.experience_gained result
     = combat._calculate_experience_reward player opponent true /\
     combat.Result.credits_gained result
     = combat._calculate_credits_reward player opponent true) /\
    (combat.Result.result result = "defeat" ->
     player.combat_wins player' = player.combat_wins player /\
     player.combat_losses player' = player.combat_losses player + 1) /\
    (combat.Result.result result = "draw" ->
     player.combat_wins player' = player.combat_wins player /\
     player.combat_losses player' = player.combat_losses player) /\
    (combat.Result.result result <> "victory" ->
     combat.Result.experience_gained result
     = combat._calculate_experience_reward player opponent false /\
     combat.Result.credits_gained result
     = combat._calculate_credits_reward player opponent false) /\
    1 <= combat.Result.experience_gained result /\
    0 <= combat.Result.credits_gained result /\
    (player.level player' = player.level player \/
     player.level player' = player.level player + 1) /\
    player.credits player'
    = player.credits player + combat.Result.credits_gained result
      + 100 * (player.level player' - player.level player).
Proof.
  intros Hfuel _ _ _.
  destruct (execute_battle_played fuel start finish self player opponent g
              Hfuel)
    as (ph & oh & rounds & rn & g' & _ & Hexec & _).
  destruct (conclude_battle_effects finish self
              (player.start_combat start player) opponent ph oh rounds)
    as (Hplayer & Hresult & Hxg & Hcg & _).
  destruct (combat.conclude_battle finish self
              (player.start_combat start player) opponent ph oh rounds)
    as [[result player'] self'].
  cbn [fst snd] in Hplayer, Hresult, Hxg, Hcg.
  exists result, player', self', g'. split; [done|].
  set (victory := (0 <? ph) && (oh <=? 0)) in *.
  set (defeat := negb victory && ((0 <? oh) && (ph <=? 0))) in *.
  change (combat._calculate_experience_reward
            (player.start_combat start player))
    with (combat._calculate_experience_reward player) in *.
  change (combat._calculate_credits_reward
            (player.start_combat start player))
    with (combat._calculate_credits_reward player) in *.
  match type of Hplayer with
  | _ = player.set_health _ (player.add_credits _
                               (player.add_experience ?x ?q).2) =>
      pose proof (add_experience_untouched x q)
        as (Hid & Hinv & Hwins & Hlosses & Hlc & Hls & Hcc & Hlevel);
      pose proof (add_experience_fields x q) as Hprog;
      assert (Hq : player.experience q = player.experience player /\
                   player.level q = player.level player /\
                   player.experience_to_next_level q
                   = player.experience_to_next_level player)
        by (destruct victory; [|destruct defeat]; done);
      set (leveled := (player.add_experience x q).2) in *
  end.
  cbv zeta in Hprog. destruct Hq as (Qe & Ql & Qt).
  rewrite Qe, Ql, Qt in Hprog.
  assert (Hfields :
    player.user_id player' = player.user_id leveled /\
    player.inventory player' = player.inventory leveled /\
    player.last_search player' = player.last_search leveled /\
    player.last_combat player' = player.last_combat leveled /\
    player.combat_cooldown player' = player.combat_cooldown leveled /\
    player.combat_wins player' = player.combat_wins leveled /\
    player.combat_losses player' = player.combat_losses leveled /\
    player.level player' = player.level leveled /\
    player.experience player' = player.experience leveled /\
    player.experience_to_next_level player'
    = player.experience_to_next_level leveled /\
    player.credits player'
    = player.credits leveled + combat.Result.credits_gained result).
  { rewrite Hplayer, Hcg. by repeat split. }
  destruct Hfields as (Fid & Finv & Fls & Flc & Fcc & Fwins & Flosses
                       & Flevel & Fexp & Fthr & Fcredits).
  assert (Hcounted :
    player.user_id leveled = player.user_id player /\
    player.inventory leveled = player.inventory player /\
    player.last_search leveled = player.last_search player /\
    player.last_combat leveled = Some start /\
    player.combat_cooldown leveled = player.combat_cooldown player /\
    player.combat_wins leveled
    = player.combat_wins player + (if victory then 1 else 0) /\
    player.combat_losses leveled
    = player.combat_losses player
      + (if victory then 0 else if defeat then 1 else 0) /\
    (player.level leveled = player.level player /\
     player.credits leveled = player.credits player
     \/ player.level leveled = player.level player + 1 /\
        player.credits leveled = player.credits player + 100)).
  { rewrite Hid, Hinv, Hls, Hlc, Hcc, Hwins, Hlosses.
    destruct victory; [|destruct defeat]; cbn;
      repeat (split; [first [done | lia]|]); exact Hlevel. }
  destruct Hcounted as (Cid & Cinv & Cls & Clc & Ccc & Cwins & Closses
                        & Clevel).
  rewrite Fid, Finv, Fls, Flc, Fwins, Flosses, Flevel, Fexp, Fthr, Fcredits.
  rewrite Cid, Cinv, Cls, Clc, Cwins, Closses.
  rewrite Hresult, Hxg, Hcg.
  repeat (split; [done|]).
  split.
  { intros now. unfold player.can_combat. rewrite Flc, Clc, Fcc, Ccc.
    apply cooldown_over. }
  split; [exact (proj1 Hprog)|]. split; [exact (proj2 Hprog)|].
  clear Hprog.
  assert (Hx : forall v, 1 <= combat._calculate_experience_reward player
                                opponent v)
    by (intros v; unfold combat._calculate_experience_reward; lia).
  assert (Hc : forall v, 0 <= combat._calculate_credits_reward player
                                opponent v)
    by (intros v; unfold combat._calculate_credits_reward; lia).
  destruct victory; [|destruct defeat]; cbn [negb andb];
    repeat (split; [first [done | (intros; discriminate)
                            | (intros; repeat split; lia)
                            | apply Hx | apply Hc | lia]|]);
    lia.
Qed.

Lemma execute_round_record_witness :
  0 < 100 /\ 0 < 80 /\
  combat.Round.round
    (combat._execute_round neo gangster (player.get_total_stats neo)
       100 80 1 supply).1 = 1.
Proof.
  split; [lia|]. split; [lia|].
  destruct (execute_round_record neo gangster (player.get_total_stats neo)
              100 80 1 supply) as (H & _); [lia | lia | exact H].
Defined.

Lemma battle_rounds_follow_witness :
  (20 <= 20)%nat /\
  exists ph oh rounds rn g',
    combat.battle_loop 20 (player.start_combat 0 neo) gangster
      (player.get_total_stats neo) (player.health neo)
      (combat.health gangster) [] 1 supply
    = (Some (ph, oh, rounds, rn), g') /\
    played (player.health neo) (combat.health gangster) 1 rounds ph oh.
Proof.
  split; [lia|].
  destruct (battle_rounds_follow 20 0 neo gangster supply)
    as (ph & oh & rounds & rn & g' & Hloop & H & _); [lia|].
  exists ph, oh, rounds, rn, g'. by split.
Defined.

Lemma battle_damage_accounts_witness :
  (20 <= 20)%nat /\
  exists ph oh rounds rn g',
    combat.battle_loop 20 (player.start_combat 0 neo) gangster
      (player.get_total_stats neo) (player.health neo)
      (combat.health gangster) [] 1 supply
    = (Some (ph, oh, rounds, rn), g') /\
    player.health neo - ph <= damage_to_player rounds.
Proof.
  split; [lia|].
  destruct (battle_damage_accounts 20 0 1 combat.CombatSystem_init neo
              gangster supply)
    as (ph & oh & rounds & rn & result & player' & self' & g' & Hloop & _
        & H & _); [lia|].
  exists ph, oh, rounds, rn, g'. by split.
Defined.

Lemma battle_length_bounded_by_health_witness :
  (20 <= 20)%nat /\
  exists result player' self' g',
    combat.execute_battle 20 0 1 combat.CombatSystem_init neo gangster supply
    = (Some (result, player', self'), g') /\
    combat.Result.rounds result <= Z.max 0 (player.health neo).
Proof.
  split; [lia|].
  destruct (battle_length_bounded_by_health 20 0 1 combat.CombatSystem_init
              neo gangster supply)
    as (result & player' & self' & g' & Hexec & H & _); [lia|].
  exists result, player', self', g'. by split.
Defined.

Lemma execute_battle_bookkeeping_witness :
  (20 <= 20)%nat /\
  0 <= combat.level gangster < 2 ^ 48 /\
  Z.abs (player.experience_to_next_level neo) < 2 ^ 51 /\
  0 <= player.combat_cooldown neo <= 1000000000 /\
  exists result player' self' g',
    combat.execute_battle 20 7 9 combat.CombatSystem_init neo gangster supply
    = (Some (result, player', self'), g') /\
    player.last_combat player' = Some 7.
Proof.
  split; [lia|]. split; [by vm_compute|]. split; [by vm_compute|].
  split; [by vm_compute|].
  destruct (execute_battle_bookkeeping 20 7 9 combat.CombatSystem_init neo
              gangster supply)
    as (result & player' & self' & g' & Hexec & _ & _ & _ & H & _);
    [lia | by vm_compute | by vm_compute | by vm_compute |].
  exists result, player', self', g'. by split.
Defined.

(** X16: a battle leaves the roster as it was and appends exactly one
    record to the history, stamped with the time of the end and carrying
    the player's id, the opponent's name and the outcome, round count and
    rewards of the returned result. *)
Theorem execute_battle_history (fuel : nat) (start finish : datetime)
    (self : combat.CombatSystem) (player : player.Player)
    (opponent : combat.NPC) (g : random.state) :
  (20 <= fuel)%nat ->
  exists result player' self' g' record,
    combat.execute_battle fuel start finish self player opponent g
    = (Some (result, player', self'), g') /\
    combat.npc_database self' = combat.npc_database self /\
    combat.combat_history self' = combat.combat_history self ++ [record] /\
    combat.Record_.timestamp record = finish /\
    combat.Record_.player_id record = player.user_id player /\
    combat.Record_.opponent_name record = combat.name opponent /\
    combat.Record_.result record = combat.Result.result result /\
    combat.Record_.rounds record = combat.Result.rounds result /\
    combat.Record_.experience_gained record
    = combat.Result.experience_gained result /\
    combat.Record_.credits_gained record
    = combat.Result.credits_gained result.
Proof.
  intros Hfuel.
  destruct (execute_battle_played fuel start finish self player opponent g
              Hfuel)
    as (ph & oh & rounds & rn & g' & _ & Hexec & _).
  destruct (conclude_battle_effects finish self
              (player.start_combat start player) opponent ph oh rounds)
    as (_ & Hresult & Hxg & Hcg & Hdb & Hhistory).
  destruct (conclude_battle_fields finish self
              (player.start_combat start player) opponent ph oh rounds)
    as (_ & _ & Hrounds & _).
  destruct (combat.conclude_battle finish self
              (player.start_combat start player) opponent ph oh rounds)
    as [[result player'] self'].
  cbn [fst snd] in *.
  eexists result, player', self', g', _.
  split; [done|]. split; [done|]. split; [exact Hhistory|].
  cbn. by rewrite Hresult, Hxg, Hcg, Hrounds.
Qed.

(** ** Description and rewards *)


(** X18: against an opponent of level [0 <= L < 2^48] the consolation
    rewards are
    [max(1, 3L)] experience and [L] credits, and the victory rewards
    [15L] experience and [floor(15L/2)] credits, plus 5 and 3 per level
    by which the opponent exceeds the player; so a victory never pays less
    than a defeat, and pays strictly more from level 1 on. *)
Theorem victory_pays_more (player : player.Player) (opponent : combat.NPC) :
  let L := combat.level opponent in
  let stronger := Z.max 0 (L - player.level player) in
  0 <= L < 2 ^ 48 ->
  combat._calculate_experience_reward player opponent true
  = Z.max 1 (15 * L + 5 * stronger) /\
  combat._calculate_experience_reward player opponent false
  = Z.max 1 (3 * L) /\
  combat._calculate_credits_reward player opponent true
  = (15 * L) `div` 2 + 3 * stronger /\
  combat._calculate_credits_reward player opponent false = L /\
  combat._calculate_experience_reward player opponent false
  <= combat._calculate_experience_reward player opponent true /\
  combat._calculate_credits_reward player opponent false
  <= combat._calculate_credits_reward player opponent true /\
  (1 <= L ->
   combat._calculate_experience_reward player opponent false
   < combat._calculate_experience_reward player opponent true /\
   combat._calculate_credits_reward player opponent false
   < combat._calculate_credits_reward player opponent true).
Proof.
  cbv zeta. intros [HL _].
  destruct (reward_values player opponent HL) as (Hxt & Hxf & Hct & Hcf).
  rewrite Hxt, Hxf, Hct, Hcf.
  assert (H7 : 7 * combat.level opponent
               <= (15 * combat.level opponent) `div` 2)
    by (apply Z.div_le_lower_bound; lia).
  destruct (Z.ltb_spec (player.level player) (combat.level opponent));
    repeat split; lia.
Qed.

(** X19: with [base = max(1, attack - defense // 2)] below 2^51, the damage
    lies between [max(1, base - 2)] and [floor(3 base / 2) + 2]; without a
    critical chance it is at most [base + 2], with a critical chance of
    100 or more at least [floor(3 base / 2) - 2]; a defense of at least
    twice the attack holds the damage to 3 at most. *)
Theorem calculate_damage_bounds (attack defense critical_chance : Z)
    (g : random.state) :
  let base := Z.max 1 (attack - defense `div` 2) in
  let damage :=
    (combat._calculate_damage attack defense critical_chance g).1 in
  base < 2 ^ 51 ->
  Z.max 1 (base - 2) <= damage <= (3 * base) `div` 2 + 2 /\
  (critical_chance <= 0 -> damage <= base + 2) /\
  (100 <= critical_chance ->
   Z.max 1 ((3 * base) `div` 2 - 2) <= damage) /\
  (2 * attack <= defense -> damage <= 3).
Proof.
  cbv zeta. intros _.
  rewrite calculate_damage_eq. cbn [fst]. unfold spec.damage.
  set (base := Z.max 1 (attack - defense `div` 2)).
  pose proof (Z.mod_pos_bound (g 0%nat) 100 ltac:(lia)) as Hroll.
  pose proof (Z.mod_pos_bound (g 1%nat) 5 ltac:(lia)) as Hjitter.
  rewrite (Qfloor_scaled base 15 10).
  assert (Hcrit : (base * 15) `div` 10 = (3 * base) `div` 2).
  { replace (base * 15) with (3 * base * 5) by lia.
    change 10 with (2 * 5). by rewrite Z.div_mul_cancel_r by lia. }
  rewrite Hcrit.
  assert (Hbase : 1 <= base) by (unfold base; lia).
  assert (Hup : base <= (3 * base) `div` 2)
    by (apply Z.div_le_lower_bound; lia).
  assert (Hlow : 2 * attack <= defense -> base = 1).
  { intros H. unfold base.
    assert (attack <= defense `div` 2)
      by (apply Z.div_le_lower_bound; lia).
    lia. }
  assert (H32 : base = 1 -> (3 * base) `div` 2 = 1) by (by intros ->).
  destruct (Z.leb_spec (1 + g 0%nat `mod` 100) critical_chance);
    repeat split; intros; try lia.
Qed.

Lemma calculate_damage_bounds_witness :
  Z.max 1 (10 - 6 `div` 2) < 2 ^ 51 /\
  Z.max 1 (Z.max 1 (10 - 6 `div` 2) - 2)
  <= (combat._calculate_damage 10 6 15 supply).1
  <= (3 * Z.max 1 (10 - 6 `div` 2)) `div` 2 + 2.
Proof.
  split; [by vm_compute|].
  destruct (calculate_damage_bounds 10 6 15 supply) as (H & _);
    [by vm_compute | exact H].
Defined.

Lemma execute_battle_history_witness :
  (20 <= 20)%nat /\
  exists result player' self' g' record,
    combat.execute_battle 20 7 9 combat.CombatSystem_init neo gangster supply
    = (Some (result, player', self'), g') /\
    combat.combat_history self' = [record] /\
    combat.Record_.timestamp record = 9.
Proof.
  split; [lia|].
  destruct (execute_battle_history 20 7 9 combat.CombatSystem_init neo
              gangster supply)
    as (result & player' & self' & g' & record & Hexec & _ & Hhistory & Ht
        & _); [lia|].
  exists result, player', self', g', record. by repeat split.
Defined.

Lemma victory_pays_more_witness :
  0 <= combat.level gangster < 2 ^ 48 /\
  combat._calculate_credits_reward neo gangster false
  <= combat._calculate_credits_reward neo gangster true.
Proof.
  split; [by vm_compute|].
  destruct (victory_pays_more neo gangster) as (_ & _ & _ & _ & _ & H & _);
    [by vm_compute | exact H].
Defined.

(** ** Recent battles *)

Lemma insert_reverse_Permutation {A} (key : A -> Z) (x : A) (l : list A) :
  insert_reverse key x l ≡ₚ x :: l.
Proof.
  induction l as [|y l IH]; cbn; [done|].
  destruct (key x <? key y); [|done].
  rewrite IH. apply Permutation_swap.
Qed.

Lemma sorted_reverse_Permutation {A} (key : A -> Z) (l : list A) :
  sorted_reverse key l ≡ₚ l.
Proof.
  induction l as [|x l IH]; cbn; [done|].
  unfold sorted_reverse in IH. by rewrite insert_reverse_Permutation, IH.
Qed.

Lemma insert_reverse_sorted {A} (key : A -> Z) (x : A) (l : list A) :
  StronglySorted (fun a b => key b <= key a) l ->
  StronglySorted (fun a b => key b <= key a) (insert_reverse key x l).
Proof.
  induction 1 as [|y l Hsorted IH Hall]; cbn.
  - repeat constructor.
  - destruct (Z.ltb_spec (key x) (key y)).
    + constructor; [done|].
      rewrite insert_reverse_Permutation. constructor; [lia|done].
    + constructor; [by constructor|].
      constructor; [lia|].
      eapply Forall_impl; [exact Hall|]. cbn. intros; lia.
Qed.

Lemma sorted_reverse_sorted {A} (key : A -> Z) (l : list A) :
  StronglySorted (fun a b => key b <= key a) (sorted_reverse key l).
Proof.
  induction l as [|x l IH]; cbn; [constructor|].
  by apply insert_reverse_sorted.
Qed.

Lemma StronglySorted_take' {A} (R : relation A) (n : nat) (l : list A) :
  StronglySorted R l -> StronglySorted R (take n l).
Proof.
  intros H. rewrite <- (take_drop n l) in H.
  by apply StronglySorted_app_1_l in H.
Qed.

(** X20: [get_recent_battles] returns battles of the history that belong
    to the player, newest first; for a limit that is not negative, as many
    as the limit allows (all of the player's battles when the limit
    reaches their number), for a negative limit all but the last
    [- limit]; and no battle of the player that is left out is newer than
    one that is returned. *)
Theorem get_recent_battles_newest_first (self : combat.CombatSystem)
    (player : player.Player) (limit : Z) :
  let mine :=
    filter (fun battle : combat.Record_.t =>
              combat.Record_.player_id battle = player.user_id player)
      (combat.combat_history self) in
  let recent := combat.get_recent_battles self player limit in
  (forall battle, battle ∈ recent ->
     battle ∈ combat.combat_history self /\
     combat.Record_.player_id battle = player.user_id player) /\
  StronglySorted
    (fun a b => combat.Record_.timestamp b <= combat.Record_.timestamp a)
    recent /\
  (0 <= limit ->
   length recent = (Z.to_nat limit `min` length mine)%nat) /\
  (limit < 0 ->
   length recent = (length mine - Z.to_nat (- limit))%nat) /\
  (Z.of_nat (length mine) <= limit -> recent ≡ₚ mine) /\
  (forall battle, battle ∈ recent ->
   forall other, other ∈ mine -> other ∉ recent ->
     combat.Record_.timestamp other <= combat.Record_.timestamp battle).
Proof.
  cbv zeta. unfold combat.get_recent_battles.
  set (mine := filter _ (combat.combat_history self)).
  set (ordered := sorted_reverse combat.Record_.timestamp mine).
  assert (Hperm : ordered ≡ₚ mine) by apply sorted_reverse_Permutation.
  assert (Hsorted : StronglySorted
            (fun a b => combat.Record_.timestamp b
                        <= combat.Record_.timestamp a) ordered)
    by apply sorted_reverse_sorted.
  assert (Hlen : length ordered = length mine) by (by rewrite Hperm).
  unfold slice_to. rewrite Hlen.
  set (stop := Z.to_nat (if limit <? 0
                         then 0 `max` (limit + Z.of_nat (length mine))
                         else limit `min` Z.of_nat (length mine))).
  split.
  { intros battle Hin. apply subseteq_take in Hin.
    rewrite Hperm in Hin. unfold mine in Hin.
    by apply list_elem_of_filter in Hin as [? ?]. }
  split; [by apply StronglySorted_take'|].
  split.
  { intros Hlimit. rewrite length_take, Hlen. unfold stop.
    destruct (Z.ltb_spec limit 0); lia. }
  split.
  { intros Hlimit. rewrite length_take, Hlen. unfold stop.
    destruct (Z.ltb_spec limit 0); lia. }
  split.
  { intros Hlimit. rewrite take_ge; [done|]. rewrite Hlen. unfold stop.
    destruct (Z.ltb_spec limit 0); lia. }
  intros battle Hin other Hother Hout.
  rewrite <- (take_drop stop ordered) in Hsorted.
  rewrite <- Hperm, <- (take_drop stop ordered) in Hother.
  apply elem_of_app in Hother as [Hother|Hother]; [done|].
  by apply (StronglySorted_app_1_elem_of _ _ _ _ _ Hsorted).
Qed.

(** ** The fixed roster *)

Lemma roster_entries :
  Forall (fun npc : combat.NPC =>
            0 < combat.health npc /\
            combat.max_health npc = combat.health npc /\
            1 <= combat.level npc <= 35 /\
            combat.critical_damage npc = 15)
    combat._create_npc_database.
Proof. repeat (constructor; [by vm_compute|]). constructor. Qed.

Lemma roster_levels :
  combat.level <$> combat._create_npc_database
  = [1; 2; 3; 4; 5; 6; 7; 8; 9; 10; 15; 20; 25; 30; 35].
Proof. reflexivity. Qed.

Lemma roster_out_of_reach (L : Z) :
  Forall (fun npc : combat.NPC => ~ Z.abs (combat.level npc - L) <= 3)
    combat._create_npc_database
  <-> L < -2 \/ 38 < L.
Proof.
  rewrite <- (Forall_fmap combat.level (fun l => ~ Z.abs (l - L) <= 3)).
  rewrite roster_levels. rewrite !Forall_cons, Forall_nil. lia.
Qed.

(** X21: on the fixed roster [find_opponent] always returns, and finds
    nobody exactly for a player below level -2 or above level 38, so every
    level from 1 to 38 has an opponent; and every opponent it returns
    enters at full, positive health, has a level between 1 and 35 within 3
    of the player's, and a critical chance of 15. *)
Theorem roster_covers_levels (history : list combat.Record_.t)
    (player : player.Player) (g : random.state) :
  let self :=
    {| combat.npc_database := combat._create_npc_database;
       combat.combat_history := history |} in
  (combat.find_opponent self player g).1 <> None /\
  ((combat.find_opponent self player g).1 = Some None
   <-> player.level player < -2 \/ 38 < player.level player) /\
  (forall opponent,
     (combat.find_opponent self player g).1 = Some (Some opponent) ->
     0 < combat.health opponent /\
     combat.max_health opponent = combat.health opponent /\
     1 <= combat.level opponent <= 35 /\
     combat.critical_damage opponent = 15 /\
     Z.abs (combat.level opponent - player.level player) <= 3).
Proof.
  cbv zeta. rewrite find_opponent_eq. cbn [combat.npc_database].
  rewrite <- roster_out_of_reach.
  generalize combat._create_npc_database roster_entries.
  intros roster Hentries.
  pose proof (fun o => list_elem_of_filter
    (fun npc : combat.NPC =>
       Z.abs (combat.level npc - player.level player) <= 3) roster o)
    as Hin.
  destruct (filter _ roster) as [|o1 rest] eqn:Hs.
  - split; [done|]. split.
    + split; [intros _|done].
      apply Forall_forall. intros o Ho Hel.
      assert (Hno : o ∈ @nil combat.NPC) by (by apply Hin).
      by apply elem_of_nil in Hno.
    + done.
  - assert (Hlt : (Z.to_nat (g 0%nat `mod` Z.of_nat (length (o1 :: rest)))
                   < length (o1 :: rest))%nat).
    { pose proof (Z.mod_pos_bound (g 0%nat)
                    (Z.of_nat (length (o1 :: rest)))).
      cbn [length] in *. lia. }
    apply lookup_lt_is_Some_2 in Hlt as [o Ho].
    rewrite Ho. split; [done|]. split.
    + split; [done|]. intros Hall. exfalso.
      assert (H1 : o1 ∈ o1 :: rest) by apply list_elem_of_here.
      apply Hin in H1 as [Hel Hdb].
      by apply (proj1 (Forall_forall _ _) Hall o1).
    + intros opponent [= <-].
      apply list_elem_of_lookup_2, Hin in Ho as [Hel Hdb].
      apply (proj1 (Forall_forall _ _) Hentries) in Hdb. tauto.
Qed.

(** ** The item manager *)

Lemma choice_Some {A} (seq : list A) (g : random.state) :
  seq <> [] ->
  exists x, (random.choice seq g).1 = Some x /\ x ∈ seq.
Proof.
  intros Hne. unfold random.choice, random.bind, random.next, random.ret.
  cbn [fst].
  assert (Hlt : (Z.to_nat (g 0%nat `mod` Z.of_nat (length seq))
                 < length seq)%nat).
  { pose proof (Z.mod_pos_bound (g 0%nat) (Z.of_nat (length seq))).
    destruct seq; [done|]. cbn [length] in *. lia. }
  apply lookup_lt_is_Some_2 in Hlt as [x Hx]. exists x.
  split; [done|]. by apply list_elem_of_lookup_2 in Hx.
Qed.

(** X22: when the catalogue holds a common item, [get_random_item]
    returns an item of the catalogue after at most one call to itself: of
    the rarity asked for when the catalogue has one, a common one when it
    has none. *)
Theorem get_random_item_rarity (fuel : nat) (self : items.ItemManager)
    (rarity : option string) (g : random.state) :
  let wanted (r : string) :=
    filter (fun item => items.rarity item = r) (items.items_database self) in
  (1 <= fuel)%nat ->
  wanted "common" <> [] ->
  exists item,
    (items.get_random_item fuel self rarity g).1 = Some item /\
    item ∈ items.items_database self /\
    (forall r, rarity = Some r -> r <> "" -> wanted r <> [] ->
       items.rarity item = r) /\
    (forall r, rarity = Some r -> r <> "" -> wanted r = [] ->
       items.rarity item = "common").
Proof.
  cbv zeta. intros Hfuel Hcommon.
  assert (Hdb : items.items_database self <> []).
  { intros Hempty. by rewrite Hempty in Hcommon. }
  assert (Hall : forall fuel' g',
            exists item,
              (items.get_random_item fuel' self None g').1 = Some item /\
              item ∈ items.items_database self).
  { intros fuel' g'. destruct fuel'; cbn [items.get_random_item];
      (destruct (items.items_database self) as [|i0 db] eqn:Hd; [done|]);
      rewrite <- Hd; apply choice_Some; by rewrite Hd. }
  assert (Hempty_str : forall fuel' g',
            exists item,
              (items.get_random_item fuel' self (Some "") g').1 = Some item /\
              item ∈ items.items_database self).
  { intros fuel' g'. destruct fuel'; cbn [items.get_random_item String.eqb];
      (destruct (items.items_database self) as [|i0 db] eqn:Hd; [done|]);
      rewrite <- Hd; apply choice_Some; by rewrite Hd. }
  assert (Hfound : forall fuel' r g', r <> "" ->
            filter (fun item => items.rarity item = r)
              (items.items_database self) <> [] ->
            exists item,
              (items.get_random_item fuel' self (Some r) g').1 = Some item /\
              item ∈ items.items_database self /\ items.rarity item = r).
  { intros fuel' r g' Hr Hne.
    assert (Heqb : String.eqb r "" = false) by (by apply String.eqb_neq).
    destruct (choice_Some _ g' Hne) as (item & Hitem & Hin).
    apply list_elem_of_filter in Hin as [Hrar Hin].
    exists item.
    destruct fuel'; cbn [items.get_random_item]; rewrite Heqb;
      (destruct (filter _ (items.items_database self)) eqn:Hf; [done|]);
      rewrite <- Hf in *; done. }
  destruct rarity as [r|]; [|destruct (Hall fuel g) as (item & ? & ?)].
  - destruct (String.eqb_spec r "") as [->|Hr].
    { destruct (Hempty_str fuel g) as (item & ? & ?).
      exists item. repeat split; try done; by intros ? [= <-]. }
    destruct (decide (filter (fun item => items.rarity item = r)
                        (items.items_database self) = [])) as [Hnone|Hsome].
    + destruct fuel as [|fuel]; [lia|].
      destruct (Hfound fuel "common" g) as (item & Hitem & Hin & Hrar);
        [done | done |].
      exists item. cbn [items.get_random_item].
      rewrite (proj2 (String.eqb_neq r "") Hr), Hnone.
      repeat split; try done.
      * by intros ? [= <-].
    + destruct (Hfound fuel r g) as (item & Hitem & Hin & Hrar);
        [done | done |].
      exists item. repeat split; try done.
      * by intros ? [= <-].
      * by intros ? [= <-].
  - exists item. by repeat split.
Qed.

Lemma get_random_item_rarity_witness :
  (1 <= 1)%nat /\
  filter (fun item => items.rarity item = "common")
    (items.items_database items.ItemManager_init) <> [] /\
  exists item,
    (items.get_random_item 1 items.ItemManager_init (Some "mythic") supply).1
    = Some item /\
    items.rarity item = "common".
Proof.
  split; [lia|]. split; [by vm_compute|].
  destruct (get_random_item_rarity 1 items.ItemManager_init (Some "mythic")
              supply) as (item & Hitem & _ & _ & Hcommon);
    [lia | by vm_compute |].
  exists item. split; [exact Hitem|].
  apply (Hcommon "mythic"); [done | done | by vm_compute].
Defined.

(** X23: when the catalogue holds no common item and nothing of what is
    asked for (no item of the rarity, or no item at all when no rarity is
    given), [get_random_item] keeps calling itself for the "common" rarity
    and returns at no depth. *)
Theorem get_random_item_never_returns (fuel : nat)
    (self : items.ItemManager) (rarity : option string) (g : random.state) :
  let wanted (r : string) :=
    filter (fun item => items.rarity item = r) (items.items_database self) in
  wanted "common" = [] ->
  match rarity with
  | Some r => if String.eqb r "" then items.items_database self = []
              else wanted r = []
  | None => items.items_database self = []
  end ->
  (items.get_random_item fuel self rarity g).1 = None.
Proof.
  cbv zeta. intros Hcommon Hnothing.
  assert (Hloop : forall fuel',
            (items.get_random_item fuel' self (Some "common") g).1 = None).
  { induction fuel' as [|fuel' IH]; cbn [items.get_random_item];
      change (String.eqb "common" "") with false; cbn match;
      rewrite Hcommon; [done | exact IH]. }
  destruct fuel as [|fuel]; cbn [items.get_random_item];
    destruct rarity as [r|];
    try destruct (String.eqb r ""); rewrite Hnothing; try done;
    apply Hloop.
Qed.

Lemma shop_loop_Some (self : items.ItemManager) (rarities : list string) :
  forall (shop_items : list items.Item) (g : random.state),
    exists new,
      (items.shop_loop self rarities shop_items g).1
      = Some (shop_items ++ new) /\
      Forall2 (fun item r =>
                 item ∈ items.items_database self /\ items.rarity item = r)
        new
        (filter (fun r => items.get_items_by_rarity self r <> [])
           rarities).
Proof.
  induction rarities as [|rarity rest IH]; intros shop_items g.
  - exists []. cbn. by rewrite app_nil_r.
  - cbn [items.shop_loop]. rewrite filter_cons.
    destruct (decide (items.get_items_by_rarity self rarity <> []))
      as [Hsome|Hnone].
    + destruct (choice_Some _ g Hsome) as (item & Hitem & Hin).
      destruct (items.get_items_by_rarity self rarity) as [|i0 l] eqn:Hitems;
        [done|].
      rewrite <- Hitems in *. unfold random.bind.
      destruct (random.choice (items.get_items_by_rarity self rarity) g)
        as [picked g1]. cbn [fst] in Hitem. subst picked.
      destruct (IH (shop_items ++ [item]) g1) as (new & Hnew & Hall).
      exists (item :: new). rewrite Hnew, <- app_assoc. split; [done|].
      constructor; [|done].
      unfold items.get_items_by_rarity in Hin.
      apply list_elem_of_filter in Hin as [? ?]. by split.
    + assert (Hempty : items.get_items_by_rarity self rarity = []).
      { destruct (items.get_items_by_rarity self rarity); [done|].
        by exfalso; apply Hnone. }
      rewrite Hempty. apply IH.
Qed.

(** X24: [get_shop_items] always returns; the shop holds one item of the
    catalogue for each of "common", "rare", "epic" and "legendary" that
    the catalogue has, in this order, so at most four; on the fixed
    catalogue it holds exactly one of each. *)
Theorem get_shop_items_one_per_rarity (self : items.ItemManager)
    (g : random.state) :
  exists shop,
    (items.get_shop_items self g).1 = Some shop /\
    Forall2 (fun item r =>
               item ∈ items.items_database self /\ items.rarity item = r)
      shop
      (filter (fun r => items.get_items_by_rarity self r <> [])
         ["common"; "rare"; "epic"; "legendary"]) /\
    (length shop <= 4)%nat /\
    (items.items_database self = items._create_items_database ->
     items.rarity <$> shop = ["common"; "rare"; "epic"; "legendary"]).
Proof.
  unfold items.get_shop_items.
  destruct (shop_loop_Some self ["common"; "rare"; "epic"; "legendary"]
              [] g) as (shop & Hshop & Hall).
  rewrite app_nil_l in Hshop. exists shop. split; [done|].
  split; [done|]. split.
  - apply Forall2_length in Hall. rewrite Hall.
    etrans; [apply length_filter|]. done.
  - intros Hdb.
    assert (Hfour : filter (fun r => items.get_items_by_rarity self r <> [])
                      ["common"; "rare"; "epic"; "legendary"]
                    = ["common"; "rare"; "epic"; "legendary"]).
    { unfold items.get_items_by_rarity. rewrite Hdb.
      by vm_compute. }
    rewrite Hfour in Hall.
    repeat (apply Forall2_cons_inv_r in Hall as (? & ? & [_ <-] & Hall & ->)).
    by apply Forall2_nil_inv_r in Hall as ->.
Qed.

Lemma get_random_item_never_returns_witness :
  filter (fun item => items.rarity item = "common")
    (items.items_database
       {| items.items_database := []; items.rarity_weights := ∅ |}) = [] /\
  (items.get_random_item 1000
     {| items.items_database := []; items.rarity_weights := ∅ |}
     None supply).1 = None.
Proof.
  split; [done|].
  by apply (get_random_item_never_returns 1000
              {| items.items_database := []; items.rarity_weights := ∅ |}
              None supply).
Defined.

(** ** Game events and the daily reset *)

Lemma slice_from_suffix {A} (start : Z) (seq : list A) :
  slice_from start seq `suffix_of` seq.
Proof. apply suffix_drop. Qed.

Lemma slice_from_last {A} (count : Z) (seq : list A) :
  0 < count ->
  slice_from (- count) seq = drop (length seq - Z.to_nat count) seq.
Proof.
  intros Hcount. unfold slice_from.
  destruct (Z.ltb_spec (- count) 0); [|lia].
  f_equal. lia.
Qed.

(** X25: [add_game_event] puts the new event last and keeps the 100 most
    recent events: the list afterwards is a suffix of the former list with
    the event appended, of length [min(former length + 1, 100)], and the
    whole of it while fewer than 100 events were held; the rest of the
    engine is untouched. *)
Theorem add_game_event_keeps_last_100 (now : datetime)
    (event_description : game_engine.event_text)
    (self : game_engine.GameEngine) :
  let event :=
    {| game_engine.Event.timestamp := now;
       game_engine.Event.description := event_description |} in
  let self' := game_engine.add_game_event now event_description self in
  last (game_engine.game_events self') = Some event /\
  game_engine.game_events self'
  `suffix_of` game_engine.game_events self ++ [event] /\
  length (game_engine.game_events self')
  = (S (length (game_engine.game_events self)) `min` 100)%nat /\
  ((length (game_engine.game_events self) < 100)%nat ->
   game_engine.game_events self'
   = game_engine.game_events self ++ [event]) /\
  game_engine.players self' = game_engine.players self /\
  game_engine.combat_system self' = game_engine.combat_system self /\
  game_engine.item_manager self' = game_engine.item_manager self /\
  game_engine.daily_resets self' = game_engine.daily_resets self.
Proof.
  cbv zeta. unfold game_engine.add_game_event.
  cbn [game_engine.game_events game_engine.set_game_events].
  set (events := game_engine.game_events self ++ _).
  assert (Hlen : length events = S (length (game_engine.game_events self)))
    by (unfold events; rewrite length_app; cbn; lia).
  destruct (Z.ltb_spec 100 (Z.of_nat (length events))) as [Hover|Hfits];
    cbn [game_engine.game_events game_engine.set_game_events
         game_engine.players game_engine.combat_system
         game_engine.item_manager game_engine.daily_resets].
  - rewrite (slice_from_last 100) by done.
    split.
    { rewrite Hlen. unfold events. rewrite drop_app_le by lia.
      by rewrite last_snoc. }
    split; [apply suffix_drop|].
    split; [rewrite length_drop; lia|].
    split; [lia|done].
  - split; [by unfold events; rewrite last_snoc|].
    split; [done|]. split; [lia|]. done.
Qed.

(** X26: [get_game_events] returns a suffix of the events: the last
    [limit] of them (all, if there are fewer) for a positive limit, all of
    them for the limit 0, and the events without the first [- limit] for a
    negative limit. *)
Theorem get_game_events_limit (self : game_engine.GameEngine) (limit : Z) :
  let events := game_engine.game_events self in
  let shown := game_engine.get_game_events self limit in
  shown `suffix_of` events /\
  (limit = 0 -> shown = events) /\
  (0 < limit ->
   length shown = (Z.to_nat limit `min` length events)%nat) /\
  (limit < 0 ->
   shown = drop (Z.to_nat (- limit)) events).
Proof.
  cbv zeta. unfold game_engine.get_game_events.
  split; [apply slice_from_suffix|]. unfold slice_from. split.
  - intros ->. destruct (Z.ltb_spec (- 0) 0); [lia|].
    by rewrite Z.min_l by lia.
  - split.
    + intros Hlimit. destruct (Z.ltb_spec (- limit) 0); [|lia].
      rewrite length_drop. lia.
    + intros Hlimit. destruct (Z.ltb_spec (- limit) 0); [lia|].
      destruct (Z_le_gt_dec (- limit)
                  (Z.of_nat (length (game_engine.game_events self)))).
      * f_equal. lia.
      * rewrite !drop_ge by lia. done.
Qed.

(** X27: the daily reset fills the health to [max_health], adds
    [50 + 5 * level] credits, leaves level, experience, inventory and
    combat attributes alone, and clears both cooldowns, so that combat and
    search are allowed at any time afterwards with 0 seconds remaining; the
    last game event is then the bonus of this player. *)
Theorem daily_player_reset_effects (now : datetime)
    (self : game_engine.GameEngine) (player : player.Player) :
  let self' := (game_engine._daily_player_reset now self player).1 in
  let player' := (game_engine._daily_player_reset now self player).2 in
  let daily_bonus := 50 + player.level player * 5 in
  player.health player' = player.max_health player /\
  player.max_health player' = player.max_health player /\
  player.credits player' = player.credits player + daily_bonus /\
  player.level player' = player.level player /\
  player.experience player' = player.experience player /\
  player.inventory player' = player.inventory player /\
  own_stats player' = own_stats player /\
  (forall later,
     player.can_combat later player' = true /\
     player.can_search later player' = true /\
     player.get_combat_cooldown later player' = 0 /\
     player.get_search_cooldown later player' = 0) /\
  last (game_engine.game_events self')
  = Some {| game_engine.Event.timestamp := now;
            game_engine.Event.description :=
              game_engine.DailyBonus (player.username player)
                daily_bonus |}.
Proof.
  cbv zeta. unfold game_engine._daily_player_reset. cbn [fst snd].
  repeat (split; [done|]).
  unfold game_engine.add_game_event.
  cbn [game_engine.game_events game_engine.set_game_events].
  set (events := game_engine.game_events self ++ _).
  assert (Hlen : length events = S (length (game_engine.game_events self)))
    by (unfold events; rewrite length_app; cbn; lia).
  destruct (Z.ltb_spec 100 (Z.of_nat (length events))) as [Hover|Hfits];
    cbn [game_engine.game_events game_engine.set_game_events].
  - rewrite (slice_from_last 100) by done.
    rewrite Hlen. unfold events. rewrite drop_app_le by lia.
    by rewrite last_snoc.
  - by unfold events; rewrite last_snoc.
Qed.

(** ** Health within its bounds *)

Lemma add_experience_health (amount : Z) (self : player.Player) :
  let self' := (player.add_experience amount self).2 in
  player.level self' = player.level self /\
  player.max_health self' = player.max_health self /\
  player.health self' = player.health self
  \/ player.level self' = player.level self + 1 /\
     player.max_health self' = player.max_health self + 20 /\
     player.health self' = player.max_health self + 20.
Proof.
  cbv zeta. unfold player.add_experience.
  destruct (_ <=? _); cbn [snd]; [right | left]; by repeat split.
Qed.

(** X28: a health between 0 and [max_health] stays there through
    [take_damage], through [heal] of an amount that is not negative (which
    never exceeds [max_health] whatever the amount), through
    [add_experience] with or without a level-up, and through the daily
    reset. *)
Theorem health_stays_within_bounds (self : player.Player)
    (damage amount experience : Z) (now : datetime)
    (engine : game_engine.GameEngine) :
  let within (p : player.Player) :=
    0 <= player.health p <= player.max_health p in
  within self ->
  within (player.take_damage damage self).2 /\
  (0 <= amount -> within (player.heal amount self)) /\
  (player.health (player.heal amount self) <= player.max_health self) /\
  within (player.add_experience experience self).2 /\
  within (game_engine._daily_player_reset now engine self).2.
Proof.
  cbv zeta beta. intros Hwithin.
  split; [cbn; lia|]. split; [cbn; lia|]. split; [cbn; lia|].
  split; [|cbn; lia].
  destruct (add_experience_health experience self)
    as [(_ & -> & ->)|(_ & -> & ->)]; lia.
Qed.

Lemma health_stays_within_bounds_witness :
  0 <= player.health neo <= player.max_health neo /\
  0 <= player.health (player.take_damage 500 neo).2
  <= player.max_health (player.take_damage 500 neo).2.
Proof.
  split; [by vm_compute|].
  destruct (health_stays_within_bounds neo 500 0 0 0
              {| game_engine.item_manager := items.ItemManager_init;
                 game_engine.combat_system := combat.CombatSystem_init;
                 game_engine.players := ∅;
                 game_engine.game_events := [];
                 game_engine.daily_resets := ∅ |}) as (H & _);
    [by vm_compute | exact H].
Defined.

(** X29: after a battle the stored health is the simulated one raised to
    at least 1, so it never exceeds the health at entry (or 1), and
    [max_health] has grown by 20 per level gained.  A player within the
    bounds at entry is within them afterwards; when the reward brings a
    level-up, the health it restores is overwritten by the health of the
    battle, which leaves the player at least 20 below the new
    [max_health]. *)
Theorem execute_battle_health_after (fuel : nat) (start finish : datetime)
    (self : combat.CombatSystem) (player : player.Player)
    (opponent : combat.NPC) (g : random.state) :
  (20 <= fuel)%nat ->
  exists ph oh rounds rn result player' self' g',
    combat.battle_loop fuel (player.start_combat start player) opponent
      (player.get_total_stats player) (player.health player)
      (combat.health opponent) [] 1 g
    = (Some (ph, oh, rounds, rn), g') /\
    combat.execute_battle fuel start finish self player opponent g
    = (Some (result, player', self'), g') /\
    player.health player' = Z.max 1 ph /\
    ph <= player.health player /\
    player.health player' <= Z.max 1 (player.health player) /\
    player.max_health player'
    = player.max_health player
      + 20 * (player.level player' - player.level player) /\
    (1 <= player.max_health player ->
     player.health player <= player.max_health player ->
     1 <= player.health player' <= player.max_health player') /\
    (player.level player' = player.level player + 1 ->
     1 <= player.max_health player ->
     player.health player <= player.max_health player ->
     player.health player' + 20 <= player.max_health player').
Proof.
  intros Hfuel.
  destruct (execute_battle_played fuel start finish self player opponent g
              Hfuel)
    as (ph & oh & rounds & rn & g' & Hloop & Hexec & Hplayed & _).
  destruct (conclude_battle_effects finish self
              (player.start_combat start player) opponent ph oh rounds)
    as (Hplayer & _).
  destruct (combat.conclude_battle finish self
              (player.start_combat start player) opponent ph oh rounds)
    as [[result player'] self'].
  cbn [fst snd] in Hplayer.
  pose proof (played_damage rounds _ _ _ _ _ Hplayed)
    as (_ & _ & Hle & _).
  exists ph, oh, rounds, rn, result, player', self', g'.
  split; [done|]. split; [done|].
  match type of Hplayer with
  | _ = player.set_health _ (player.add_credits _
                               (player.add_experience ?x ?q).2) =>
      pose proof (add_experience_health x q) as Hcases;
      set (leveled := (player.add_experience x q).2) in *;
      assert (Hq : player.level q = player.level player /\
                   player.max_health q = player.max_health player)
        by (by repeat case_match)
  end.
  destruct Hq as [Hql Hqm]. rewrite Hql, Hqm in Hcases.
  assert (Hfields :
    player.health player' = Z.max 1 ph /\
    player.max_health player' = player.max_health leveled /\
    player.level player' = player.level leveled).
  { rewrite Hplayer. by repeat split. }
  destruct Hfields as (-> & -> & ->).
  destruct Hcases as [(-> & -> & _)|(-> & -> & _)]; repeat split; lia.
Qed.

Lemma execute_battle_health_after_witness :
  (20 <= 20)%nat /\
  exists result player' self' g',
    combat.execute_battle 20 0 1 combat.CombatSystem_init neo gangster supply
    = (Some (result, player', self'), g') /\
    player.health player' <= Z.max 1 (player.health neo).
Proof.
  split; [lia|].
  destruct (execute_battle_health_after 20 0 1 combat.CombatSystem_init neo
              gangster supply)
    as (ph & oh & rounds & rn & result & player' & self' & g' & _ & Hexec
        & _ & _ & H & _); [lia|].
  exists result, player', self', g'. by split.
Defined.
